(** * mztabm2mtbls: the conversion driver [convert] of [converter.py]

    A shallow embedding of [src/mztabm2mtbls/converter.py]: the module-level
    list [mappers], the command function [convert], and the Python library
    functions it calls on paths and strings.  The mapper classes, the [utils]
    helpers, the file system and the container tool are collaborators whose
    code is elsewhere; they enter as the fields of a class
    ([Collaborators]), so that every theorem holds whatever they do. *)

From Stdlib Require Import ZArith String Ascii Bool.
From stdpp Require Import base list.

Local Open Scope string_scope.
Local Open Scope Z_scope.

(** ** Python strings and [os.path]

    A [str] is modelled as a [string]: the sequence of its code units.  The
    functions below are the POSIX versions of the standard library. *)

Module Py.

(** [p.rfind(c)] for a one-character [c]: the highest index of [c] in
    [p], or [-1]. *)
Fixpoint rfind_from (c : ascii) (p : string) (i best : Z) : Z :=
  match p with
  | EmptyString => best
  | String a rest =>
      rfind_from c rest (i + 1) (if Ascii.eqb a c then i else best)
  end.

Definition rfind (c : ascii) (p : string) : Z := rfind_from c p 0 (-1).

(** The slices [p[:i]], [p[i:]] and [p[i:j]] for [0 <= i]. *)
Definition slice_to (p : string) (i : Z) : string :=
  substring 0 (Z.to_nat i) p.

Definition slice_from (p : string) (i : Z) : string :=
  substring (Z.to_nat i) (String.length p - Z.to_nat i) p.

Definition slice (p : string) (i j : Z) : string :=
  substring (Z.to_nat i) (Z.to_nat (j - i)) p.

(** The loop of [genericpath._splitext] that skips the leading dots of
    the file name: [n] is the number of iterations
    [while filenameIndex < dotIndex] has left; the result is [true] when
    the loop returns the split from inside, at a character that is not a
    dot. *)
Fixpoint splitext_scan (p : string) (filenameIndex : Z) (n : nat) : bool :=
  match n with
  | O => false
  | S n' =>
      if negb (String.eqb (slice p filenameIndex (filenameIndex + 1)) ".")
      then true
      else splitext_scan p (filenameIndex + 1) n'
  end.

(** [os.path.splitext(p)]: [(root, ext)]. *)
Definition splitext (p : string) : string * string :=
  let sepIndex := rfind "/" p in
  let dotIndex := rfind "." p in
  if (dotIndex >? sepIndex)
     && splitext_scan p (sepIndex + 1) (Z.to_nat (dotIndex - (sepIndex + 1)))
  then (slice_to p dotIndex, slice_from p dotIndex)
  else (p, "").

(** [s.lower()] on the letters [A-Z]; no other character lowers to one of
    the characters of [".json"], the only string the result is compared
    with. *)
Definition lower_char (a : ascii) : ascii :=
  let n := N_of_ascii a in
  if ((65 <=? n) && (n <=? 90))%N then ascii_of_N (n + 32) else a.

Fixpoint lower (s : string) : string :=
  match s with
  | EmptyString => EmptyString
  | String a rest => String (lower_char a) (lower rest)
  end.

(** [s.startswith(pre)] and [s.endswith(suf)]. *)
Definition startswith (s pre : string) : bool := String.prefix pre s.

Definition endswith (s suf : string) : bool :=
  let ls := String.length s in
  let lf := String.length suf in
  (lf <=? ls)%nat && String.eqb (substring (ls - lf) lf s) suf.

(** [s.rstrip("/")]. *)
Fixpoint rstrip_sep (s : string) : string :=
  match s with
  | EmptyString => EmptyString
  | String a rest =>
      match rstrip_sep rest with
      | EmptyString => if Ascii.eqb a "/" then EmptyString else String a EmptyString
      | r => String a r
      end
  end.

(** [os.path.basename(p)] and [os.path.dirname(p)]. *)
Definition basename (p : string) : string :=
  let i := rfind "/" p + 1 in
  slice_from p i.

Definition dirname (p : string) : string :=
  let i := rfind "/" p + 1 in
  let head := slice_to p i in
  match rstrip_sep head with
  | EmptyString => head   (* empty, or nothing but separators *)
  | stripped => stripped
  end.

(** [os.path.join(a, b)]. *)
Definition join (a b : string) : string :=
  if startswith b "/" then b
  else if String.eqb a "" || endswith a "/" then a ++ b
  else a ++ "/" ++ b.

(** What [click] hands over for an option: the declared default is the
    boolean [False], the annotation says [str].  [truthy] is the truth
    value Python's [not] and [and] test. *)
Inductive value :=
| VBool (b : bool)
| VStr (s : string).

Definition truthy (v : value) : bool :=
  match v with
  | VBool b => b
  | VStr s => negb (String.eqb s "")
  end.

End Py.

(** ** The collaborators

    [converter.py] imports ten mapper classes, three [utils] functions, the
    [MzTab] model class and the study-model writer, and it reaches the file
    system and the container engine through [os.path], [open], [json.load]
    and [subprocess.run].  None of that code is in [converter.py]. *)

(** The classes instantiated by the list display of [mappers] (lines 40-51). *)
Inductive mapper_class :=
| MetadataBaseMapper
| MetadataContactMapper
| MetadataPublicationMapper
| MetadataCvMapper
| MetadataSampleMapper
| MetadataSampleProcessingMapper
| MetadataSoftwareMapper
| MetadataDatabaseMapper
| MetadataAssayMapper
| SmallMoleculeSummaryMapper.

#[global] Instance mapper_class_eq_dec : EqDecision mapper_class.
Proof. solve_decision. Defined.

(** [subprocess.CompletedProcess] as [convert] reads it. *)
Record CompletedProcess := {
  task_stdout : string;
  task_stderr : string;
}.

(** How [subprocess.run(..., capture_output=True, text=True, check=True,
    timeout=120)] ends: it returns a [CompletedProcess] (exit status 0), or
    it raises [TimeoutExpired] or [CalledProcessError], both carrying what
    was captured, or it raises another exception (the shell could not be
    started, for one). *)
Inductive run_result (Exc : Type) :=
| Completed (task : CompletedProcess)
| TimeoutExpired (captured_stdout captured_stderr : string)
| CalledProcessError (returncode : Z) (captured_stdout captured_stderr : string)
| OtherException (e : Exc).

Arguments Completed {Exc} task.
Arguments TimeoutExpired {Exc} captured_stdout captured_stderr.
Arguments CalledProcessError {Exc} returncode captured_stdout captured_stderr.
Arguments OtherException {Exc} e.

(** Each collaborator is a function of what it is handed: of the file
    system, for those that read or write files, and of the contents of the
    objects it is applied to.  A function or method that mutates its
    arguments in place and may raise part-way returns the new contents
    together with the exception, if any; one that builds an object returns
    the object or the exception.  An [update] method has its instance, the
    source model and the destination model to read and to mutate. *)
Class Collaborators := {
  Json : Type;    (** what [json.load] returns *)
  MzTab : Type;   (** [mztabm2mtbls.mztab2.MzTab], the source model *)
  Mtbls : Type;   (** [MetabolightsStudyModel], the destination model *)
  Attrs : Type;   (** the attributes of a mapper instance *)
  Exc : Type;     (** exceptions, the subclasses of [Exception] *)
  Files : Type;   (** the file system *)
  str_exc : Exc -> string;
  path_exists : Files -> string -> bool;
  (** [os.path.realpath] raises for a path it cannot take, one with a
      null character, say, or when the working directory is gone *)
  realpath : Files -> string -> Exc + string;
  subprocess_run : Files -> list string -> Z -> run_result Exc * Files;
  json_load : Files -> string -> Exc + Json;
  replace_null_string_with_none : Json -> Json * option Exc;
  model_validate : Json -> Exc + MzTab;
  modify_mztab_model : MzTab -> MzTab * option Exc;
  create_metabolights_study_model : string -> Exc + Mtbls;
  (** [cls()] *)
  new_mapper : mapper_class -> Attrs;
  (** [self.update(mztab_model, mtbls_model)] for an instance of [cls] *)
  update : mapper_class -> Attrs -> MzTab -> Mtbls
           -> (Attrs * MzTab * Mtbls) * option Exc;
  save_metabolights_study_model : Files -> Mtbls -> string -> Files * option Exc;
}.

(** ** Objects, events and the monad of the interpreter *)

Section Driver.

Context `{C : Collaborators}.

(** Python objects live in stores, one per class, and are named by their
    index: two names are the same object exactly when they are equal. *)
Record World := {
  files : Files;
  jsons : list Json;
  sources : list MzTab;
  dests : list Mtbls;
  instances : list (mapper_class * Attrs);
}.

(** A call of a collaborator, with the objects it is applied to; a
    constructor is logged with the name its result gets. *)
Inductive call :=
| Open (path : string) (json : nat)
| ReplaceNull (json : nat)
| Validate (json : nat) (src : nat)
| Modify (src : nat)
| Create (study_id : string) (dst : nat)
| Update (cls : mapper_class) (self : nat) (src dst : nat)
| Save (dst : nat) (output_dir : string).

(** What a run leaves in its log: the lines printed, the instances
    constructed, the container launch with the way it ended, and the calls
    of the collaborators, each with the exception it raised, if any. *)
Inductive event :=
| EPrint (line : string)
| EConstruct (cls : mapper_class) (self : nat)
| ELaunch (cmd : list string) (timeout : Z) (r : run_result Exc)
| ECall (c : call) (raised : option Exc).

(** How a piece of code ends: it returns, an exception leaves it,
    [sys.exit] was called, or ([Stuck]) it used a name that denotes no
    object, which [convert_not_stuck] rules out. *)
Inductive outcome (A : Type) :=
| Return (a : A)
| Raise (e : Exc)
| SysExit (code : Z)
| Stuck.

Arguments Return {A} a.
Arguments Raise {A} e.
Arguments SysExit {A} code.
Arguments Stuck {A}.

(** A piece of code takes a world and gives an outcome, a world and the
    events it has logged. *)
Record Result (A : Type) := MkResult {
  res : outcome A;
  final : World;
  log : list event;
}.

Arguments MkResult {A} res final log.
Arguments res {A} r.
Arguments final {A} r.
Arguments log {A} r.

Definition M (A : Type) : Type := World -> Result A.

Definition ret {A} (a : A) : M A := fun w => MkResult (Return a) w [].

Definition bind {A B} (m : M A) (k : A -> M B) : M B := fun w =>
  let r := m w in
  match res r with
  | Return a =>
      let r' := k a (final r) in
      MkResult (res r') (final r') (log r ++ log r')
  | Raise e => MkResult (Raise e) (final r) (log r)
  | SysExit code => MkResult (SysExit code) (final r) (log r)
  | Stuck => MkResult Stuck (final r) (log r)
  end.

Notation "'let*' x ':=' m 'in' k" := (bind m (fun x => k))
  (at level 10, x name, m at level 100, k at level 200).
Notation "m 'and_then' k" := (bind m (fun _ => k))
  (at level 100, k at level 200, right associativity).

(** The exit status of the interpreter for an outcome of the command. *)
Definition exit_status {A} (o : outcome A) : option Z :=
  match o with
  | Return _ => Some 0
  | Raise _ => Some 1
  | SysExit code => Some code
  | Stuck => None
  end.

(** *** Primitive statements *)

Definition print (line : string) : M unit := fun w =>
  MkResult (Return tt) w [EPrint line].

Definition sys_exit {A} (code : Z) : M A := fun w =>
  MkResult (SysExit code) w [].

Definition os_path_exists (p : string) : M bool := fun w =>
  MkResult (Return (path_exists (files w) p)) w [].

Definition os_path_realpath (p : string) : M string := fun w =>
  match realpath (files w) p with
  | inr abs_path => MkResult (Return abs_path) w []
  | inl e => MkResult (Raise e) w []
  end.

(** Assignments to the stores. *)
Definition set_files (f : Files) (w : World) : World :=
  {| files := f; jsons := jsons w; sources := sources w; dests := dests w;
     instances := instances w |}.

Definition set_jsons (l : list Json) (w : World) : World :=
  {| files := files w; jsons := l; sources := sources w; dests := dests w;
     instances := instances w |}.

Definition set_sources (l : list MzTab) (w : World) : World :=
  {| files := files w; jsons := jsons w; sources := l; dests := dests w;
     instances := instances w |}.

Definition set_dests (l : list Mtbls) (w : World) : World :=
  {| files := files w; jsons := jsons w; sources := sources w; dests := l;
     instances := instances w |}.

Definition set_instances (l : list (mapper_class * Attrs)) (w : World) : World :=
  {| files := files w; jsons := jsons w; sources := sources w; dests := dests w;
     instances := l |}.

(** The outcome of a call that returns nothing. *)
Definition raised_outcome (x : option Exc) : outcome unit :=
  match x with
  | None => Return tt
  | Some e => Raise e
  end.

(** [subprocess.run(cmd, ...)]: its exceptions are handed to the [try]
    statement as data. *)
Definition subprocess_run_ (cmd : list string) (timeout : Z)
  : M (run_result Exc) := fun w =>
  let '(r, f) := subprocess_run (files w) cmd timeout in
  MkResult (Return r) (set_files f w) [ELaunch cmd timeout r].

(** [with open(path) as f: json.load(f)] *)
Definition open_json_load (path : string) : M nat := fun w =>
  let j := length (jsons w) in
  match json_load (files w) path with
  | inr data =>
      MkResult (Return j) (set_jsons (jsons w ++ [data]) w)
               [ECall (Open path j) None]
  | inl e => MkResult (Raise e) w [ECall (Open path j) (Some e)]
  end.

(** [utils.replace_null_string_with_none(mztab_json_data)] *)
Definition replace_null (j : nat) : M unit := fun w =>
  match jsons w !! j with
  | Some data =>
      let '(data', x) := replace_null_string_with_none data in
      MkResult (raised_outcome x) (set_jsons (<[j := data']> (jsons w)) w)
               [ECall (ReplaceNull j) x]
  | None => MkResult Stuck w []
  end.

(** [MzTab.model_validate(mztab_json_data)] *)
Definition validate (j : nat) : M nat := fun w =>
  let s := length (sources w) in
  match jsons w !! j with
  | Some data =>
      match model_validate data with
      | inr model =>
          MkResult (Return s) (set_sources (sources w ++ [model]) w)
                   [ECall (Validate j s) None]
      | inl e => MkResult (Raise e) w [ECall (Validate j s) (Some e)]
      end
  | None => MkResult Stuck w []
  end.

(** [utils.modify_mztab_model(mztab_model)] *)
Definition modify (s : nat) : M unit := fun w =>
  match sources w !! s with
  | Some model =>
      let '(model', x) := modify_mztab_model model in
      MkResult (raised_outcome x) (set_sources (<[s := model']> (sources w)) w)
               [ECall (Modify s) x]
  | None => MkResult Stuck w []
  end.

(** [utils.create_metabolights_study_model(study_id=...)] *)
Definition create (study_id : string) : M nat := fun w =>
  let d := length (dests w) in
  match create_metabolights_study_model study_id with
  | inr model =>
      MkResult (Return d) (set_dests (dests w ++ [model]) w)
               [ECall (Create study_id d) None]
  | inl e => MkResult (Raise e) w [ECall (Create study_id d) (Some e)]
  end.

(** [mapper.update(mztab_model, mtbls_model)] *)
Definition mapper_update (self s d : nat) : M unit := fun w =>
  match instances w !! self, sources w !! s, dests w !! d with
  | Some (cls, attrs), Some src, Some dst =>
      let '(attrs', src', dst', x) := update cls attrs src dst in
      MkResult (raised_outcome x)
               (set_instances (<[self := (cls, attrs')]> (instances w))
                  (set_sources (<[s := src']> (sources w))
                     (set_dests (<[d := dst']> (dests w)) w)))
               [ECall (Update cls self s d) x]
  | _, _, _ => MkResult Stuck w []
  end.

(** [utils.save_metabolights_study_model(mtbls_model, output_dir=...)] *)
Definition save (d : nat) (output_dir : string) : M unit := fun w =>
  match dests w !! d with
  | Some dst =>
      let '(f, x) := save_metabolights_study_model (files w) dst output_dir in
      MkResult (raised_outcome x) (set_files f w) [ECall (Save d output_dir) x]
  | None => MkResult Stuck w []
  end.

(** [cls()], for an entry of the list display *)
Definition construct (cls : mapper_class) : M nat := fun w =>
  let self := length (instances w) in
  MkResult (Return self)
           (set_instances (instances w ++ [(cls, new_mapper cls)]) w)
           [EConstruct cls self].

(** [for x in l: body(x)] *)
Fixpoint for_each {A} (l : list A) (body : A -> M unit) : M unit :=
  match l with
  | [] => ret tt
  | x :: l' => body x and_then for_each l' body
  end.

(** A list display [[e1, ..., en]], evaluated left to right. *)
Fixpoint list_display {A B} (f : A -> M B) (l : list A) : M (list B) :=
  match l with
  | [] => ret []
  | x :: l' =>
      let* y := f x in
      let* ys := list_display f l' in
      ret (y :: ys)
  end.

(** ** The module [converter]

    Importing the module evaluates the list display of lines 40-51: one
    instance of each class, in this order.  The global [mappers] is the
    list of the instances' names. *)
Definition mapper_classes : list mapper_class :=
  [ MetadataBaseMapper;
    MetadataContactMapper;
    MetadataPublicationMapper;
    MetadataCvMapper;
    MetadataSampleMapper;
    MetadataSampleProcessingMapper;
    MetadataSoftwareMapper;
    MetadataDatabaseMapper;
    MetadataAssayMapper;
    SmallMoleculeSummaryMapper ].

(** [import mztabm2mtbls.converter]: the value of [mappers]. *)
Definition import_converter : M (list nat) :=
  list_display construct mapper_classes.

(** The [finally] clause of lines 139-141. *)
Definition finally_clause (task : option CompletedProcess) : M unit :=
  match task with
  | Some t =>
      if negb (String.eqb (task_stdout t) "") then print (task_stdout t)
      else ret tt
  | None => ret tt
  end.

(** The argument list of [subprocess.run] (lines 117-122). *)
Definition container_command (container_engine mztab2m_json_convertor_image
                              dirname filename : string) : list string :=
  [ "sh"; "-c";
    container_engine ++ " run --rm -v " ++ dirname
    ++ ":/home/data:rw --workdir=/home/data " ++ mztab2m_json_convertor_image
    ++ " jmztab-m -c /home/data/" ++ filename
    ++ " --toJson -o /home/data/" ++ filename ++ "_validation.txt" ].

(** The [else] branch of lines 106-141: the container is run on the
    directory of the input file.  Line 107 stands before the [try]
    statement: an exception of [os.path.realpath] leaves [convert].  [task]
    stays [None] unless [subprocess.run] returns; [sys.exit] raises
    [SystemExit], which the [finally] clause lets through after it has
    run. *)
Definition preconvert (input_file container_engine
                       mztab2m_json_convertor_image : string) : M unit :=
  let* abs_path := os_path_realpath input_file in
  let dirname := Py.dirname abs_path in
  let filename := Py.basename abs_path in
  print ("Converting mzTab file to mzTab json format."
         ++ " Please check container management tool (docker, podman, etc.) is installed and runnig.")
  and_then
  let task : option CompletedProcess := None in
  let* r :=
    subprocess_run_
      (container_command container_engine mztab2m_json_convertor_image
         dirname filename)
      120 in
  match r with
  | Completed t =>
      let task := Some t in
      finally_clause task
  | TimeoutExpired _ _ =>
      print "The conversion of the mzTab file to mzTab json format timed out."
      and_then finally_clause task
      and_then sys_exit 1
  | CalledProcessError _ _ exc_stderr =>
      print "The conversion of the mzTab file to mzTab json format failed."
      and_then print exc_stderr
      and_then finally_clause task
      and_then sys_exit 1
  | OtherException exc =>
      print "The conversion of the mzTab file to mzTab json format failed."
      and_then
      match task with
      | Some t =>
          if negb (String.eqb (task_stderr t) "") then print (task_stderr t)
          else print (str_exc exc)
      | None => print (str_exc exc)
      end
      and_then finally_clause task
      and_then sys_exit 1
  end.

(** [convert] (lines 82-157).  [mappers] is the module global. *)
Definition convert (mappers : list nat)
    (input_file output_dir mtbls_accession_number container_engine
     mztab2m_json_convertor_image : string)
    (override_mztab2m_json_file : Py.value) : M unit :=
  let input_json_file := input_file in
  print ("Please note that the mzTab-M file is not fully validated by this tool."
         ++ " The ISA-Tab files are not validated either at the moment.")
  and_then
  (if Py.startswith input_file "test/data/singa" then
     print "Using default input file: test/data/singaporean-plasma-site1.mzTab"
     and_then
     print "Please use the --input-file option to specify a custom input file."
   else ret tt)
  and_then
  let '(_, extension) := Py.splitext input_file in
  let* input_json_file :=
    if negb (String.eqb (Py.lower extension) ".json") then
      let input_json_file := input_file ++ ".json" in
      let* usable :=
        if negb (Py.truthy override_mztab2m_json_file)
        then os_path_exists input_json_file
        else ret false in
      if usable then
        print (input_json_file ++ " file exists, it will be used as an input.")
        and_then ret input_json_file
      else
        preconvert input_file container_engine mztab2m_json_convertor_image
        and_then ret input_json_file
    else ret input_json_file in
  let* mztab_json_data := open_json_load input_json_file in
  replace_null mztab_json_data and_then
  let* mztab_model := validate mztab_json_data in
  modify mztab_model and_then
  let* mtbls_model := create mtbls_accession_number in
  for_each mappers (fun mapper => mapper_update mapper mztab_model mtbls_model)
  and_then
  let study_metadata_output_path := Py.join output_dir mtbls_accession_number in
  save mtbls_model study_metadata_output_path.

End Driver.

Arguments Return {C A} a.
Arguments Raise {C A} e.
Arguments SysExit {C A} code.
Arguments Stuck {C A}.
Arguments MkResult {C A} res final log.
Arguments res {C A} r.
Arguments final {C A} r.
Arguments log {C A} r.

(** ** A small concrete world, to run the driver on *)

Module Toy.

Definition class_name (cls : mapper_class) : string :=
  match cls with
  | MetadataBaseMapper => "base"
  | MetadataContactMapper => "contact"
  | MetadataPublicationMapper => "publication"
  | MetadataCvMapper => "cv"
  | MetadataSampleMapper => "sample"
  | MetadataSampleProcessingMapper => "sample_processing"
  | MetadataSoftwareMapper => "software"
  | MetadataDatabaseMapper => "database"
  | MetadataAssayMapper => "assay"
  | SmallMoleculeSummaryMapper => "summary"
  end.

Fixpoint mem (x : string) (l : list string) : bool :=
  match l with
  | [] => false
  | y :: l' => String.eqb x y || mem x l'
  end.

(** The path has a null character. *)
Fixpoint has_nul (p : string) : bool :=
  match p with
  | EmptyString => false
  | String c p' => Ascii.eqb c Ascii.zero || has_nul p'
  end.

(** What varies between the runs below: how the container ends and which
    files it leaves, which mapper raises, and whether the mappers count
    their calls in an attribute and write the count into their rows. *)
Record scenario := {
  tool : run_result string;
  tool_creates : list string;
  failing : option mapper_class;
  counting : bool;
}.

Definition row (sc : scenario) (cls : mapper_class) (calls : nat) : string :=
  if counting sc
  then class_name cls ++ "#" ++ String (ascii_of_nat (48 + calls)) ""
  else class_name cls.

(** Files are the list of the paths that exist; a JSON document is a list
    of strings, the models are lists of rows. *)
Definition collaborators (sc : scenario) : Collaborators := {|
  Json := list string;
  MzTab := list string;
  Mtbls := list string;
  Attrs := nat;
  Exc := string;
  Files := list string;
  str_exc e := e;
  path_exists fs p := mem p fs;
  realpath fs p :=
    if has_nul p then inl "ValueError: embedded null byte"
    else inr ("/data/" ++ p);
  subprocess_run fs cmd timeout :=
    (tool sc, match tool sc with Completed _ => (tool_creates sc ++ fs)%list | _ => fs end);
  json_load fs p := if mem p fs then inr ["null"; p] else inl "FileNotFoundError";
  replace_null_string_with_none data :=
    (filter (fun x => negb (String.eqb x "null")) data, None);
  model_validate data := inr data;
  modify_mztab_model model := ((model ++ ["normalized"])%list, None);
  create_metabolights_study_model study_id := inr [study_id];
  new_mapper cls := O;
  update cls calls src dst :=
    ((S calls, src, (dst ++ [row sc cls calls])%list),
     if bool_decide (failing sc = Some cls) then Some "KeyError" else None);
  save_metabolights_study_model fs dst output_dir := (output_dir :: fs, None);
|}.

Definition world (sc : scenario) (fs : list string) : @World (collaborators sc) :=
  {| files := fs : @Files (collaborators sc);
     jsons := []; sources := []; dests := []; instances := [] |}.

(** The process: import the module, then call [convert] once or twice
    with the default options on [input_file]. *)
Definition run_once (sc : scenario) (fs : list string) (input_file : string)
    (override : Py.value) : @Result (collaborators sc) unit :=
  let r0 := import_converter (world sc fs) in
  match res r0 with
  | Return mappers =>
      convert mappers input_file "output" "MTBLS1" "docker" "jmztab-m:1.0.6"
              override (final r0)
  | _ => MkResult Stuck (final r0) []
  end.

Definition plain : scenario :=
  {| tool := Completed {| task_stdout := "ok"; task_stderr := "" |};
     tool_creates := ["x.mzTab.json"]; failing := None; counting := false |}.

(** The container does not answer within the 120 seconds. *)
Definition timing_out : scenario :=
  {| tool := TimeoutExpired "partial output" "engine not responding";
     tool_creates := []; failing := None; counting := false |}.

(** The shell does not find the container engine. *)
Definition exiting : scenario :=
  {| tool := CalledProcessError 127 "" "sh: 1: docker: not found";
     tool_creates := []; failing := None; counting := false |}.

(** The contact mapper raises. *)
Definition failing_contact : scenario :=
  {| tool := tool plain; tool_creates := tool_creates plain;
     failing := Some MetadataContactMapper; counting := false |}.

(** The mappers keep a count of their calls and write it into their rows. *)
Definition counting_calls : scenario :=
  {| tool := tool plain; tool_creates := tool_creates plain;
     failing := None; counting := true |}.

(** Two calls of [convert] in one process. *)
Definition run_twice (sc : scenario) (fs : list string) (input_file : string)
    (override : Py.value) : @Result (collaborators sc) unit :=
  let r1 := run_once sc fs input_file override in
  convert (seq 0 10) input_file "output" "MTBLS1" "docker" "jmztab-m:1.0.6"
          override (final r1).

(** A process with one source model and one destination model in store,
    whose ten instances all have counted [calls] calls; [older] models
    stand before the two in the stores. *)
Definition stocked (sc : scenario) (calls : nat) (older : list (list string))
  : @World (collaborators sc) :=
  {| files := [] : @Files (collaborators sc);
     jsons := [];
     sources := (older ++ [["sample-1"; "normalized"]])%list;
     dests := (older ++ [["MTBLS1"]])%list;
     instances := map (fun cls => (cls, calls)) mapper_classes |}.

End Toy.

(** ** Notions for the statements

    What the theorems speak of: the state of a process that has imported
    the module, the calls a log shows, the calls of a run that nothing
    interrupts, and the ways lines 90-141 can end. *)

Local Open Scope list_scope.

Section Notions.

Context `{C : Collaborators}.

Implicit Types (w : World) (l mappers : list nat) (cl : list mapper_class).

(** A call that returned. *)
Definition ok (c : call) : event := ECall c None.

(** [self] names an instance of [cls]. *)
Definition has_class (w : World) (self : nat) (cls : mapper_class) : Prop :=
  exists attrs, instances w !! self = Some (cls, attrs).

(** The state of a process that has imported the module: [mappers] names
    ten distinct instances, of the classes of the list display. *)
Definition loaded (mappers : list nat) (w : World) : Prop :=
  Forall2 (has_class w) mappers mapper_classes /\ NoDup mappers.

(** [w'] has the objects of [w]: the same files and JSON documents, as
    many models, and every instance with its class. *)
Definition same_objects (w w' : World) : Prop :=
  files w' = files w
  /\ jsons w' = jsons w
  /\ length (sources w') = length (sources w)
  /\ length (dests w') = length (dests w)
  /\ length (instances w') = length (instances w)
  /\ forall self cls, has_class w self cls -> has_class w' self cls.

(** The calls of the loop of lines 152-153 on [l], whose instances have
    the classes [cl]. *)
Definition update_calls l cl (s d : nat) : list call :=
  zip_with (fun self cls => Update cls self s d) l cl.

(** [w'] has the instances of [w], each with its class. *)
Definition kept (w w' : World) : Prop :=
  length (instances w') = length (instances w)
  /\ forall self cls, has_class w self cls -> has_class w' self cls.

(** The code that ended in [r] made the first calls of [canon] in order;
    all returned but the last, which raised the exception that ends [r]. *)
Definition interrupted {A} (canon : list call) (r : Result A) : Prop :=
  exists n c e,
    canon !! n = Some c
    /\ res r = Raise e
    /\ log r = map ok (take n canon) ++ [ECall c (Some e)].

(** The stores of [w] hold [j] JSON documents, [s] source models and
    [d] destination models. *)
Definition sized (w : World) (j s d : nat) : Prop :=
  length (jsons w) = j /\ length (sources w) = s /\ length (dests w) = d.

(** Lines 143-157 as a piece of code: from reading the model to saving
    the study. *)
Definition pipeline mappers (input_json_file output_dir
                             mtbls_accession_number : string) : M unit :=
  bind (open_json_load input_json_file) (fun mztab_json_data =>
  bind (replace_null mztab_json_data) (fun _ =>
  bind (validate mztab_json_data) (fun mztab_model =>
  bind (modify mztab_model) (fun _ =>
  bind (create mtbls_accession_number) (fun mtbls_model =>
  bind (for_each mappers
          (fun mapper => mapper_update mapper mztab_model mtbls_model)) (fun _ =>
  save mtbls_model (Py.join output_dir mtbls_accession_number))))))).

(** The calls of a run that nothing interrupts, for the names [j], [s]
    and [d] of the JSON document, the source and the destination. *)
Definition canon_calls mappers (j s d : nat)
    (input_json_file mtbls_accession_number study_path : string) : list call :=
  Open input_json_file j
  :: ReplaceNull j
  :: Validate j s
  :: Modify s
  :: Create mtbls_accession_number d
  :: update_calls mappers mapper_classes s d ++ [Save d study_path].

(** The lines [convert] prints. *)
Definition disclaimer : string :=
  "Please note that the mzTab-M file is not fully validated by this tool. The ISA-Tab files are not validated either at the moment.".

Definition timed_out_message : string :=
  "The conversion of the mzTab file to mzTab json format timed out.".

Definition failed_message : string :=
  "The conversion of the mzTab file to mzTab json format failed.".

Definition launching : string :=
  "Converting mzTab file to mzTab json format. Please check container management tool (docker, podman, etc.) is installed and runnig.".

(** What lines 92-99 print. *)
Definition header (input_file : string) : list event :=
  EPrint disclaimer
  :: (if Py.startswith input_file "test/data/singa"
      then [EPrint "Using default input file: test/data/singaporean-plasma-site1.mzTab";
            EPrint "Please use the --input-file option to specify a custom input file."]
      else []).

(** The test of line 102, negated: the input is read as JSON. *)
Definition json_extension (input_file : string) : bool :=
  String.eqb (Py.lower (Py.splitext input_file).2) ".json".

(** The command that is run for an input file whose real path is
    [abs_path]. *)
Definition tool_command (abs_path container_engine image : string)
  : list string :=
  container_command container_engine image
    (Py.dirname abs_path) (Py.basename abs_path).

(** How lines 90-141 end: line 143 is reached with a path in
    [input_json_file], the run has ended in [sys.exit(1)], or an exception
    has left [convert]. *)
Inductive ending :=
| Reading (input_json_file : string)
| Exiting
| Failing (e : Exc).

(** What is printed once [subprocess.run] has ended in [r]. *)
Definition tool_report (r : run_result Exc) : list event :=
  match r with
  | Completed t =>
      if negb (String.eqb (task_stdout t) "") then [EPrint (task_stdout t)] else []
  | TimeoutExpired _ _ => [EPrint timed_out_message]
  | CalledProcessError _ _ exc_stderr => [EPrint failed_message; EPrint exc_stderr]
  | OtherException exc => [EPrint failed_message; EPrint (str_exc exc)]
  end.

(** [subprocess.run] returned. *)
Definition tool_succeeded (r : run_result Exc) : bool :=
  match r with
  | Completed _ => true
  | _ => false
  end.

(** The four ways through lines 90-141, with what they log, how they end
    and the world they leave. *)
Inductive resolution (w : World) (input_file container_engine image : string)
    (override : Py.value) : list event -> ending -> World -> Prop :=
| resolved_json :
    json_extension input_file = true ->
    resolution w input_file container_engine image override
      (header input_file) (Reading input_file) w
| resolved_existing :
    json_extension input_file = false ->
    Py.truthy override = false ->
    path_exists (files w) (input_file ++ ".json")%string = true ->
    resolution w input_file container_engine image override
      (header input_file
       ++ [EPrint ((input_file ++ ".json")
                   ++ " file exists, it will be used as an input.")%string])
      (Reading (input_file ++ ".json")%string) w
| resolved_unreal e :
    json_extension input_file = false ->
    (Py.truthy override = true
     \/ path_exists (files w) (input_file ++ ".json")%string = false) ->
    realpath (files w) input_file = inl e ->
    resolution w input_file container_engine image override
      (header input_file) (Failing e) w
| resolved_tool abs_path r f :
    json_extension input_file = false ->
    (Py.truthy override = true
     \/ path_exists (files w) (input_file ++ ".json")%string = false) ->
    realpath (files w) input_file = inr abs_path ->
    subprocess_run (files w)
      (tool_command abs_path container_engine image) 120 = (r, f) ->
    resolution w input_file container_engine image override
      (header input_file
       ++ [EPrint "Converting mzTab file to mzTab json format. Please check container management tool (docker, podman, etc.) is installed and runnig.";
           ELaunch (tool_command abs_path container_engine image) 120 r]
       ++ tool_report r)
      (if tool_succeeded r then Reading (input_file ++ ".json")%string
       else Exiting)
      (set_files f w).

(** Lines 90-141 as a piece of code. *)
Definition locate (input_file container_engine image : string)
    (override : Py.value) : M string :=
  if negb (json_extension input_file) then
    bind (if negb (Py.truthy override)
          then os_path_exists (input_file ++ ".json")%string
          else ret false) (fun usable =>
    if (usable : bool) then
      bind (print ((input_file ++ ".json")
                   ++ " file exists, it will be used as an input.")%string)
        (fun _ => ret (input_file ++ ".json")%string)
    else
      bind (preconvert input_file container_engine image)
        (fun _ => ret (input_file ++ ".json")%string))
  else ret input_file.

(** [r], with [evs] logged before it. *)
Definition prepend {A} (evs : list event) (r : Result A) : Result A :=
  MkResult (res r) (final r) (evs ++ log r).

(** The outcome of lines 90-141 for each way they end. *)
Definition located (op : ending) : outcome string :=
  match op with
  | Reading p => Return p
  | Exiting => SysExit 1
  | Failing e => Raise e
  end.

(** The collaborator calls of a log, each with the exception it raised,
    if any; what is printed and the container launch are left out. *)
Definition calls_of (evs : list event) : list (call * option Exc) :=
  omap (fun ev => match ev with
                  | ECall c x => Some (c, x)
                  | _ => None
                  end) evs.

(** A call and the fact that it returned. *)
Definition returned (c : call) : call * option Exc := (c, None).

(** The container launches of a log. *)
Definition launches_of (evs : list event) : list (run_result Exc) :=
  omap (fun ev => match ev with
                  | ELaunch _ _ r => Some r
                  | _ => None
                  end) evs.

(** The lines a log prints. *)
Definition printed (evs : list event) : list string :=
  omap (fun ev => match ev with
                  | EPrint line => Some line
                  | _ => None
                  end) evs.

(** The instances a log shows were constructed. *)
Definition constructs_of (evs : list event) : list (mapper_class * nat) :=
  omap (fun ev => match ev with
                  | EConstruct cls self => Some (cls, self)
                  | _ => None
                  end) evs.

(** The kinds of call the statements single out. *)
Definition is_update (c : call) : bool :=
  match c with
  | Update _ _ _ _ => true
  | _ => false
  end.

Definition is_save (c : call) : bool :=
  match c with
  | Save _ _ => true
  | _ => false
  end.

(** The [update] calls that a log shows were made, whether they returned
    or raised. *)
Definition updates_in (cs : list (call * option Exc)) : list call :=
  omap (fun cx : call * option Exc => if is_update cx.1 then Some cx.1 else None) cs.

(** The same, read off a log. *)
Definition update_calls_of (evs : list event) : list call :=
  updates_in (calls_of evs).

(** The calls before the loop. *)
Definition first_calls (j s d : nat) (p acc : string) : list call :=
  [Open p j; ReplaceNull j; Validate j s; Modify s; Create acc d].

(** The instance an [update] call is made on. *)
Definition self_of (c : call) : nat :=
  match c with
  | Update _ self _ _ => self
  | _ => O
  end.

(** The instances whose [update] a log shows was called. *)
Definition updated (evs : list event) : list nat :=
  map self_of (update_calls_of evs).

(** What the code that logged [evs] from [w] to [w'] did to the instances:
    none was added; one whose [update] was not called has its attributes
    of [w]; one whose [update] was called once has the attributes that
    this call made of those of [w]; every one has its class. *)
Definition touched (w w' : World) (evs : list event) : Prop :=
  length (instances w') = length (instances w)
  /\ forall self cls attrs,
       instances w !! self = Some (cls, attrs) ->
       match count_occ Nat.eq_dec (updated evs) self with
       | O => instances w' !! self = Some (cls, attrs)
       | S O => exists src dst,
                  instances w' !! self
                  = Some (cls, (update cls attrs src dst).1.1.1)
       | S (S _) => has_class w' self cls
       end.

(** [follows canon w r Q]: the code that ran from [w] and ended in [r]
    made the calls [canon] in order and returned a value that satisfies
    [Q] with the final world, or one of these calls raised and the code
    stopped there with that exception. *)
Definition follows {A} (canon : list call) (w : World) (r : Result A)
    (Q : A -> World -> Prop) : Prop :=
  touched w (final r) (log r)
  /\ ((exists a, res r = Return a /\ log r = map ok canon /\ Q a (final r))
      \/ interrupted canon r).

(** [cs] is the list of the first [n] calls of [canon], all returned,
    followed by the call [n] of [canon] raising, if the run was
    interrupted. *)
Definition initial_segment (canon : list call) (n : nat)
    (cs : list (call * option Exc)) : Prop :=
  cs = map returned (take n canon)
  \/ exists c e, canon !! n = Some c
                 /\ cs = map returned (take n canon) ++ [(c, Some e)].

(** What is printed about a launch that did not succeed. *)
Definition failure_lines (r0 : run_result Exc) : list string :=
  match r0 with
  | Completed _ => []
  | TimeoutExpired _ _ =>
      ["The conversion of the mzTab file to mzTab json format timed out."]
  | CalledProcessError _ _ exc_stderr =>
      ["The conversion of the mzTab file to mzTab json format failed.";
       exc_stderr]
  | OtherException exc =>
      ["The conversion of the mzTab file to mzTab json format failed.";
       str_exc exc]
  end.

(** The claim C7 in the words of the specification: the report of a
    failed launch shows what was captured from the tool, its standard
    error or its standard output. *)
Definition reports_captured_output (r0 : run_result Exc) (evs : list event) : bool :=
  match r0 with
  | TimeoutExpired captured_stdout captured_stderr
  | CalledProcessError _ captured_stdout captured_stderr =>
      existsb (String.eqb captured_stderr) (printed evs)
      || existsb (String.eqb captured_stdout) (printed evs)
  | _ => true
  end.

(** The nine facets of the specification, in its order: contacts,
    publications, controlled-vocabulary terms, samples, sample processing,
    software, databases, assay metadata, small-molecule summary. *)
Definition facet_mappers : list mapper_class :=
  [ MetadataContactMapper;
    MetadataPublicationMapper;
    MetadataCvMapper;
    MetadataSampleMapper;
    MetadataSampleProcessingMapper;
    MetadataSoftwareMapper;
    MetadataDatabaseMapper;
    MetadataAssayMapper;
    SmallMoleculeSummaryMapper ].

(** *** Lines 90-141 as functions of the options and the file system *)

(** The commands a log shows were handed to [subprocess.run], each with
    its time-out. *)
Definition commands_of (evs : list event) : list (list string * Z) :=
  omap (fun ev => match ev with
                  | ELaunch cmd timeout _ => Some (cmd, timeout)
                  | _ => None
                  end) evs.

(** The tests of lines 102 and 104 send the run to the [else] branch of
    line 106. *)
Definition tool_needed (w : World) (input_file : string)
    (override : Py.value) : bool :=
  negb (json_extension input_file)
  && (Py.truthy override
      || negb (path_exists (files w) (input_file ++ ".json")%string)).

(** How the container ends for [input_file], and the file system it
    leaves; [None] when [os.path.realpath] raises and nothing is run. *)
Definition tool_outcome (w : World) (input_file container_engine
                                     image : string)
  : option (run_result Exc * Files) :=
  match realpath (files w) input_file with
  | inr abs_path =>
      Some (subprocess_run (files w)
              (tool_command abs_path container_engine image) 120)
  | inl _ => None
  end.

(** The value of [input_json_file] at line 143. *)
Definition json_path (input_file : string) : string :=
  if json_extension input_file then input_file
  else (input_file ++ ".json")%string.

(** Line 143 is reached: the container was not needed, or it succeeded. *)
Definition reaches_reading (w : World) (input_file container_engine image : string)
    (override : Py.value) : bool :=
  negb (tool_needed w input_file override)
  || match tool_outcome w input_file container_engine image with
     | Some (r, _) => tool_succeeded r
     | None => false
     end.

(** The world after lines 90-141. *)
Definition world_read (w : World) (input_file container_engine image : string)
    (override : Py.value) : World :=
  if tool_needed w input_file override
  then match tool_outcome w input_file container_engine image with
       | Some (_, f) => set_files f w
       | None => w
       end
  else w.

(** The exception of line 107, when the run gets there and
    [os.path.realpath] raises. *)
Definition real_failure (w : World) (input_file : string)
    (override : Py.value) : option Exc :=
  if tool_needed w input_file override
  then match realpath (files w) input_file with
       | inl e => Some e
       | inr _ => None
       end
  else None.

(** How lines 90-141 end. *)
Definition way (w : World) (input_file container_engine image : string)
    (override : Py.value) : ending :=
  if reaches_reading w input_file container_engine image override
  then Reading (json_path input_file)
  else match real_failure w input_file override with
       | Some e => Failing e
       | None => Exiting
       end.

(** What lines 90-141 log. *)
Definition preamble (w : World) (input_file container_engine image : string)
    (override : Py.value) : list event :=
  header input_file
  ++ (if json_extension input_file then []
      else if tool_needed w input_file override then
        match realpath (files w) input_file with
        | inr abs_path =>
            let r := (subprocess_run (files w)
                        (tool_command abs_path container_engine image) 120).1 in
            [EPrint launching;
             ELaunch (tool_command abs_path container_engine image) 120 r]
            ++ tool_report r
        | inl _ => []
        end
      else [EPrint ((input_file ++ ".json")
                    ++ " file exists, it will be used as an input.")%string]).

(** What is printed once [subprocess.run] has ended in [r]: the captured
    standard output of a run that succeeded, unless it is empty, and the
    lines of [failure_lines] otherwise. *)
Definition completion_lines (r : run_result Exc) : list string :=
  match r with
  | Completed t =>
      if String.eqb (task_stdout t) "" then [] else [task_stdout t]
  | _ => failure_lines r
  end.

(** The lines a run prints, in order. *)
Definition expected_lines (w : World) (input_file container_engine image : string)
    (override : Py.value) : list string :=
  "Please note that the mzTab-M file is not fully validated by this tool. The ISA-Tab files are not validated either at the moment."
  :: (if Py.startswith input_file "test/data/singa"
      then ["Using default input file: test/data/singaporean-plasma-site1.mzTab";
            "Please use the --input-file option to specify a custom input file."]
      else [])
  ++ (if json_extension input_file then []
      else if tool_needed w input_file override then
        match tool_outcome w input_file container_engine image with
        | Some (r, _) =>
            "Converting mzTab file to mzTab json format. Please check container management tool (docker, podman, etc.) is installed and runnig."
            :: completion_lines r
        | None => []
        end
      else [((input_file ++ ".json")
             ++ " file exists, it will be used as an input.")%string]).

(** *** The loop of lines 152-153 on the contents of the models *)

(** The mappers of the instances [ms], with their attributes, applied one
    after the other to a source model and a destination model as long as
    none raises: the two models as the last call leaves them, with the
    exception of that call, if it raised. *)
Fixpoint apply_mappers (ms : list (mapper_class * Attrs)) (src : MzTab)
    (dst : Mtbls) : (MzTab * Mtbls) * option Exc :=
  match ms with
  | [] => ((src, dst), None)
  | (cls, attrs) :: ms' =>
      let u := update cls attrs src dst in
      match u.2 with
      | Some e => ((u.1.1.2, u.1.2), Some e)
      | None => apply_mappers ms' u.1.1.2 u.1.2
      end
  end.

(** *** Lines 143-151 on the contents of the objects *)

(** How far the steps before the loop get, with the objects they have
    made: the JSON document as [replace_null_string_with_none] leaves it,
    the source model as [modify_mztab_model] leaves it, the destination
    model as created; and the exception of the step that raised. *)
Inductive staged :=
| Unread (e : Exc)
| Unnormalised (data' : Json) (e : Exc)
| Invalid (data' : Json) (e : Exc)
| Unmodified (data' : Json) (model' : MzTab) (e : Exc)
| Uncreated (data' : Json) (model' : MzTab) (e : Exc)
| Prepared (data' : Json) (model' : MzTab) (study : Mtbls).

(** Lines 143-151 as a function of the file system, the path of the JSON
    file and the accession number: each step is handed what the step
    before it has left. *)
Definition prepare (fs : Files) (input_json_file mtbls_accession_number : string)
  : staged :=
  match json_load fs input_json_file with
  | inl e => Unread e
  | inr data =>
      let '(data', x) := replace_null_string_with_none data in
      match x with
      | Some e => Unnormalised data' e
      | None =>
          match model_validate data' with
          | inl e => Invalid data' e
          | inr model =>
              let '(model', y) := modify_mztab_model model in
              match y with
              | Some e => Unmodified data' model' e
              | None =>
                  match create_metabolights_study_model
                          mtbls_accession_number with
                  | inl e => Uncreated data' model' e
                  | inr study => Prepared data' model' study
                  end
              end
          end
      end
  end.

End Notions.

Arguments pipeline : simpl never.

(** ** Facts about the primitives and the loop *)

Section Facts.

Context `{C : Collaborators}.

Implicit Types (w : World) (l mappers : list nat) (cl : list mapper_class).

Lemma same_objects_refl w : same_objects w w.
Proof. unfold same_objects; auto 10. Qed.

Lemma same_objects_trans w1 w2 w3 :
  same_objects w1 w2 -> same_objects w2 w3 -> same_objects w1 w3.
Proof.
  unfold same_objects.
  intros (F1 & J1 & S1 & D1 & I1 & K1) (F2 & J2 & S2 & D2 & I2 & K2).
  repeat split; try congruence; auto.
Qed.

Lemma has_class_insert w w' self cls attrs self' cls' :
  instances w' = <[self := (cls, attrs)]> (instances w) ->
  has_class w self cls ->
  has_class w self' cls' ->
  has_class w' self' cls'.
Proof.
  intros Hw' [a Ha] [a' Ha']. unfold has_class. rewrite Hw'.
  destruct (decide (self = self')) as [<- | Hne].
  - exists attrs. rewrite list_lookup_insert_eq.
    + congruence.
    + eapply lookup_lt_Some; eauto.
  - exists a'. rewrite list_lookup_insert_ne; auto.
Qed.

(** What one call of [update] does to the world. *)
Lemma mapper_update_run w self s d cls attrs src dst :
  instances w !! self = Some (cls, attrs) ->
  sources w !! s = Some src ->
  dests w !! d = Some dst ->
  mapper_update self s d w
  = MkResult (raised_outcome (update cls attrs src dst).2)
      (set_instances (<[self := (cls, (update cls attrs src dst).1.1.1)]> (instances w))
         (set_sources (<[s := (update cls attrs src dst).1.1.2]> (sources w))
            (set_dests (<[d := (update cls attrs src dst).1.2]> (dests w)) w)))
      [ECall (Update cls self s d) (update cls attrs src dst).2].
Proof.
  intros Hi Hs Hd. unfold mapper_update. rewrite Hi, Hs, Hd.
  destruct (update cls attrs src dst) as [[[a' s'] d'] x]. reflexivity.
Qed.

Lemma mapper_update_same_objects w self s d cls :
  has_class w self cls ->
  (s < length (sources w))%nat ->
  (d < length (dests w))%nat ->
  same_objects w (final (mapper_update self s d w)).
Proof.
  intros [a Ha] Hs Hd.
  destruct (lookup_lt_is_Some_2 _ _ Hs) as [src Hsrc].
  destruct (lookup_lt_is_Some_2 _ _ Hd) as [dst Hdst].
  rewrite (mapper_update_run _ _ _ _ _ _ _ _ Ha Hsrc Hdst). simpl.
  unfold same_objects; simpl.
  rewrite !length_insert. repeat split; auto.
  intros self' cls' H'.
  eapply has_class_insert; [reflexivity | exists a; eauto | auto].
Qed.

(** The loop stops at the first [update] that raises, with its
    exception; otherwise it calls every [update], in the order of the
    list. *)
Lemma for_each_update_log l : forall cl w s d,
  Forall2 (has_class w) l cl ->
  (s < length (sources w))%nat ->
  (d < length (dests w))%nat ->
  let r := for_each l (fun mapper => mapper_update mapper s d) w in
  same_objects w (final r)
  /\ ((res r = Return tt /\ log r = map ok (update_calls l cl s d))
      \/ (exists n c e,
             update_calls l cl s d !! n = Some c
             /\ res r = Raise e
             /\ log r = map ok (take n (update_calls l cl s d))
                         ++ [ECall c (Some e)])).
Proof.
  induction l as [|self l IH]; intros cl w s d Hcl Hs Hd.
  - apply Forall2_nil_inv_l in Hcl as ->. simpl.
    split; [apply same_objects_refl | left; auto].
  - apply Forall2_cons_inv_l in Hcl as (cls & cl' & Hself & Hrest & ->).
    pose proof (mapper_update_same_objects _ _ _ _ _ Hself Hs Hd) as Hsame.
    destruct Hself as [a Ha].
    destruct (lookup_lt_is_Some_2 _ _ Hs) as [src Hsrc].
    destruct (lookup_lt_is_Some_2 _ _ Hd) as [dst Hdst].
    simpl. unfold bind.
    rewrite (mapper_update_run _ _ _ _ _ _ _ _ Ha Hsrc Hdst) in *.
    destruct (update cls a src dst) as [[[a' src'] dst'] [e|]]; simpl in *.
    + split; [exact Hsame|]. right. exists 0%nat, (Update cls self s d), e.
      auto.
    + set (w' := set_instances _ _) in *.
      destruct Hsame as (HF & HJ & HS & HD & HI & HK).
      destruct (IH cl' w' s d) as [Hsame' Hlog].
      * eapply Forall2_impl; [exact Hrest|]. intros; apply HK; auto.
      * lia.
      * lia.
      * split.
        { eapply same_objects_trans; [|exact Hsame'].
          unfold same_objects; auto 10. }
        destruct Hlog as [[Hr Hl] | (n & c & e & Hn & Hr & Hl)].
        { left. rewrite Hr, Hl. auto. }
        { right. exists (S n), c, e. rewrite Hr, Hl. auto. }
Qed.

(** *** A small logic of logs *)

Lemma updated_app evs1 evs2 : updated (evs1 ++ evs2) = updated evs1 ++ updated evs2.
Proof.
  unfold updated, update_calls_of, updates_in, calls_of.
  rewrite !omap_app, map_app. reflexivity.
Qed.

Lemma touched_kept w w' evs : touched w w' evs -> kept w w'.
Proof.
  intros [Hlen H]. split; [exact Hlen|].
  intros self cls [a Ha]. specialize (H _ _ _ Ha).
  destruct (count_occ Nat.eq_dec (updated evs) self) as [|[|n]].
  - exists a. exact H.
  - destruct H as (src & dst & H). eexists. exact H.
  - exact H.
Qed.

Lemma touched_quiet w w' evs :
  instances w' = instances w -> updated evs = [] -> touched w w' evs.
Proof.
  intros Hw Hevs. unfold touched. rewrite Hw, Hevs. split; [reflexivity|].
  intros self cls a Ha. exact Ha.
Qed.

Lemma touched_app w w1 w2 evs1 evs2 :
  touched w w1 evs1 -> touched w1 w2 evs2 -> touched w w2 (evs1 ++ evs2).
Proof.
  intros [L1 H1] [L2 H2]. split; [congruence|].
  intros self cls a Ha. rewrite updated_app, count_occ_app.
  specialize (H1 _ _ _ Ha).
  destruct (count_occ Nat.eq_dec (updated evs1) self) as [|[|n1]].
  - specialize (H2 _ _ _ H1). exact H2.
  - destruct H1 as (src & dst & H1). specialize (H2 _ _ _ H1).
    destruct (count_occ Nat.eq_dec (updated evs2) self) as [|[|n2]]; simpl.
    + eauto.
    + destruct H2 as (src' & dst' & H2). eexists. exact H2.
    + exact H2.
  - destruct H1 as [a1 H1]. specialize (H2 _ _ _ H1). simpl.
    destruct (count_occ Nat.eq_dec (updated evs2) self) as [|[|n2]].
    + eexists. exact H2.
    + destruct H2 as (src' & dst' & H2). eexists. exact H2.
    + exact H2.
Qed.

(** One call of [update] changes the attributes of its instance, and of
    no other. *)
Lemma touched_update w self s d cls attrs src dst :
  instances w !! self = Some (cls, attrs) ->
  sources w !! s = Some src ->
  dests w !! d = Some dst ->
  touched w (final (mapper_update self s d w)) (log (mapper_update self s d w)).
Proof.
  intros Ha Hs Hd. rewrite (mapper_update_run _ _ _ _ _ _ _ _ Ha Hs Hd).
  cbn [final log]. split.
  - cbn [instances set_instances]. apply length_insert.
  - intros self' cls' a' Ha'.
    change (updated [ECall (Update cls self s d) (update cls attrs src dst).2])
      with [self].
    cbn [count_occ instances set_instances].
    destruct (Nat.eq_dec self self') as [<- | Hne].
    + exists src, dst. rewrite list_lookup_insert_eq
        by (eapply lookup_lt_Some; eauto).
      congruence.
    + rewrite list_lookup_insert_ne by exact Hne. exact Ha'.
Qed.

Lemma for_each_touched l : forall cl w s d,
  Forall2 (has_class w) l cl ->
  (s < length (sources w))%nat ->
  (d < length (dests w))%nat ->
  touched w (final (for_each l (fun mapper => mapper_update mapper s d) w))
    (log (for_each l (fun mapper => mapper_update mapper s d) w)).
Proof.
  induction l as [|self l IH]; intros cl w s d Hcl Hs Hd.
  - apply touched_quiet; reflexivity.
  - apply Forall2_cons_inv_l in Hcl as (cls & cl' & Hself & Hrest & ->).
    pose proof (mapper_update_same_objects _ _ _ _ _ Hself Hs Hd)
      as (HF & HJ & HS & HD & HI & HK).
    destruct Hself as [a Ha].
    destruct (lookup_lt_is_Some_2 _ _ Hs) as [src Hsrc].
    destruct (lookup_lt_is_Some_2 _ _ Hd) as [dst Hdst].
    pose proof (touched_update _ _ _ _ _ _ _ _ Ha Hsrc Hdst) as Hstep.
    cbn [for_each]. unfold bind.
    destruct (res (mapper_update self s d w)) as [[] | e | code |] eqn:Hr;
      cbn [final log]; try exact Hstep.
    apply (touched_app _ _ _ _ _ Hstep).
    apply (IH cl'); [|lia|lia].
    eapply Forall2_impl; [exact Hrest|]. intros; apply HK; auto.
Qed.

Lemma follows_bind {A B} (c1 c2 : list call) (m : M A) (k : A -> M B) w
    (Q : A -> World -> Prop) (Q' : B -> World -> Prop) :
  follows c1 w (m w) Q ->
  (forall a w', Q a w' -> kept w w' -> follows c2 w' (k a w') Q') ->
  follows (c1 ++ c2) w (bind m k w) Q'.
Proof.
  intros [Hk [(a & Hr & Hl & Hq) | (n & c & e & Hn & Hr & Hl)]] Hnext.
  - destruct (Hnext a _ Hq (touched_kept _ _ _ Hk)) as [Hk' Hrest].
    unfold bind. rewrite Hr. cbn [res final log]. split.
    + eapply touched_app; eauto.
    + destruct Hrest as [(b & Hr' & Hl' & Hq') | (n & c & e & Hn & Hr' & Hl')].
      * left. exists b. rewrite Hl, Hl', map_app. auto.
      * right. exists (length c1 + n)%nat, c, e.
        rewrite lookup_app_r by lia.
        replace (length c1 + n - length c1)%nat with n by lia.
        rewrite take_app_add, Hl, Hl', map_app, app_assoc. auto.
  - unfold bind. rewrite Hr. cbn [res final log]. split; [exact Hk|].
    right. exists n, c, e.
    pose proof (lookup_lt_Some _ _ _ Hn) as Hlt.
    rewrite lookup_app_l by exact Hlt.
    rewrite take_app_le by lia. auto.
Qed.

Local Ltac raised_at_once :=
  right; exists 0%nat; simpl; eauto.

Local Ltac returned :=
  left; eexists; unfold sized in *; simpl;
  rewrite ?length_app, ?length_insert; simpl;
  repeat split; auto; lia.

Lemma open_follows w p j s d :
  sized w j s d ->
  follows [Open p j] w (open_json_load p w)
    (fun j' w' => j' = j /\ sized w' (S j) s d).
Proof.
  intros (Hj & Hs & Hd).
  unfold follows, interrupted, open_json_load. rewrite Hj.
  destruct (json_load (files w) p) as [e | data]; simpl.
  - split; [apply touched_quiet; reflexivity | raised_at_once].
  - split; [apply touched_quiet; reflexivity | returned].
Qed.

Lemma replace_null_follows w j jj s d :
  sized w jj s d -> (j < jj)%nat ->
  follows [ReplaceNull j] w (replace_null j w) (fun _ w' => sized w' jj s d).
Proof.
  intros (Hj & Hs & Hd) Hlt.
  destruct (lookup_lt_is_Some_2 (jsons w) j) as [data Hdata]; [lia|].
  unfold follows, interrupted, replace_null. rewrite Hdata.
  destruct (replace_null_string_with_none data) as [data' [e|]]; simpl.
  - split; [apply touched_quiet; reflexivity | raised_at_once].
  - split; [apply touched_quiet; reflexivity | returned].
Qed.

Lemma validate_follows w j jj s d :
  sized w jj s d -> (j < jj)%nat ->
  follows [Validate j s] w (validate j w)
    (fun s' w' => s' = s /\ sized w' jj (S s) d).
Proof.
  intros (Hj & Hs & Hd) Hlt.
  destruct (lookup_lt_is_Some_2 (jsons w) j) as [data Hdata]; [lia|].
  unfold follows, interrupted, validate. rewrite Hdata, Hs.
  destruct (model_validate data) as [e | model]; simpl.
  - split; [apply touched_quiet; reflexivity | raised_at_once].
  - split; [apply touched_quiet; reflexivity | returned].
Qed.

Lemma modify_follows w jj s ss d :
  sized w jj ss d -> (s < ss)%nat ->
  follows [Modify s] w (modify s w) (fun _ w' => sized w' jj ss d).
Proof.
  intros (Hj & Hs & Hd) Hlt.
  destruct (lookup_lt_is_Some_2 (sources w) s) as [model Hmodel]; [lia|].
  unfold follows, interrupted, modify. rewrite Hmodel.
  destruct (modify_mztab_model model) as [model' [e|]]; simpl.
  - split; [apply touched_quiet; reflexivity | raised_at_once].
  - split; [apply touched_quiet; reflexivity | returned].
Qed.

Lemma create_follows w acc jj ss d :
  sized w jj ss d ->
  follows [Create acc d] w (create acc w)
    (fun d' w' => d' = d /\ sized w' jj ss (S d)).
Proof.
  intros (Hj & Hs & Hd).
  unfold follows, interrupted, create. rewrite Hd.
  destruct (create_metabolights_study_model acc) as [e | model]; simpl.
  - split; [apply touched_quiet; reflexivity | raised_at_once].
  - split; [apply touched_quiet; reflexivity | returned].
Qed.

Lemma save_follows w d dir jj ss dd :
  sized w jj ss dd -> (d < dd)%nat ->
  follows [Save d dir] w (save d dir w) (fun _ _ => True).
Proof.
  intros (Hj & Hs & Hd) Hlt.
  destruct (lookup_lt_is_Some_2 (dests w) d) as [dst Hdst]; [lia|].
  unfold follows, interrupted, save. rewrite Hdst.
  destruct (save_metabolights_study_model (files w) dst dir) as [f [e|]]; simpl.
  - split; [apply touched_quiet; reflexivity | raised_at_once].
  - split; [apply touched_quiet; reflexivity | returned].
Qed.

Lemma loop_follows l cl w s d jj ss dd :
  sized w jj ss dd -> (s < ss)%nat -> (d < dd)%nat ->
  Forall2 (has_class w) l cl ->
  follows (update_calls l cl s d) w
    (for_each l (fun mapper => mapper_update mapper s d) w)
    (fun _ w' => sized w' jj ss dd).
Proof.
  intros (Hj & Hs & Hd) Hlts Hltd Hcl.
  destruct (for_each_update_log l cl w s d Hcl)
    as [(HF & HJ & HS & HD & HI & HK) Hlog]; [lia | lia |].
  split; [apply (for_each_touched l cl); auto; lia|].
  destruct Hlog as [[Hr Hl] | Hint]; [left | right; exact Hint].
  exists tt. unfold sized. rewrite HJ, HS, HD. auto.
Qed.

(** *** From reading the model to saving the study (lines 143-157) *)

Lemma pipeline_log mappers w p out acc j s d :
  sized w j s d ->
  Forall2 (has_class w) mappers mapper_classes ->
  follows (canon_calls mappers j s d p acc (Py.join out acc))
    w (pipeline mappers p out acc w) (fun _ _ => True).
Proof.
  intros Hz Hcl. unfold pipeline, canon_calls.
  eapply (follows_bind [_] _); [eapply open_follows; eauto|].
  intros j' w1 [Ej Hz1] K1; subst j'. simpl.
  eapply (follows_bind [_] _); [eapply replace_null_follows; eauto|].
  intros [] w2 Hz2 K2. simpl in *.
  eapply (follows_bind [_] _); [eapply validate_follows; eauto|].
  intros s' w3 [Es Hz3] K3; subst s'. simpl.
  eapply (follows_bind [_] _); [eapply modify_follows; eauto|].
  intros [] w4 Hz4 K4. simpl in *.
  eapply (follows_bind [_] _); [eapply create_follows; eauto|].
  intros d' w5 [Ed Hz5] K5; subst d'. simpl.
  eapply follows_bind.
  { eapply loop_follows; eauto.
    eapply Forall2_impl; [exact Hcl|]. intros self cls H.
    apply K5, K4, K3, K2, K1, H. }
  intros [] w6 Hz6 K6. simpl in *.
  eapply save_follows; eauto.
Qed.

(** *** From the options to the path of the JSON file (lines 90-141) *)

Lemma convert_eq mappers input_file out acc engine image override w :
  convert mappers input_file out acc engine image override w
  = bind (print disclaimer) (fun _ =>
      bind (if Py.startswith input_file "test/data/singa" then
              bind (print "Using default input file: test/data/singaporean-plasma-site1.mzTab")
                (fun _ => print "Please use the --input-file option to specify a custom input file.")
            else ret tt) (fun _ =>
      bind (locate input_file engine image override) (fun p =>
        pipeline mappers p out acc))) w.
Proof.
  unfold convert, locate, json_extension.
  destruct (Py.splitext input_file) as [root ext]. reflexivity.
Qed.

Lemma bind_returned {A B} (m : M A) (k : A -> M B) w a w' evs :
  m w = MkResult (Return a) w' evs ->
  bind m k w = prepend evs (k a w').
Proof. intros H. unfold bind, prepend. rewrite H. reflexivity. Qed.

Lemma bind_exited {A B} (m : M A) (k : A -> M B) w code w' evs :
  m w = MkResult (SysExit code) w' evs ->
  bind m k w = MkResult (SysExit code) w' evs.
Proof. intros H. unfold bind. rewrite H. reflexivity. Qed.

Lemma bind_raised {A B} (m : M A) (k : A -> M B) w e w' evs :
  m w = MkResult (Raise e) w' evs ->
  bind m k w = MkResult (Raise e) w' evs.
Proof. intros H. unfold bind. rewrite H. reflexivity. Qed.

Lemma prepend_prepend {A} (evs1 evs2 : list event) (r : Result A) :
  prepend evs1 (prepend evs2 r) = prepend (evs1 ++ evs2) r.
Proof. unfold prepend. simpl. rewrite app_assoc. reflexivity. Qed.

Lemma os_path_realpath_returned w input_file abs_path :
  realpath (files w) input_file = inr abs_path ->
  os_path_realpath input_file w = MkResult (Return abs_path) w [].
Proof. intros H. unfold os_path_realpath. rewrite H. reflexivity. Qed.

Lemma os_path_realpath_raised w input_file e :
  realpath (files w) input_file = inl e ->
  os_path_realpath input_file w = MkResult (Raise e) w [].
Proof. intros H. unfold os_path_realpath. rewrite H. reflexivity. Qed.

(** An exception of line 107 leaves [preconvert] before anything is
    printed or run. *)
Lemma preconvert_unreal w input_file engine image e :
  realpath (files w) input_file = inl e ->
  preconvert input_file engine image w = MkResult (Raise e) w [].
Proof.
  intros Hreal. unfold preconvert.
  apply bind_raised, os_path_realpath_raised, Hreal.
Qed.

Lemma preconvert_run w input_file engine image abs_path r f :
  realpath (files w) input_file = inr abs_path ->
  subprocess_run (files w) (tool_command abs_path engine image) 120 = (r, f) ->
  preconvert input_file engine image w
  = MkResult (if tool_succeeded r then Return tt else SysExit 1)
      (set_files f w)
      ([EPrint launching; ELaunch (tool_command abs_path engine image) 120 r]
       ++ tool_report r).
Proof.
  intros Hreal Hrun. unfold preconvert.
  rewrite (bind_returned _ _ w abs_path w []
             (os_path_realpath_returned _ _ _ Hreal)).
  rewrite (bind_returned _ _ w tt w [EPrint launching] eq_refl).
  erewrite (bind_returned _ _ w r (set_files f w)
              [ELaunch (tool_command abs_path engine image) 120 r]).
  2:{ unfold subprocess_run_. unfold tool_command in Hrun. rewrite Hrun.
      reflexivity. }
  destruct r as [t | o e | rc o e | e]; simpl.
  - unfold finally_clause, tool_report. simpl.
    destruct (negb (task_stdout t =? "")%string); reflexivity.
  - reflexivity.
  - reflexivity.
  - reflexivity.
Qed.

Lemma prologue_run {B} input_file (k : unit -> M B) w :
  bind (print disclaimer) (fun _ =>
    bind (if Py.startswith input_file "test/data/singa" then
            bind (print "Using default input file: test/data/singaporean-plasma-site1.mzTab")
              (fun _ => print "Please use the --input-file option to specify a custom input file.")
          else ret tt) k) w
  = prepend (header input_file) (k tt w).
Proof.
  rewrite (bind_returned _ _ w tt w [EPrint disclaimer] eq_refl).
  unfold header.
  destruct (Py.startswith input_file "test/data/singa").
  - erewrite bind_returned by reflexivity. rewrite prepend_prepend. reflexivity.
  - erewrite bind_returned by reflexivity. rewrite prepend_prepend. reflexivity.
Qed.

Lemma tool_branch input_file engine image override w :
  json_extension input_file = false ->
  (Py.truthy override = true
   \/ path_exists (files w) (input_file ++ ".json")%string = false) ->
  exists pre op w',
    resolution w input_file engine image override (header input_file ++ pre) op w'
    /\ bind (preconvert input_file engine image)
         (fun _ => ret (input_file ++ ".json")%string) w
       = MkResult (located op) w' pre.
Proof.
  intros Hjson Hwhy.
  destruct (realpath (files w) input_file) as [e | abs_path] eqn:Hreal.
  { exists [], (Failing e), w. rewrite app_nil_r. split.
    - apply resolved_unreal; auto.
    - apply bind_raised, preconvert_unreal, Hreal. }
  destruct (subprocess_run (files w)
              (tool_command abs_path engine image) 120) as [r f] eqn:Hrun.
  exists ([EPrint launching;
           ELaunch (tool_command abs_path engine image) 120 r]
          ++ tool_report r),
    (if tool_succeeded r then Reading (input_file ++ ".json")%string
     else Exiting),
    (set_files f w).
  split.
  - apply resolved_tool; auto.
  - unfold bind. rewrite (preconvert_run _ _ _ _ _ _ _ Hreal Hrun).
    destruct r; simpl; rewrite ?app_nil_r; reflexivity.
Qed.

Lemma locate_cases input_file engine image override w :
  exists pre op w',
    resolution w input_file engine image override (header input_file ++ pre) op w'
    /\ locate input_file engine image override w = MkResult (located op) w' pre.
Proof.
  unfold locate.
  destruct (json_extension input_file) eqn:Hjson; simpl.
  { exists [], (Reading input_file), w. rewrite app_nil_r.
    split; [constructor; auto | reflexivity]. }
  destruct (Py.truthy override) eqn:Hov; simpl.
  { erewrite bind_returned by reflexivity.
    destruct (tool_branch input_file engine image override w Hjson)
      as (pre & op & w' & Hres & Heq); [auto|].
    exists pre, op, w'. split; [exact Hres|]. rewrite Heq. reflexivity. }
  erewrite bind_returned by reflexivity.
  destruct (path_exists (files w) (input_file ++ ".json")%string) eqn:Hex.
  - eexists _, _, w. split; [eapply resolved_existing; eauto | reflexivity].
  - destruct (tool_branch input_file engine image override w Hjson)
      as (pre & op & w' & Hres & Heq); [auto|].
    exists pre, op, w'. split; [exact Hres|]. rewrite Heq. reflexivity.
Qed.

Lemma convert_cases mappers input_file out acc engine image override w :
  exists pre op w',
    resolution w input_file engine image override pre op w'
    /\ convert mappers input_file out acc engine image override w
       = match op with
         | Reading p => prepend pre (pipeline mappers p out acc w')
         | Exiting => MkResult (SysExit 1) w' pre
         | Failing e => MkResult (Raise e) w' pre
         end.
Proof.
  rewrite convert_eq, prologue_run.
  destruct (locate_cases input_file engine image override w)
    as (pre & op & w' & Hres & Heq).
  exists (header input_file ++ pre), op, w'. split; [exact Hres|].
  destruct op as [p| |e]; simpl in Heq.
  - rewrite (bind_returned _ _ _ _ _ _ Heq), prepend_prepend. reflexivity.
  - rewrite (bind_exited _ _ _ _ _ _ Heq). reflexivity.
  - rewrite (bind_raised _ _ _ _ _ _ Heq). reflexivity.
Qed.

(** *** The calls of a run *)

Lemma calls_of_app evs1 evs2 :
  calls_of (evs1 ++ evs2) = calls_of evs1 ++ calls_of evs2.
Proof. apply omap_app. Qed.

Lemma calls_of_ok (cs : list call) : calls_of (map ok cs) = map returned cs.
Proof. induction cs as [|c cs IH]; simpl; [|rewrite <- IH]; reflexivity. Qed.

Lemma launches_of_app evs1 evs2 :
  launches_of (evs1 ++ evs2) = launches_of evs1 ++ launches_of evs2.
Proof. apply omap_app. Qed.

Lemma launches_of_ok (cs : list call) : launches_of (map ok cs) = [].
Proof. induction cs as [|c cs IH]; simpl; auto. Qed.

Lemma header_calls input_file : calls_of (header input_file) = [].
Proof. unfold header. destruct (Py.startswith _ _); reflexivity. Qed.

Lemma header_launches input_file : launches_of (header input_file) = [].
Proof. unfold header. destruct (Py.startswith _ _); reflexivity. Qed.

Lemma tool_report_calls r : calls_of (tool_report r) = [].
Proof.
  destruct r as [t | | |]; simpl; auto.
  destruct (negb (task_stdout t =? "")%string); reflexivity.
Qed.

Lemma tool_report_launches r : launches_of (tool_report r) = [].
Proof.
  destruct r as [t | | |]; simpl; auto.
  destruct (negb (task_stdout t =? "")%string); reflexivity.
Qed.

(** Lines 90-141 call no collaborator and touch no object. *)
Lemma resolution_calls w input_file engine image override pre op w' :
  resolution w input_file engine image override pre op w' ->
  calls_of pre = []
  /\ jsons w' = jsons w /\ sources w' = sources w /\ dests w' = dests w
  /\ instances w' = instances w.
Proof.
  intros H. destruct H; rewrite ?calls_of_app, ?header_calls; simpl;
    rewrite ?tool_report_calls; auto.
Qed.

(** The shape of every run of [convert]: lines 90-141 end in one of the
    ways of [resolution]; then either the run has ended, in [sys.exit(1)]
    or with the exception of line 107, or it makes the calls of
    [canon_calls] in order, up to the first that raises. *)
Lemma convert_shape mappers input_file out acc engine image override w :
  Forall2 (has_class w) mappers mapper_classes ->
  exists pre op w',
    resolution w input_file engine image override pre op w'
    /\ match op with
       | Exiting =>
           convert mappers input_file out acc engine image override w
           = MkResult (SysExit 1) w' pre
       | Failing e =>
           convert mappers input_file out acc engine image override w
           = MkResult (Raise e) w' pre
       | Reading p =>
           let r := convert mappers input_file out acc engine image override w in
           let canon := canon_calls mappers (length (jsons w))
                          (length (sources w)) (length (dests w))
                          p acc (Py.join out acc) in
           touched w (final r) (log r)
           /\ ((res r = Return tt /\ log r = pre ++ map ok canon)
               \/ (exists n c e,
                      canon !! n = Some c
                      /\ res r = Raise e
                      /\ log r = pre ++ map ok (take n canon)
                                  ++ [ECall c (Some e)]))
       end.
Proof.
  intros Hcl.
  destruct (convert_cases mappers input_file out acc engine image override w)
    as (pre & op & w' & Hres & Heq).
  exists pre, op, w'. split; [exact Hres|].
  destruct op as [p| |e0]; [|exact Heq|exact Heq].
  destruct (resolution_calls _ _ _ _ _ _ _ _ Hres) as (Hpre & HJ & HS & HD & HI).
  cbv zeta. rewrite Heq.
  destruct (pipeline_log mappers w' p out acc
              (length (jsons w)) (length (sources w)) (length (dests w)))
    as [Hk Hlog].
  { unfold sized. rewrite HJ, HS, HD. auto. }
  { eapply Forall2_impl; [exact Hcl|]. unfold has_class. rewrite HI. auto. }
  split.
  { cbn [final log prepend]. apply (touched_app w w'); [|exact Hk].
    apply touched_quiet; [exact HI|].
    unfold updated, update_calls_of. rewrite Hpre. reflexivity. }
  simpl.
  destruct Hlog as [(a & Hr & Hl & _) | (n & c & e & Hn & Hr & Hl)].
  - left. destruct a. rewrite Hr, Hl. auto.
  - right. exists n, c, e. rewrite Hr, Hl. auto.
Qed.

(** *** Importing the module *)

Lemma list_display_construct cl : forall w,
  list_display construct cl w
  = MkResult (Return (seq (length (instances w)) (length cl)))
      (set_instances
         (instances w ++ map (fun cls => (cls, new_mapper cls)) cl) w)
      (zip_with EConstruct cl (seq (length (instances w)) (length cl))).
Proof.
  induction cl as [|cls cl IH]; intros w.
  - simpl. unfold ret, set_instances. rewrite app_nil_r. destruct w; reflexivity.
  - simpl list_display.
    erewrite bind_returned by reflexivity.
    erewrite bind_returned by apply IH.
    unfold ret, prepend, set_instances; simpl.
    rewrite length_app, <- app_assoc, app_nil_r; simpl.
    replace (length (instances w) + 1)%nat with (S (length (instances w))) by lia.
    reflexivity.
Qed.

Lemma import_run w :
  import_converter w
  = MkResult (Return (seq (length (instances w)) 10))
      (set_instances
         (instances w ++ map (fun cls => (cls, new_mapper cls)) mapper_classes) w)
      (zip_with EConstruct mapper_classes (seq (length (instances w)) 10)).
Proof. unfold import_converter. rewrite list_display_construct. reflexivity. Qed.

Lemma import_loaded w :
  loaded (seq (length (instances w)) 10) (final (import_converter w)).
Proof.
  rewrite import_run. split; [|apply NoDup_seq].
  apply Forall2_same_length_lookup_2.
  { rewrite length_seq. reflexivity. }
  intros i self cls Hself Hcls.
  apply lookup_seq in Hself as [-> Hi].
  exists (new_mapper cls). cbn [final instances set_instances].
  rewrite lookup_app_r by lia.
  replace (length (instances w) + i - length (instances w))%nat with i by lia.
  rewrite list_lookup_fmap, Hcls. reflexivity.
Qed.

(** *** The [update] calls of a log *)

Lemma canon_split mappers j s d p acc dir :
  canon_calls mappers j s d p acc dir
  = first_calls j s d p acc
    ++ update_calls mappers mapper_classes s d ++ [Save d dir].
Proof. reflexivity. Qed.

Lemma update_calls_are_updates l cl s d :
  Forall (fun c => is_update c = true) (update_calls l cl s d).
Proof.
  unfold update_calls. revert cl.
  induction l as [|self l IH]; intros [|cls cl]; simpl; constructor; auto.
Qed.

Lemma updates_in_cons c x cs :
  updates_in ((c, x) :: cs) = (if is_update c then [c] else []) ++ updates_in cs.
Proof. unfold updates_in. simpl. destruct (is_update c); reflexivity. Qed.

Lemma update_calls_of_app evs1 evs2 :
  update_calls_of (evs1 ++ evs2) = update_calls_of evs1 ++ update_calls_of evs2.
Proof. unfold update_calls_of, updates_in. rewrite calls_of_app. apply omap_app. Qed.

Lemma update_calls_of_quiet evs : calls_of evs = [] -> update_calls_of evs = [].
Proof. unfold update_calls_of. intros ->. reflexivity. Qed.

Lemma update_calls_of_updates cs :
  Forall (fun c => is_update c = true) cs -> update_calls_of (map ok cs) = cs.
Proof.
  unfold update_calls_of. rewrite calls_of_ok.
  induction 1 as [|c cs Hc _ IH]; [reflexivity|].
  cbn [map]. unfold returned at 1. rewrite updates_in_cons, Hc, IH. reflexivity.
Qed.

Lemma update_calls_of_others cs :
  Forall (fun c => is_update c = false) cs -> update_calls_of (map ok cs) = [].
Proof.
  unfold update_calls_of. rewrite calls_of_ok.
  induction 1 as [|c cs Hc _ IH]; [reflexivity|].
  cbn [map]. unfold returned at 1. rewrite updates_in_cons, Hc, IH. reflexivity.
Qed.

Lemma first_calls_others j s d p acc :
  Forall (fun c => is_update c = false) (first_calls j s d p acc).
Proof. repeat constructor. Qed.

(** The [update] calls among the first [n] calls of an uninterrupted
    run are the first [n - 5] of the loop. *)
Lemma update_calls_of_take mappers j s d p acc dir n :
  update_calls_of (map ok (take n (canon_calls mappers j s d p acc dir)))
  = take (n - 5) (update_calls mappers mapper_classes s d).
Proof.
  rewrite canon_split, !take_app, !map_app, !update_calls_of_app.
  rewrite (update_calls_of_others (take n _))
    by (apply Forall_take, first_calls_others).
  rewrite (update_calls_of_updates (take (n - _) (update_calls _ _ _ _)))
    by (apply Forall_take, update_calls_are_updates).
  rewrite (update_calls_of_others (take _ [Save d dir]))
    by (apply Forall_take; repeat constructor).
  simpl. rewrite app_nil_r. reflexivity.
Qed.

Lemma canon_length mappers j s d p acc dir :
  length (canon_calls mappers j s d p acc dir)
  = (6 + length (update_calls mappers mapper_classes s d))%nat.
Proof. rewrite canon_split, !length_app. simpl. lia. Qed.

(** Where a call of an uninterrupted run stands. *)
Lemma canon_lookup mappers j s d p acc dir n c :
  canon_calls mappers j s d p acc dir !! n = Some c ->
  ((n < 5)%nat /\ first_calls j s d p acc !! n = Some c)
  \/ ((5 <= n)%nat
      /\ update_calls mappers mapper_classes s d !! (n - 5)%nat = Some c)
  \/ (n = (5 + length (update_calls mappers mapper_classes s d))%nat
      /\ c = Save d dir).
Proof.
  rewrite canon_split. intros H.
  apply lookup_app_Some in H as [H | [Hn H]].
  - left. split; [|exact H]. apply lookup_lt_Some in H.
    unfold first_calls in H. simpl in H. lia.
  - unfold first_calls in Hn, H. simpl in Hn, H. right.
    apply lookup_app_Some in H as [H | [Hn' H]].
    + left. split; [lia | exact H].
    + right. apply list_lookup_singleton_Some in H as [H ->].
      split; [lia | reflexivity].
Qed.

Lemma canon_lookup_update mappers j s d p acc dir n c :
  canon_calls mappers j s d p acc dir !! n = Some c ->
  is_update c = true ->
  (5 <= n)%nat
  /\ update_calls mappers mapper_classes s d !! (n - 5)%nat = Some c.
Proof.
  intros H Hc.
  destruct (canon_lookup _ _ _ _ _ _ _ _ _ H) as [[Hn H5] | [[Hn Hu] | [_ ->]]].
  - exfalso. pose proof (first_calls_others j s d p acc) as Hall.
    rewrite Forall_lookup in Hall. specialize (Hall _ _ H5). congruence.
  - auto.
  - discriminate.
Qed.

Lemma loaded_ten mappers w :
  loaded mappers w ->
  exists m0 m1 m2 m3 m4 m5 m6 m7 m8 m9,
    mappers = [m0; m1; m2; m3; m4; m5; m6; m7; m8; m9].
Proof.
  intros [H _]. apply Forall2_length in H. unfold mapper_classes in H.
  do 10 (destruct mappers as [|? mappers]; [discriminate|]).
  destruct mappers; [|discriminate]. eauto 11.
Qed.

Lemma update_calls_self l : forall cl s d,
  length l = length cl -> map self_of (update_calls l cl s d) = l.
Proof.
  unfold update_calls.
  induction l as [|self l IH]; intros [|cls cl] s d Hlen; try discriminate.
  - reflexivity.
  - simpl. f_equal. apply IH. simpl in Hlen. lia.
Qed.

(** The [update] calls of any run are an initial segment of the calls of
    the loop; all of them when the run returns. *)
Lemma convert_updates mappers input_file out acc engine image override w :
  Forall2 (has_class w) mappers mapper_classes ->
  let r := convert mappers input_file out acc engine image override w in
  let declared := update_calls mappers mapper_classes
                    (length (sources w)) (length (dests w)) in
  (exists n, update_calls_of (log r) = take n declared)
  /\ (res r = Return tt -> update_calls_of (log r) = declared).
Proof.
  intros Hcl r declared. subst r.
  destruct (convert_shape mappers input_file out acc engine image override w Hcl)
    as (pre & op & w' & Hres & Hshape).
  destruct (resolution_calls _ _ _ _ _ _ _ _ Hres) as (Hpre & _).
  destruct op as [p| |e0].
  - cbv zeta in Hshape.
    destruct Hshape as [_ [[Hr Hl] | (n & c & e & Hn & Hr & Hl)]].
    + rewrite Hl, update_calls_of_app, (update_calls_of_quiet pre Hpre).
      rewrite <- (firstn_all (canon_calls _ _ _ _ _ _ _)).
      rewrite update_calls_of_take, canon_length.
      fold declared. simpl.
      replace (S (length declared) - 0)%nat with (S (length declared)) by lia.
      rewrite take_ge by lia. split; [exists (length declared)|]; auto.
      rewrite firstn_all. reflexivity.
    + rewrite Hr, Hl, !update_calls_of_app, (update_calls_of_quiet pre Hpre).
      rewrite update_calls_of_take. fold declared.
      split; [|discriminate].
      change (update_calls_of [ECall c (Some e)]) with (updates_in [(c, Some e)]).
      rewrite updates_in_cons.
      destruct (is_update c) eqn:Hc; simpl.
      * destruct (canon_lookup_update _ _ _ _ _ _ _ _ _ Hn Hc) as [Hle Hu].
        exists (S (n - 5)). fold declared in Hu.
        rewrite (take_S_r _ _ _ Hu). reflexivity.
      * exists (n - 5)%nat. rewrite app_nil_r. reflexivity.
  - rewrite Hshape. simpl. rewrite (update_calls_of_quiet pre Hpre).
    split; [exists 0%nat; reflexivity | discriminate].
  - rewrite Hshape. simpl. rewrite (update_calls_of_quiet pre Hpre).
    split; [exists 0%nat; reflexivity | discriminate].
Qed.

(** *** The calls of a run, in order *)

Lemma convert_calls mappers input_file out acc engine image override w :
  Forall2 (has_class w) mappers mapper_classes ->
  let r := convert mappers input_file out acc engine image override w in
  exists p n,
    let canon := canon_calls mappers (length (jsons w)) (length (sources w))
                   (length (dests w)) p acc (Py.join out acc) in
    initial_segment canon n (calls_of (log r))
    /\ (res r = Return tt -> calls_of (log r) = map returned canon)
    /\ (forall e, res r = Raise e ->
          calls_of (log r) = []
          \/ exists c, canon !! n = Some c
                       /\ calls_of (log r)
                          = map returned (take n canon) ++ [(c, Some e)])
    /\ (forall code, res r = SysExit code -> code = 1 /\ calls_of (log r) = [])
    /\ res r <> Stuck.
Proof.
  intros Hcl r. subst r.
  destruct (convert_shape mappers input_file out acc engine image override w Hcl)
    as (pre & op & w' & Hres & Hshape).
  destruct (resolution_calls _ _ _ _ _ _ _ _ Hres) as (Hpre & _).
  destruct op as [p| |e0].
  - exists p. cbv zeta in Hshape.
    destruct Hshape as [_ [[Hr Hl] | (n & c & e & Hn & Hr & Hl)]].
    + exists (length (canon_calls mappers (length (jsons w)) (length (sources w))
                        (length (dests w)) p acc (Py.join out acc))).
      cbv zeta. rewrite Hr, Hl, calls_of_app, Hpre, calls_of_ok.
      cbn [app].
      split; [left; rewrite firstn_all; reflexivity|]. split; [reflexivity|].
      split; [discriminate|]. split; discriminate.
    + exists n. cbv zeta.
      rewrite Hr, Hl, !calls_of_app, Hpre, calls_of_ok.
      change (calls_of [ECall c (Some e)]) with [(c, Some e)]. cbn [app].
      split; [right; eauto|]. split; [discriminate|].
      split; [intros e' [= <-]; eauto|]. split; discriminate.
  - exists "", 0%nat. cbv zeta. rewrite Hshape. cbn [res log]. rewrite Hpre.
    split; [left; reflexivity|]. split; [discriminate|].
    split; [discriminate|]. split; [|discriminate].
    intros code [= <-]. auto.
  - exists "", 0%nat. cbv zeta. rewrite Hshape. cbn [res log]. rewrite Hpre.
    split; [left; reflexivity|]. split; [discriminate|].
    split; [auto|]. split; discriminate.
Qed.

(** In a process that has imported the module, [convert] uses no name
    that denotes no object. *)
Lemma convert_not_stuck mappers input_file out acc engine image override w :
  loaded mappers w ->
  res (convert mappers input_file out acc engine image override w) <> Stuck.
Proof.
  intros [Hcl _].
  pose proof (convert_calls mappers input_file out acc engine image override w
                Hcl) as H.
  cbv zeta in H. destruct H as (p & n & _ & _ & _ & _ & Hstuck). exact Hstuck.
Qed.

Lemma initial_segment_lookup canon n cs i c x :
  initial_segment canon n cs ->
  cs !! i = Some (c, x) ->
  canon !! i = Some c /\ take i cs = map returned (take i canon).
Proof.
  intros Hseg Hi.
  assert (Hin : forall k, (k < length (take n canon))%nat ->
                map returned (take n canon) !! k = Some (c, x) ->
                canon !! k = Some c
                /\ take k (map returned (take n canon)) = map returned (take k canon)).
  { intros k Hk Hlook.
    rewrite length_take in Hk.
    rewrite <- firstn_map, take_take.
    replace (k `min` n)%nat with k by lia.
    rewrite firstn_map. split; [|reflexivity].
    change (map returned (take n canon)) with (returned <$> take n canon) in Hlook.
    rewrite list_lookup_fmap in Hlook.
    rewrite lookup_take_lt in Hlook by lia.
    destruct (canon !! k) as [c'|]; [|discriminate].
    simpl in Hlook. unfold returned in Hlook. congruence. }
  destruct Hseg as [-> | (c0 & e0 & Hn & ->)].
  - apply Hin; [|exact Hi].
    apply lookup_lt_Some in Hi. rewrite length_map in Hi. exact Hi.
  - pose proof (lookup_lt_Some _ _ _ Hn) as Hlt.
    assert (Hlen : length (map returned (take n canon)) = n).
    { rewrite length_map, length_take. lia. }
    destruct (decide (i < n)%nat) as [Hlt' | Hge].
    + rewrite lookup_app_l in Hi by lia.
      destruct (Hin i) as [Hc Ht]; [rewrite length_take; lia | exact Hi |].
      split; [exact Hc|]. rewrite take_app_le by lia. exact Ht.
    + rewrite lookup_app_r in Hi by lia. rewrite Hlen in Hi.
      apply list_lookup_singleton_Some in Hi as [Hi0 Heq].
      assert (i = n) as -> by lia. injection Heq as <- <-.
      split; [exact Hn|].
      rewrite take_app_le by lia. rewrite take_ge by lia. reflexivity.
Qed.

Lemma update_calls_lookup l : forall cl s d k c,
  update_calls l cl s d !! k = Some c ->
  exists cls self,
    c = Update cls self s d /\ l !! k = Some self /\ cl !! k = Some cls.
Proof.
  unfold update_calls.
  induction l as [|self l IH]; intros [|cls cl] s d k c H; try discriminate.
  destruct k as [|k]; simpl in H.
  - injection H as <-. eauto.
  - apply IH in H as (cls' & self' & -> & Hl & Hcl). eauto.
Qed.

Lemma returned_lookup cs i c e :
  map returned cs !! i = Some (c, Some e) -> False.
Proof.
  change (map returned cs) with (returned <$> cs).
  rewrite list_lookup_fmap. destruct (cs !! i); discriminate.
Qed.

Lemma updates_in_app cs1 cs2 :
  updates_in (cs1 ++ cs2) = updates_in cs1 ++ updates_in cs2.
Proof. apply omap_app. Qed.

Lemma updates_in_take mappers j s d p acc dir n :
  updates_in (map returned (take n (canon_calls mappers j s d p acc dir)))
  = take (n - 5) (update_calls mappers mapper_classes s d).
Proof.
  rewrite <- calls_of_ok. apply update_calls_of_take.
Qed.

Lemma first_calls_not_save j s d p acc :
  Forall (fun c => is_save c = false) (first_calls j s d p acc).
Proof. repeat constructor. Qed.

Lemma update_not_save c : is_update c = true -> is_save c = false.
Proof. destruct c; auto; discriminate. Qed.

(** A raising call is the last call of the run. *)
Lemma initial_segment_raised canon n cs i c e :
  initial_segment canon n cs ->
  cs !! i = Some (c, Some e) ->
  i = n /\ canon !! n = Some c
  /\ cs = map returned (take n canon) ++ [(c, Some e)]
  /\ length cs = S n.
Proof.
  intros [-> | (c0 & e0 & Hn & ->)] Hi.
  - exfalso. eapply returned_lookup; eauto.
  - pose proof (lookup_lt_Some _ _ _ Hn) as Hlt.
    assert (Hlen : length (map returned (take n canon)) = n).
    { rewrite length_map, length_take. lia. }
    apply lookup_app_Some in Hi as [Hi | [Hge Hi]].
    + exfalso. eapply returned_lookup; eauto.
    + rewrite Hlen in Hi, Hge.
      apply list_lookup_singleton_Some in Hi as [Hi0 Heq].
      injection Heq as <- <-.
      split; [lia|]. split; [exact Hn|]. split; [reflexivity|].
      rewrite length_app, Hlen. simpl. lia.
Qed.

(** *** What a run prints and launches *)

Lemma printed_app evs1 evs2 : printed (evs1 ++ evs2) = printed evs1 ++ printed evs2.
Proof. apply omap_app. Qed.

Lemma printed_ok (cs : list call) : printed (map ok cs) = [].
Proof. induction cs as [|c cs IH]; simpl; auto. Qed.

(** Every run: how lines 90-141 ended, and what followed.  Only those
    lines print and launch. *)
Lemma convert_resolved mappers input_file out acc engine image override w :
  Forall2 (has_class w) mappers mapper_classes ->
  let r := convert mappers input_file out acc engine image override w in
  exists pre op w',
    resolution w input_file engine image override pre op w'
    /\ launches_of (log r) = launches_of pre
    /\ printed (log r) = printed pre
    /\ match op with
       | Exiting => res r = SysExit 1 /\ log r = pre /\ final r = w'
       | Failing e => res r = Raise e /\ log r = pre /\ final r = w'
       | Reading p =>
           exists n x rest,
             initial_segment
               (canon_calls mappers (length (jsons w)) (length (sources w))
                  (length (dests w)) p acc (Py.join out acc))
               n (calls_of (log r))
             /\ calls_of (log r) = (Open p (length (jsons w)), x) :: rest
             /\ (res r = Return tt \/ exists e, res r = Raise e)
       end.
Proof.
  intros Hcl r. subst r.
  destruct (convert_shape mappers input_file out acc engine image override w Hcl)
    as (pre & op & w' & Hres & Hshape).
  destruct (resolution_calls _ _ _ _ _ _ _ _ Hres) as (Hpre & _).
  exists pre, op, w'. split; [exact Hres|].
  destruct op as [p| |e0].
  - cbv zeta in Hshape.
    destruct Hshape as [_ [[Hr Hl] | (n & c & e & Hn & Hr & Hl)]].
    + rewrite Hl, launches_of_app, launches_of_ok, printed_app, printed_ok,
        calls_of_app, Hpre, calls_of_ok, !app_nil_r.
      split; [reflexivity|]. split; [reflexivity|].
      eexists (length (canon_calls _ _ _ _ _ _ _)), None, _.
      split; [left; rewrite firstn_all; reflexivity|].
      split; [reflexivity | auto].
    + rewrite Hl, !launches_of_app, launches_of_ok, !printed_app, printed_ok,
        !calls_of_app, Hpre, calls_of_ok.
      change (launches_of [ECall c (Some e)]) with (@nil (run_result Exc)).
      change (printed [ECall c (Some e)]) with (@nil string).
      change (calls_of [ECall c (Some e)]) with [(c, Some e)].
      rewrite !app_nil_r. cbn [app].
      split; [reflexivity|]. split; [reflexivity|].
      destruct n as [|n].
      * injection Hn as <-. exists 0%nat, (Some e), [].
        split; [right; eauto|]. split; [reflexivity | eauto].
      * exists (S n), None, (map returned (take n
           (ReplaceNull (length (jsons w))
            :: Validate (length (jsons w)) (length (sources w))
            :: Modify (length (sources w))
            :: Create acc (length (dests w))
            :: update_calls mappers mapper_classes (length (sources w))
                 (length (dests w))
               ++ [Save (length (dests w)) (Py.join out acc)]))
           ++ [(c, Some e)]).
        split; [right; eauto|]. split; [reflexivity | eauto].
  - rewrite Hshape. cbn [res log final]. auto.
  - rewrite Hshape. cbn [res log final]. auto.
Qed.


Lemma json_extension_false input_file :
  Py.lower (Py.splitext input_file).2 <> ".json" -> json_extension input_file = false.
Proof.
  intros H. unfold json_extension.
  destruct (String.eqb_spec (Py.lower (Py.splitext input_file).2) ".json");
    [contradiction | reflexivity].
Qed.

(** An [Open] call stands first and has the path of the run. *)
Lemma open_lookup mappers j s d p acc dir n cs i p' j' x :
  initial_segment (canon_calls mappers j s d p acc dir) n cs ->
  cs !! i = Some (Open p' j', x) ->
  i = 0%nat /\ p' = p /\ j' = j.
Proof.
  intros Hseg Hi.
  destruct (initial_segment_lookup _ _ _ _ _ _ Hseg Hi) as [Hc _].
  destruct (canon_lookup _ _ _ _ _ _ _ _ _ Hc) as [[Hlt H5] | [[_ H5] | [_ H5]]].
  - unfold first_calls in H5.
    destruct i as [|[|[|[|[|i]]]]]; simpl in H5; try discriminate.
    injection H5 as <- <-. auto.
  - exfalso.
    pose proof (update_calls_are_updates mappers mapper_classes s d) as Hall.
    rewrite Forall_lookup in Hall. specialize (Hall _ _ H5). discriminate.
  - discriminate.
Qed.

(** ** The claims about the driver *)

(** C2.  In every run in which an [update] call raises [e]: the call is
    the last call the run makes, so no later mapper is attempted (the
    instances called are the entries of [mappers] up to the raising one)
    and [save_metabolights_study_model] is not called; [e] leaves
    [convert]. *)
Theorem failing_mapper_stops_the_run
    mappers input_file out acc engine image override w :
  loaded mappers w ->
  let r := convert mappers input_file out acc engine image override w in
  let cs := calls_of (log r) in
  forall i cls self s d e,
    cs !! i = Some (Update cls self s d, Some e) ->
    res r = Raise e
    /\ length cs = S i
    /\ (exists k, mappers !! k = Some self
                  /\ map self_of (updates_in cs) = take (S k) mappers)
    /\ (forall i' c x, cs !! i' = Some (c, x) -> is_save c = false).
Proof.
  intros Hloaded r cs i cls self s d e Hi.
  pose proof (convert_calls mappers input_file out acc engine image override w
                (proj1 Hloaded)) as H.
  cbv zeta in H. destruct H as (p & n & Hseg & Hret & Hraise & Hexit & Hstuck).
  fold r in Hseg, Hret, Hraise, Hexit, Hstuck.
  fold cs in Hseg, Hret, Hraise, Hexit.
  set (canon := canon_calls mappers (length (jsons w)) (length (sources w))
                  (length (dests w)) p acc (Py.join out acc)) in *.
  destruct (initial_segment_raised _ _ _ _ _ _ Hseg Hi)
    as (-> & Hn & Hcs & Hlen).
  destruct (canon_lookup_update _ _ _ _ _ _ _ _ _ Hn eq_refl) as [Hle Hu].
  pose proof (lookup_lt_Some _ _ _ Hu) as Hk.
  destruct (update_calls_lookup _ _ _ _ _ _ Hu)
    as (cls' & self' & [= ? ? ? ?] & Hself & Hcls).
  subst cls' self' s d.
  split; [|split; [exact Hlen|split]].
  - destruct (res r) as [[] | e' | code |] eqn:Hr.
    + rewrite Hret in Hi by reflexivity. exfalso. eapply returned_lookup; eauto.
    + destruct (Hraise e' eq_refl) as [Hnil | (c' & _ & Hcs')].
      * rewrite Hnil in Hi. discriminate.
      * rewrite Hcs in Hcs'. apply app_inv_head in Hcs'. congruence.
    + destruct (Hexit code eq_refl) as [_ Hnil]. rewrite Hnil in Hi. discriminate.
    + contradiction.
  - exists (n - 5)%nat. split; [exact Hself|].
    rewrite Hcs, updates_in_app. unfold canon. rewrite updates_in_take.
    change (updates_in [(Update cls self (length (sources w)) (length (dests w)), Some e)])
      with [Update cls self (length (sources w)) (length (dests w))].
    rewrite <- (take_S_r _ _ _ Hu), <- firstn_map.
    rewrite update_calls_self by (eapply Forall2_length; apply Hloaded).
    reflexivity.
  - intros i' c x Hi'.
    destruct (initial_segment_lookup _ _ _ _ _ _ Hseg Hi') as [Hc _].
    apply lookup_lt_Some in Hi'. rewrite Hlen in Hi'.
    destruct (canon_lookup _ _ _ _ _ _ _ _ _ Hc) as [[_ H5] | [[_ H5] | [Heq _]]].
    + pose proof (first_calls_not_save (length (jsons w)) (length (sources w))
                    (length (dests w)) p acc) as Hall.
      rewrite Forall_lookup in Hall. eapply Hall; eauto.
    + apply update_not_save.
      pose proof (update_calls_are_updates mappers mapper_classes
                    (length (sources w)) (length (dests w))) as Hall.
      rewrite Forall_lookup in Hall. eapply Hall; eauto.
    + lia.
Qed.

Lemma initial_segment_length canon n cs :
  initial_segment canon n cs -> (length cs <= length canon)%nat.
Proof.
  intros [-> | (c & e & Hn & ->)].
  - rewrite length_map, length_take. lia.
  - apply lookup_lt_Some in Hn.
    rewrite length_app, length_map, length_take. simpl. lia.
Qed.


(** What the run looks like after a container launch that did not
    succeed. *)
Lemma failed_launch mappers input_file out acc engine image override w i r0 :
  Forall2 (has_class w) mappers mapper_classes ->
  let r := convert mappers input_file out acc engine image override w in
  launches_of (log r) !! i = Some r0 ->
  tool_succeeded r0 = false ->
  exists abs_path,
    realpath (files w) input_file = inr abs_path
    /\ res r = SysExit 1
    /\ log r = header input_file
               ++ [EPrint launching;
                   ELaunch (tool_command abs_path engine image) 120 r0]
               ++ tool_report r0
    /\ jsons (final r) = jsons w
    /\ sources (final r) = sources w
    /\ dests (final r) = dests w.
Proof.
  intros Hcl r Hi Hfail.
  pose proof (convert_resolved mappers input_file out acc engine image override w
                Hcl) as H.
  cbv zeta in H. destruct H as (pre & op & w' & Hres & Hlaunch & _ & Hop).
  fold r in Hlaunch, Hop. rewrite Hlaunch in Hi.
  destruct Hres as [Hjson | Hjson Hov Hex | e0 Hjson Hwhy Hreal
                    | abs_path r1 f Hjson Hwhy Hreal Hrun].
  - rewrite header_launches in Hi. discriminate.
  - rewrite launches_of_app, header_launches in Hi. discriminate.
  - rewrite header_launches in Hi. discriminate.
  - rewrite !launches_of_app, header_launches, tool_report_launches in Hi.
    destruct i as [|i]; [|discriminate]. injection Hi as ->.
    rewrite Hfail in Hop. destruct Hop as (Hr & Hl & ->).
    exists abs_path. auto 10.
Qed.

(** C6.  When the launch of the container ends in [TimeoutExpired], the
    run ends in [sys.exit(1)], so with the exit status 1 and not the
    status 0 of a run that returns; the last line it has printed is the
    message of the time-out; the container has been launched once; and no
    collaborator has been called: nothing was parsed, normalised, mapped
    or saved, and no model exists. *)
Theorem timed_out_preconversion_ends_the_run
    mappers input_file out acc engine image override w :
  loaded mappers w ->
  let r := convert mappers input_file out acc engine image override w in
  forall i o e,
    launches_of (log r) !! i = Some (TimeoutExpired o e) ->
    res r = SysExit 1
    /\ exit_status (res r) = Some 1
    /\ exit_status (res r) <> exit_status (Return tt)
    /\ last (printed (log r))
       = Some "The conversion of the mzTab file to mzTab json format timed out."
    /\ launches_of (log r) = [TimeoutExpired o e]
    /\ calls_of (log r) = []
    /\ jsons (final r) = jsons w
    /\ sources (final r) = sources w
    /\ dests (final r) = dests w.
Proof.
  intros Hloaded r i o e Hi.
  destruct (failed_launch mappers input_file out acc engine image override w i
              (TimeoutExpired o e) (proj1 Hloaded) Hi eq_refl)
    as (abs_path & _ & Hr & Hl & HJ & HS & HD).
  fold r in Hr, Hl, HJ, HS, HD. rewrite Hr, Hl.
  split; [reflexivity|]. split; [reflexivity|]. split; [discriminate|].
  split.
  { rewrite !printed_app.
    change (printed (tool_report (TimeoutExpired o e)))
      with [timed_out_message].
    rewrite !app_assoc, last_snoc. reflexivity. }
  split.
  { rewrite !launches_of_app, header_launches. reflexivity. }
  split; [|auto].
  rewrite !calls_of_app, header_calls. reflexivity.
Qed.

(** C7, amended.  Every launch of the container that does not succeed
    ends the run in [sys.exit(1)] before any collaborator is called, and
    the last lines printed are: after a non-zero exit status, the message
    of the failure and the captured standard error of the tool; after a
    time-out, the message of the time-out alone; after any other
    exception, the message of the failure and the text of the
    exception. *)
Theorem tool_failure_is_fatal_and_reported
    mappers input_file out acc engine image override w :
  loaded mappers w ->
  let r := convert mappers input_file out acc engine image override w in
  forall i r0,
    launches_of (log r) !! i = Some r0 ->
    tool_succeeded r0 = false ->
    res r = SysExit 1
    /\ exit_status (res r) = Some 1
    /\ calls_of (log r) = []
    /\ launches_of (log r) = [r0]
    /\ printed (log r)
       = printed (header input_file)
         ++ ["Converting mzTab file to mzTab json format. Please check container management tool (docker, podman, etc.) is installed and runnig."]
         ++ failure_lines r0.
Proof.
  intros Hloaded r i r0 Hi Hfail.
  destruct (failed_launch mappers input_file out acc engine image override w i
              r0 (proj1 Hloaded) Hi Hfail) as (abs_path & _ & Hr & Hl & _).
  fold r in Hr, Hl. rewrite Hr, Hl.
  split; [reflexivity|]. split; [reflexivity|].
  split.
  { rewrite !calls_of_app, header_calls. simpl. apply tool_report_calls. }
  split.
  { rewrite !launches_of_app, header_launches. simpl.
    rewrite tool_report_launches. reflexivity. }
  rewrite !printed_app. f_equal.
  destruct r0; try discriminate; reflexivity.
Qed.

(** *** The instances across runs *)

Lemma constructs_of_app evs1 evs2 :
  constructs_of (evs1 ++ evs2) = constructs_of evs1 ++ constructs_of evs2.
Proof. apply omap_app. Qed.

Lemma constructs_of_ok (cs : list call) : constructs_of (map ok cs) = [].
Proof. induction cs as [|c cs IH]; simpl; auto. Qed.

Lemma resolution_constructs w input_file engine image override pre op w' :
  resolution w input_file engine image override pre op w' ->
  constructs_of pre = [].
Proof.
  assert (Hh : constructs_of (header input_file) = []).
  { unfold header. destruct (Py.startswith _ _); reflexivity. }
  assert (Ht : forall r, constructs_of (tool_report r) = []).
  { intros [t | | |]; simpl; auto.
    destruct (negb (task_stdout t =? "")%string); reflexivity. }
  intros H. destruct H; rewrite ?constructs_of_app, ?Hh; simpl; rewrite ?Ht; auto.
Qed.

Lemma updated_take mappers input_file out acc engine image override w :
  Forall2 (has_class w) mappers mapper_classes ->
  exists n,
    updated (log (convert mappers input_file out acc engine image override w))
    = take n mappers.
Proof.
  intros Hcl.
  destruct (convert_updates mappers input_file out acc engine image override w Hcl)
    as [[n Hn] _].
  exists n. unfold updated. rewrite Hn, <- firstn_map.
  rewrite update_calls_self by (eapply Forall2_length; eauto). reflexivity.
Qed.

(** A run of [convert] constructs no instance and leaves every instance
    with its class; the instances whose [update] it calls are the first
    entries of [mappers]; such an instance gets the attributes that its
    [update] makes of the attributes it had when the run began, and every
    other instance keeps its attributes. *)
Lemma convert_instances mappers input_file out acc engine image override w :
  loaded mappers w ->
  let r := convert mappers input_file out acc engine image override w in
  loaded mappers (final r)
  /\ constructs_of (log r) = []
  /\ length (instances (final r)) = length (instances w)
  /\ (exists n, updated (log r) = take n mappers)
  /\ forall self cls attrs,
       instances w !! self = Some (cls, attrs) ->
       (In self (updated (log r)) ->
        exists src dst,
          instances (final r) !! self = Some (cls, (update cls attrs src dst).1.1.1))
       /\ (~ In self (updated (log r)) ->
           instances (final r) !! self = Some (cls, attrs)).
Proof.
  intros [Hcl Hnd] r.
  destruct (updated_take mappers input_file out acc engine image override w Hcl)
    as [n Hn]. fold r in Hn.
  assert (Htouched : touched w (final r) (log r)
                     /\ constructs_of (log r) = []).
  { destruct (convert_shape mappers input_file out acc engine image override w Hcl)
      as (pre & op & w' & Hres & Hshape).
    pose proof (resolution_constructs _ _ _ _ _ _ _ _ Hres) as Hpre.
    destruct (resolution_calls _ _ _ _ _ _ _ _ Hres) as (Hcalls & _ & _ & _ & HI).
    destruct op as [p| |e0].
    - cbv zeta in Hshape. fold r in Hshape.
      destruct Hshape as [Ht [[_ Hl] | (k & c & e & _ & _ & Hl)]];
        (split; [exact Ht|]); rewrite Hl, !constructs_of_app, constructs_of_ok, Hpre;
        reflexivity.
    - unfold r. rewrite Hshape. cbn [final log]. split; [|exact Hpre].
      apply touched_quiet; [exact HI|].
      unfold updated, update_calls_of. rewrite Hcalls. reflexivity.
    - unfold r. rewrite Hshape. cbn [final log]. split; [|exact Hpre].
      apply touched_quiet; [exact HI|].
      unfold updated, update_calls_of. rewrite Hcalls. reflexivity. }
  destruct Htouched as [Ht Hc].
  pose proof (touched_kept _ _ _ Ht) as [Hlen Hk].
  split; [split; [|exact Hnd]|].
  { eapply Forall2_impl; [exact Hcl|]. intros; apply Hk; auto. }
  split; [exact Hc|]. split; [exact Hlen|]. split; [eauto|].
  intros self cls a Ha. destruct Ht as [_ Ht]. specialize (Ht _ _ _ Ha).
  assert (Hle : (count_occ Nat.eq_dec (updated (log r)) self <= 1)%nat).
  { apply NoDup_count_occ, NoDup_ListNoDup. rewrite Hn.
    rewrite <- (take_drop n mappers) in Hnd.
    apply NoDup_app in Hnd as [Hnd _]. exact Hnd. }
  split.
  - intros Hin. apply (count_occ_In Nat.eq_dec) in Hin.
    destruct (count_occ Nat.eq_dec (updated (log r)) self) as [|[|k]];
      [lia | exact Ht | lia].
  - intros Hnot. apply (count_occ_not_In Nat.eq_dec) in Hnot.
    rewrite Hnot in Ht. exact Ht.
Qed.


(** C3, amended.  Importing the module makes [mappers] a list of ten
    instances: one of [MetadataBaseMapper], then one per facet of the
    specification, in its order; the ten classes are distinct. *)
Theorem mapper_list_has_ten_entries w :
  let r0 := import_converter w in
  exists mappers,
    res r0 = Return mappers
    /\ length mappers = 10%nat
    /\ Forall2 (has_class (final r0)) mappers (MetadataBaseMapper :: facet_mappers)
    /\ NoDup mappers
    /\ mapper_classes = MetadataBaseMapper :: facet_mappers
    /\ NoDup mapper_classes.
Proof.
  intros r0. exists (seq (length (instances w)) 10).
  destruct (import_loaded w) as [Hcl Hnd]. fold r0 in Hcl.
  split; [unfold r0; rewrite import_run; reflexivity|].
  split; [apply length_seq|]. split; [exact Hcl|]. split; [exact Hnd|].
  split; [reflexivity|].
  apply (bool_decide_unpack _). reflexivity.
Qed.

(** ** More of [convert] *)

(** *** Lines 90-141, by the options and the file system *)

Lemma commands_of_app evs1 evs2 :
  commands_of (evs1 ++ evs2) = commands_of evs1 ++ commands_of evs2.
Proof. apply omap_app. Qed.

Lemma commands_of_ok (cs : list call) : commands_of (map ok cs) = [].
Proof. induction cs as [|c cs IH]; simpl; auto. Qed.

Lemma header_commands input_file : commands_of (header input_file) = [].
Proof. unfold header. destruct (Py.startswith _ _); reflexivity. Qed.

Lemma tool_report_commands r : commands_of (tool_report r) = [].
Proof.
  destruct r as [t | | |]; simpl; auto.
  destruct (negb (task_stdout t =? "")%string); reflexivity.
Qed.

Lemma tool_report_printed r : printed (tool_report r) = completion_lines r.
Proof.
  destruct r as [t | | |]; simpl; auto.
  destruct (task_stdout t =? "")%string; reflexivity.
Qed.

(** The way lines 90-141 end is the one the options and the file system
    determine. *)
Lemma header_printed input_file :
  printed (header input_file)
  = disclaimer
    :: (if Py.startswith input_file "test/data/singa"
        then ["Using default input file: test/data/singaporean-plasma-site1.mzTab";
              "Please use the --input-file option to specify a custom input file."]
        else []).
Proof. unfold header. destruct (Py.startswith _ _); reflexivity. Qed.

Lemma resolution_summary w input_file engine image override pre op w' :
  resolution w input_file engine image override pre op w' ->
  w' = world_read w input_file engine image override
  /\ op = way w input_file engine image override
  /\ pre = preamble w input_file engine image override
  /\ printed pre = expected_lines w input_file engine image override
  /\ commands_of pre
     = (if tool_needed w input_file override
        then match realpath (files w) input_file with
             | inr abs_path => [(tool_command abs_path engine image, 120)]
             | inl _ => []
             end
        else []).
Proof.
  intros H. unfold world_read, way, real_failure, reaches_reading, json_path,
    preamble, expected_lines, tool_needed, tool_outcome.
  fold disclaimer.
  destruct H as [Hjson | Hjson Hov Hex | e Hjson Hwhy Hreal
                 | abs_path r f Hjson Hwhy Hreal Hrun]; rewrite Hjson.
  - cbn [negb andb orb]. cbv iota.
    rewrite header_commands, header_printed, !app_nil_r. auto 10.
  - rewrite Hov, Hex. cbn [negb andb orb]. cbv iota.
    rewrite printed_app, commands_of_app, header_commands, header_printed.
    auto 10.
  - rewrite Hreal.
    assert (Hneed : Py.truthy override
                    || negb (path_exists (files w) (input_file ++ ".json")%string)
                    = true).
    { destruct Hwhy as [-> | ->]; [reflexivity | apply orb_true_r]. }
    rewrite Hneed. cbn [negb andb orb]. cbv iota.
    rewrite header_commands, header_printed, !app_nil_r. auto 10.
  - rewrite Hreal, Hrun. cbn [fst snd].
    assert (Hneed : Py.truthy override
                    || negb (path_exists (files w) (input_file ++ ".json")%string)
                    = true).
    { destruct Hwhy as [-> | ->]; [reflexivity | apply orb_true_r]. }
    rewrite Hneed. cbn [negb andb orb]. cbv iota.
    rewrite !printed_app, !commands_of_app, header_commands, header_printed,
      tool_report_commands, tool_report_printed.
    split; [reflexivity|]. split; [destruct (tool_succeeded r); reflexivity|].
    split; [reflexivity|]. split; reflexivity.
Qed.

Lemma preamble_calls w input_file engine image override :
  calls_of (preamble w input_file engine image override) = [].
Proof.
  unfold preamble. rewrite calls_of_app, header_calls.
  destruct (json_extension input_file); [reflexivity|].
  destruct (tool_needed w input_file override); [|reflexivity].
  destruct (realpath (files w) input_file); [reflexivity|].
  cbv zeta. rewrite calls_of_app, tool_report_calls. reflexivity.
Qed.

(** Every run, with the way lines 90-141 end made explicit. *)
Lemma convert_run mappers input_file out acc engine image override w :
  let w' := world_read w input_file engine image override in
  let pre := preamble w input_file engine image override in
  convert mappers input_file out acc engine image override w
  = match way w input_file engine image override with
    | Reading p => prepend pre (pipeline mappers p out acc w')
    | Exiting => MkResult (SysExit 1) w' pre
    | Failing e => MkResult (Raise e) w' pre
    end.
Proof.
  intros w' pre.
  destruct (convert_cases mappers input_file out acc engine image override w)
    as (pre1 & op & w1 & Hres & Heq).
  destruct (resolution_summary _ _ _ _ _ _ _ _ Hres) as (Hw & Hop & Hpre & _).
  fold w' in Hw. fold pre in Hpre. subst w1 op pre1. exact Heq.
Qed.

(** The same, for a run that reaches line 143. *)
Lemma convert_reading mappers input_file out acc engine image override w :
  reaches_reading w input_file engine image override = true ->
  convert mappers input_file out acc engine image override w
  = prepend (preamble w input_file engine image override)
      (pipeline mappers (json_path input_file) out acc
         (world_read w input_file engine image override)).
Proof.
  intros Hreach. rewrite convert_run. unfold way. rewrite Hreach. reflexivity.
Qed.

Lemma convert_prints_and_launches
    mappers input_file out acc engine image override w :
  Forall2 (has_class w) mappers mapper_classes ->
  let r := convert mappers input_file out acc engine image override w in
  printed (log r) = expected_lines w input_file engine image override
  /\ commands_of (log r)
     = (if tool_needed w input_file override
        then match realpath (files w) input_file with
             | inr abs_path => [(tool_command abs_path engine image, 120)]
             | inl _ => []
             end
        else []).
Proof.
  intros Hcl r. subst r.
  destruct (convert_shape mappers input_file out acc engine image override w Hcl)
    as (pre & op & w' & Hres & Hshape).
  destruct (resolution_summary _ _ _ _ _ _ _ _ Hres) as (_ & _ & _ & Hp & Hc).
  rewrite <- Hp, <- Hc.
  destruct op as [p| |e0].
  - cbv zeta in Hshape.
    destruct Hshape as [_ [[_ Hl] | (n & c & e & _ & _ & Hl)]]; rewrite Hl.
    + rewrite printed_app, printed_ok, commands_of_app, commands_of_ok, !app_nil_r.
      auto.
    + rewrite !printed_app, printed_ok, !commands_of_app, commands_of_ok.
      change (printed [ECall c (Some e)]) with (@nil string).
      change (commands_of [ECall c (Some e)]) with (@nil (list string * Z)).
      rewrite !app_nil_r. auto.
  - rewrite Hshape. auto.
  - rewrite Hshape. auto.
Qed.

(** X1.  A run gets to line 107 exactly when the extension of the input
    file, in lower case, is not [".json"] and, besides, the override option
    is true or no file exists at the input path with [".json"] appended.
    There, when [os.path.realpath] gives the real path of the input file,
    the run hands [subprocess.run] one command, with the time-out of 120
    seconds: [sh -c] with the line that runs the image on the directory
    and the base name of that path.  When [os.path.realpath] raises, no
    command is run.  No other run hands [subprocess.run] a command. *)
Theorem container_is_launched_exactly_when_needed
    mappers input_file out acc engine image override w :
  loaded mappers w ->
  let r := convert mappers input_file out acc engine image override w in
  commands_of (log r)
  = if negb (String.eqb (Py.lower (Py.splitext input_file).2) ".json")
       && (Py.truthy override
           || negb (path_exists (files w) (input_file ++ ".json")%string))
    then match realpath (files w) input_file with
         | inr abs_path =>
             [(container_command engine image (Py.dirname abs_path)
                 (Py.basename abs_path), 120)]
         | inl _ => []
         end
    else [].
Proof.
  intros [Hcl _] r.
  destruct (convert_prints_and_launches mappers input_file out acc engine image
              override w Hcl) as [_ Hcommands].
  exact Hcommands.
Qed.

(** X2.  What a run prints, in order: the note on validation; then, when
    the input path starts with ["test/data/singa"], the two lines on the
    default input file; then nothing more for a JSON input, or the line
    that the JSON file exists and will be used, or, unless
    [os.path.realpath] raises, the line that the conversion begins followed
    by what the container gave rise to: its captured standard output when
    it succeeded, unless that is empty, the message of the time-out, or the
    message of the failure with the captured standard error or the text of
    the exception. *)
Theorem lines_printed_by_a_run
    mappers input_file out acc engine image override w :
  loaded mappers w ->
  let r := convert mappers input_file out acc engine image override w in
  printed (log r) = expected_lines w input_file engine image override.
Proof.
  intros [Hcl _] r.
  destruct (convert_prints_and_launches mappers input_file out acc engine image
              override w Hcl) as [Hlines _].
  exact Hlines.
Qed.

(** X10.  An exception of [os.path.realpath] at line 107 leaves
    [convert]: the [try] statement begins after that line.  The run has
    printed the lines of 92-99 and nothing more, has run no command and
    called no collaborator, and leaves the world as it found it. *)
Theorem realpath_failure_leaves_the_run
    mappers input_file out acc engine image override w e :
  Py.lower (Py.splitext input_file).2 <> ".json" ->
  Py.truthy override = true
  \/ path_exists (files w) (input_file ++ ".json")%string = false ->
  realpath (files w) input_file = inl e ->
  let r := convert mappers input_file out acc engine image override w in
  res r = Raise e
  /\ exit_status (res r) = Some 1
  /\ log r = header input_file
  /\ commands_of (log r) = []
  /\ calls_of (log r) = []
  /\ final r = w.
Proof.
  intros Hext Hwhy Hreal r. subst r.
  apply json_extension_false in Hext.
  assert (Hneed : tool_needed w input_file override = true).
  { unfold tool_needed. rewrite Hext.
    destruct Hwhy as [-> | ->]; [reflexivity | apply orb_true_r]. }
  rewrite convert_run.
  unfold way, reaches_reading, real_failure, preamble, world_read, tool_outcome.
  rewrite Hneed, Hreal, Hext. cbn [negb orb res final log exit_status].
  rewrite app_nil_r, header_commands, header_calls. auto 10.
Qed.

(** *** Reading the model, and the end of the run *)


Lemma pipeline_unreadable mappers p out acc w e :
  json_load (files w) p = inl e ->
  pipeline mappers p out acc w
  = MkResult (Raise e) w [ECall (Open p (length (jsons w))) (Some e)].
Proof.
  intros H. unfold pipeline. apply bind_raised.
  unfold open_json_load. rewrite H. reflexivity.
Qed.

Lemma world_read_stores w input_file engine image override :
  jsons (world_read w input_file engine image override) = jsons w
  /\ sources (world_read w input_file engine image override) = sources w
  /\ dests (world_read w input_file engine image override) = dests w
  /\ instances (world_read w input_file engine image override) = instances w.
Proof.
  unfold world_read. destruct (tool_needed _ _ _); [|auto].
  destruct (tool_outcome _ _ _ _) as [[r f]|]; auto.
Qed.

(** X3.  When line 143 is reached and the file at the path of the JSON
    model cannot be opened or parsed, the exception leaves [convert]; the
    attempt to read is the only collaborator call of the run, and the world
    is as lines 90-141 left it: no object was made, and nothing was
    written.  The path is not tested beforehand for a JSON input, and a
    container that succeeded without leaving the file ends the run this
    way. *)
Theorem unreadable_model_file_ends_the_run
    mappers input_file out acc engine image override w e :
  reaches_reading w input_file engine image override = true ->
  json_load (files (world_read w input_file engine image override))
            (json_path input_file) = inl e ->
  let r := convert mappers input_file out acc engine image override w in
  res r = Raise e
  /\ calls_of (log r) = [(Open (json_path input_file) (length (jsons w)), Some e)]
  /\ final r = world_read w input_file engine image override
  /\ jsons (final r) = jsons w
  /\ sources (final r) = sources w
  /\ dests (final r) = dests w
  /\ instances (final r) = instances w.
Proof.
  intros Hreach Hload r. subst r.
  destruct (world_read_stores w input_file engine image override)
    as (HJ & HS & HD & HI).
  rewrite (convert_reading _ _ _ _ _ _ _ _ Hreach),
    (pipeline_unreadable _ _ _ _ _ _ Hload).
  cbn [res final log prepend]. rewrite HJ.
  split; [reflexivity|]. split; [|auto].
  rewrite calls_of_app, preamble_calls. reflexivity.
Qed.

Lemma prefix_append (a b : string) : String.prefix a (a ++ b)%string = true.
Proof.
  induction a as [|c a IH]; simpl; [destruct b; reflexivity|].
  destruct (ascii_dec c c); [exact IH | contradiction].
Qed.

Lemma join_cases (a b : string) :
  (Py.startswith b "/" = true -> Py.join a b = b)
  /\ (Py.startswith b "/" = false -> Py.startswith (Py.join a b) a = true).
Proof.
  unfold Py.join. split; intros H; rewrite H; [reflexivity|].
  unfold Py.startswith.
  destruct (String.eqb a "" || Py.endswith a "/"); apply prefix_append.
Qed.

Lemma save_lookup mappers j s d p acc dir n cs i d' dir' x :
  initial_segment (canon_calls mappers j s d p acc dir) n cs ->
  cs !! i = Some (Save d' dir', x) ->
  i = (5 + length (update_calls mappers mapper_classes s d))%nat
  /\ d' = d /\ dir' = dir.
Proof.
  intros Hseg Hi.
  destruct (initial_segment_lookup _ _ _ _ _ _ Hseg Hi) as [Hc _].
  destruct (canon_lookup _ _ _ _ _ _ _ _ _ Hc) as [[_ H5] | [[_ H5] | [-> H5]]].
  - exfalso. unfold first_calls in H5.
    destruct i as [|[|[|[|[|i]]]]]; simpl in H5; discriminate.
  - exfalso.
    pose proof (update_calls_are_updates mappers mapper_classes s d) as Hall.
    rewrite Forall_lookup in Hall. specialize (Hall _ _ H5). discriminate.
  - injection H5 as -> ->. auto.
Qed.

(** X4.  Whenever the study is saved, the directory handed to the writer
    is [os.path.join(output_dir, mtbls_accession_number)]: an accession
    number that starts with ["/"] is that directory by itself, whatever
    the output directory, and with any other accession number the
    directory starts with the output directory. *)
Theorem study_is_saved_under_the_joined_path
    mappers input_file out acc engine image override w :
  loaded mappers w ->
  let r := convert mappers input_file out acc engine image override w in
  forall i d dir x,
    calls_of (log r) !! i = Some (Save d dir, x) ->
    dir = Py.join out acc
    /\ (Py.startswith acc "/" = true -> dir = acc)
    /\ (Py.startswith acc "/" = false -> Py.startswith dir out = true).
Proof.
  intros Hloaded r i d dir x Hi.
  pose proof (convert_calls mappers input_file out acc engine image override w
                (proj1 Hloaded)) as H.
  cbv zeta in H. destruct H as (p & n & Hseg & _). fold r in Hseg.
  destruct (save_lookup _ _ _ _ _ _ _ _ _ _ _ _ _ Hseg Hi) as (_ & _ & ->).
  split; [reflexivity|]. apply join_cases.
Qed.

Lemma update_calls_length l cl s d :
  length l = length cl -> length (update_calls l cl s d) = length l.
Proof. intros H. unfold update_calls. rewrite length_zip_with. lia. Qed.

(** X5.  A run returns exactly when its call of the writer returned.  A
    run that returns has made sixteen collaborator calls, none of which
    raised; every run ends with the exit status 0 or 1, and with 0 only
    if it returns. *)
Theorem run_returns_exactly_when_the_study_is_saved
    mappers input_file out acc engine image override w :
  loaded mappers w ->
  let r := convert mappers input_file out acc engine image override w in
  let cs := calls_of (log r) in
  (res r = Return tt <-> exists i d dir, cs !! i = Some (Save d dir, None))
  /\ (res r = Return tt ->
      length cs = 16%nat /\ forall i c x, cs !! i = Some (c, x) -> x = None)
  /\ (exit_status (res r) = Some 0 \/ exit_status (res r) = Some 1)
  /\ (exit_status (res r) = Some 0 -> res r = Return tt).
Proof.
  intros Hloaded r cs.
  pose proof (convert_calls mappers input_file out acc engine image override w
                (proj1 Hloaded)) as H.
  cbv zeta in H. destruct H as (p & n & Hseg & Hret & Hraise & Hexit & Hstuck).
  fold r in Hseg, Hret, Hraise, Hexit, Hstuck.
  fold cs in Hseg, Hret, Hraise, Hexit.
  set (canon := canon_calls mappers (length (jsons w)) (length (sources w))
                  (length (dests w)) p acc (Py.join out acc)) in *.
  assert (Hlen : length canon = 16%nat).
  { unfold canon. rewrite canon_length, update_calls_length.
    - destruct (loaded_ten _ _ Hloaded)
        as (m0 & m1 & m2 & m3 & m4 & m5 & m6 & m7 & m8 & m9 & ->). reflexivity.
    - eapply Forall2_length. apply Hloaded. }
  assert (Hups : length (update_calls mappers mapper_classes (length (sources w))
                           (length (dests w))) = 10%nat).
  { unfold canon in Hlen. rewrite canon_length in Hlen. lia. }
  split; [split|split; [|split]].
  - intros Hr. specialize (Hret Hr). exists 15%nat.
    eexists _, _. rewrite Hret. unfold canon. rewrite canon_split.
    change (map returned ?l) with (returned <$> l).
    rewrite list_lookup_fmap, app_assoc.
    rewrite lookup_app_r by (rewrite length_app, Hups; simpl; lia).
    rewrite length_app, Hups. reflexivity.
  - intros (i & d & dir & Hi).
    destruct (save_lookup _ _ _ _ _ _ _ _ _ _ _ _ _ Hseg Hi) as (-> & _ & _).
    rewrite Hups in Hi.
    destruct (res r) as [[] | e | code |] eqn:Hr; [reflexivity | | |contradiction].
    + exfalso. destruct (Hraise e eq_refl) as [Hnil | (c & Hn & Hcs)];
        [rewrite Hnil in Hi; discriminate|].
      pose proof (lookup_lt_Some _ _ _ Hn) as Hlt. rewrite Hlen in Hlt.
      rewrite Hcs in Hi.
      apply lookup_app_Some in Hi as [Hi | [Hge Hi]].
      * apply lookup_lt_Some in Hi.
        rewrite length_map, length_take in Hi. lia.
      * rewrite length_map, length_take in Hi, Hge.
        apply list_lookup_singleton_Some in Hi as [_ Hi]. discriminate.
    + exfalso. destruct (Hexit code eq_refl) as [_ Hnil].
      rewrite Hnil in Hi. discriminate.
  - intros Hr. specialize (Hret Hr). rewrite Hret, length_map.
    split; [exact Hlen|].
    intros i c x Hi. change (map returned canon) with (returned <$> canon) in Hi.
    rewrite list_lookup_fmap in Hi.
    destruct (canon !! i); [|discriminate]. injection Hi as _ <-. reflexivity.
  - destruct (res r) as [[] | e | code |] eqn:Hr; simpl;
      [auto | auto | | contradiction].
    destruct (Hexit code eq_refl) as [-> _]. auto.
  - destruct (res r) as [[] | e | code |] eqn:Hr; simpl;
      [auto | discriminate | | contradiction].
    destruct (Hexit code eq_refl) as [-> _]. discriminate.
Qed.

(** *** The loop and the run on the contents of the models *)

(** The loop on the contents of the two models. *)
Lemma for_each_fold l : forall ms w s d src dst,
  NoDup l ->
  Forall2 (fun self ca => instances w !! self = Some ca) l ms ->
  sources w !! s = Some src ->
  dests w !! d = Some dst ->
  let r := for_each l (fun mapper => mapper_update mapper s d) w in
  let mapped := apply_mappers ms src dst in
  res r = raised_outcome mapped.2
  /\ files (final r) = files w
  /\ jsons (final r) = jsons w
  /\ sources (final r) = <[s := mapped.1.1]> (sources w)
  /\ dests (final r) = <[d := mapped.1.2]> (dests w).
Proof.
  induction l as [|self l IH]; intros ms w s d src dst Hnd Hms Hs Hd.
  - apply Forall2_nil_inv_l in Hms as ->. cbn.
    rewrite !list_insert_id by assumption. auto.
  - apply Forall2_cons_inv_l in Hms as ([cls a] & ms' & Ha & Hrest & ->).
    apply NoDup_cons in Hnd as [Hnotin Hnd].
    pose proof (lookup_lt_Some _ _ _ Hs) as Hlts.
    pose proof (lookup_lt_Some _ _ _ Hd) as Hltd.
    cbv zeta. cbn [for_each apply_mappers]. unfold bind.
    rewrite (mapper_update_run _ _ _ _ _ _ _ _ Ha Hs Hd).
    cbn [res final log].
    destruct (update cls a src dst) as [[[a' src'] dst'] [e|]];
      cbn [fst snd raised_outcome].
    + cbn [files jsons sources dests set_instances set_sources set_dests].
      auto.
    + match goal with
      | |- context [for_each l ?body ?w1] =>
          destruct (IH ms' w1 s d src' dst' Hnd) as (Hr & HF & HJ & HS & HD)
      end.
      * apply Forall2_same_length_lookup. split.
        { eapply Forall2_length; eauto. }
        intros i self' ca Hi Hca.
        cbn [instances set_instances].
        rewrite list_lookup_insert_ne.
        { exact (Forall2_lookup_lr _ _ _ _ _ _ Hrest Hi Hca). }
        intros ->. apply Hnotin. eapply list_elem_of_lookup_2; eauto.
      * cbn [sources set_instances set_sources set_dests].
        apply list_lookup_insert_eq. assumption.
      * cbn [dests set_instances set_sources set_dests].
        apply list_lookup_insert_eq. assumption.
      * cbn [res final log]. rewrite Hr, HF, HJ, HS, HD.
        cbn [files jsons sources dests set_instances set_sources set_dests].
        rewrite !list_insert_insert_eq. auto.
Qed.

(** X6.  The loop of lines 152-153 over distinct instances is the fold of
    their [update] methods over the contents of the two models: every
    mapper is handed the source model and the destination model as the
    mappers before it have left them, with the attributes its instance had
    when the loop began; the loop returns when none raises, and otherwise
    the first exception leaves it, the two models staying as the raising
    call left them.  No other model, no JSON document and no file is
    changed. *)
Theorem mapper_loop_folds_the_updates l : forall ms w s d src dst,
  NoDup l ->
  Forall2 (fun self ca => instances w !! self = Some ca) l ms ->
  sources w !! s = Some src ->
  dests w !! d = Some dst ->
  let r := for_each l (fun mapper => mapper_update mapper s d) w in
  let mapped := apply_mappers ms src dst in
  res r = raised_outcome mapped.2
  /\ files (final r) = files w
  /\ jsons (final r) = jsons w
  /\ sources (final r) = <[s := mapped.1.1]> (sources w)
  /\ dests (final r) = <[d := mapped.1.2]> (dests w).
Proof.
  induction l as [|self l IH]; intros ms w s d src dst Hnd Hms Hs Hd.
  - apply Forall2_nil_inv_l in Hms as ->. cbn.
    rewrite !list_insert_id by assumption. auto.
  - apply Forall2_cons_inv_l in Hms as ([cls a] & ms' & Ha & Hrest & ->).
    apply NoDup_cons in Hnd as [Hnotin Hnd].
    pose proof (lookup_lt_Some _ _ _ Hs) as Hlts.
    pose proof (lookup_lt_Some _ _ _ Hd) as Hltd.
    cbv zeta. cbn [for_each apply_mappers]. unfold bind.
    rewrite (mapper_update_run _ _ _ _ _ _ _ _ Ha Hs Hd).
    cbn [res final log].
    destruct (update cls a src dst) as [[[a' src'] dst'] [e|]];
      cbn [fst snd raised_outcome].
    + cbn [files jsons sources dests set_instances set_sources set_dests].
      auto.
    + match goal with
      | |- context [for_each l ?body ?w1] =>
          destruct (IH ms' w1 s d src' dst' Hnd) as (Hr & HF & HJ & HS & HD)
      end.
      * apply Forall2_same_length_lookup. split.
        { eapply Forall2_length; eauto. }
        intros i self' ca Hi Hca.
        cbn [instances set_instances].
        rewrite list_lookup_insert_ne.
        { exact (Forall2_lookup_lr _ _ _ _ _ _ Hrest Hi Hca). }
        intros ->. apply Hnotin. eapply list_elem_of_lookup_2; eauto.
      * cbn [sources set_instances set_sources set_dests].
        apply list_lookup_insert_eq. assumption.
      * cbn [dests set_instances set_sources set_dests].
        apply list_lookup_insert_eq. assumption.
      * cbn [res final log]. rewrite Hr, HF, HJ, HS, HD.
        cbn [files jsons sources dests set_instances set_sources set_dests].
        rewrite !list_insert_insert_eq. auto.
Qed.

Lemma open_run w p data :
  json_load (files w) p = inr data ->
  open_json_load p w
  = MkResult (Return (length (jsons w))) (set_jsons (jsons w ++ [data]) w)
      [ECall (Open p (length (jsons w))) None].
Proof. intros H. unfold open_json_load. rewrite H. reflexivity. Qed.

Lemma replace_null_run w j data data' x :
  jsons w !! j = Some data ->
  replace_null_string_with_none data = (data', x) ->
  replace_null j w
  = MkResult (raised_outcome x) (set_jsons (<[j := data']> (jsons w)) w)
      [ECall (ReplaceNull j) x].
Proof. intros Hj H. unfold replace_null. rewrite Hj, H. reflexivity. Qed.

Lemma validate_run w j data model :
  jsons w !! j = Some data ->
  model_validate data = inr model ->
  validate j w
  = MkResult (Return (length (sources w))) (set_sources (sources w ++ [model]) w)
      [ECall (Validate j (length (sources w))) None].
Proof. intros Hj H. unfold validate. rewrite Hj, H. reflexivity. Qed.

Lemma modify_run w s model model' x :
  sources w !! s = Some model ->
  modify_mztab_model model = (model', x) ->
  modify s w
  = MkResult (raised_outcome x) (set_sources (<[s := model']> (sources w)) w)
      [ECall (Modify s) x].
Proof. intros Hs H. unfold modify. rewrite Hs, H. reflexivity. Qed.

Lemma create_run w acc study :
  create_metabolights_study_model acc = inr study ->
  create acc w
  = MkResult (Return (length (dests w))) (set_dests (dests w ++ [study]) w)
      [ECall (Create acc (length (dests w))) None].
Proof. intros H. unfold create. rewrite H. reflexivity. Qed.

Lemma save_run w d dir dst :
  dests w !! d = Some dst ->
  save d dir w
  = MkResult (raised_outcome (save_metabolights_study_model (files w) dst dir).2)
      (set_files (save_metabolights_study_model (files w) dst dir).1 w)
      [ECall (Save d dir) (save_metabolights_study_model (files w) dst dir).2].
Proof.
  intros Hd. unfold save. rewrite Hd.
  destruct (save_metabolights_study_model (files w) dst dir). reflexivity.
Qed.

Lemma lookup_snoc_length {A} (xs : list A) (x : A) :
  (xs ++ [x]) !! length xs = Some x.
Proof. apply list_lookup_middle; reflexivity. Qed.

Lemma insert_snoc {A} (xs : list A) (x y : A) :
  <[length xs := y]> (xs ++ [x]) = xs ++ [y].
Proof.
  rewrite insert_app_r_alt by lia.
  replace (length xs - length xs)%nat with 0%nat by lia. reflexivity.
Qed.

(** Lines 143-157 when every step before the loop returns. *)
Lemma pipeline_mapped mappers ms p out acc w data data' model model' study :
  NoDup mappers ->
  Forall2 (fun self ca => instances w !! self = Some ca) mappers ms ->
  json_load (files w) p = inr data ->
  replace_null_string_with_none data = (data', None) ->
  model_validate data' = inr model ->
  modify_mztab_model model = (model', None) ->
  create_metabolights_study_model acc = inr study ->
  let mapped := apply_mappers ms model' study in
  let r := pipeline mappers p out acc w in
  match mapped.2 with
  | None =>
      res r = raised_outcome
                (save_metabolights_study_model (files w) mapped.1.2
                   (Py.join out acc)).2
      /\ files (final r)
         = (save_metabolights_study_model (files w) mapped.1.2
              (Py.join out acc)).1
  | Some e => res r = Raise e /\ files (final r) = files w
  end
  /\ jsons (final r) = jsons w ++ [data']
  /\ sources (final r) = sources w ++ [mapped.1.1]
  /\ dests (final r) = dests w ++ [mapped.1.2].
Proof.
  intros Hnd Hms Hload Hnull Hvalid Hmodify Hcreate mapped r. subst r.
  unfold pipeline.
  erewrite bind_returned by (apply open_run; exact Hload).
  set (w1 := set_jsons (jsons w ++ [data]) w).
  erewrite (bind_returned _ _ w1 tt)
    by (apply (replace_null_run w1 _ data data' None);
        [apply lookup_snoc_length | exact Hnull]).
  set (w2 := set_jsons (<[length (jsons w) := data']> (jsons w1)) w1).
  assert (Hj2 : jsons w2 = jsons w ++ [data']) by apply insert_snoc.
  erewrite bind_returned
    by (eapply validate_run; [rewrite Hj2; apply lookup_snoc_length | exact Hvalid]).
  set (w3 := set_sources (sources w2 ++ [model]) w2).
  erewrite (bind_returned _ _ w3 tt)
    by (apply (modify_run w3 _ model model' None);
        [apply lookup_snoc_length | exact Hmodify]).
  set (w4 := set_sources (<[length (sources w2) := model']> (sources w3)) w3).
  assert (Hs4 : sources w4 = sources w ++ [model']) by apply insert_snoc.
  erewrite bind_returned by (apply create_run; exact Hcreate).
  set (w5 := set_dests (dests w4 ++ [study]) w4).
  destruct (for_each_fold mappers ms w5
              (length (sources w)) (length (dests w)) model' study Hnd Hms)
    as (Hr & HF & HJ & HS & HD).
  { change (sources w5) with (sources w4). rewrite Hs4. apply lookup_snoc_length. }
  { apply lookup_snoc_length. }
  fold mapped in Hr, HS, HD.
  change (sources w5) with (sources w4) in HS. rewrite Hs4, insert_snoc in HS.
  change (dests w5) with (dests w ++ [study]) in HD. rewrite insert_snoc in HD.
  change (jsons w5) with (jsons w2) in HJ. rewrite Hj2 in HJ.
  change (files w5) with (files w) in HF.
  change (length (sources w2)) with (length (sources w)).
  change (length (dests w4)) with (length (dests w)).
  cbn [res final log prepend]. unfold bind.
  destruct (mapped.2) as [e|]; cbn [raised_outcome] in Hr; rewrite Hr;
    cbn [res final log].
  - auto.
  - erewrite save_run by (rewrite HD; apply lookup_snoc_length).
    cbn [res final log files jsons sources dests set_files]. rewrite HF. auto.
Qed.

(** X7.  A run that reaches line 143, reads the JSON file and gets
    through the two normalisations, the validation and the creation of the
    destination model ends as the fold of the mappers decides.  When no
    mapper raises, the model handed to the writer is the created one as
    the ten mappers have left it, the run ends as the writer ends, and the
    file system is the one the writer leaves.  When a mapper raises, its
    exception leaves [convert], the writer is not called and the file
    system is as lines 90-141 left it.  Either way the run has made one
    JSON document, the normalised one, one source model and one
    destination model, and has left the models of the process alone. *)
Theorem run_ends_as_the_fold_of_the_mappers_decides
    mappers ms input_file out acc engine image override w
    data data' model model' study :
  NoDup mappers ->
  Forall2 (fun self ca => instances w !! self = Some ca) mappers ms ->
  reaches_reading w input_file engine image override = true ->
  let w' := world_read w input_file engine image override in
  json_load (files w') (json_path input_file) = inr data ->
  replace_null_string_with_none data = (data', None) ->
  model_validate data' = inr model ->
  modify_mztab_model model = (model', None) ->
  create_metabolights_study_model acc = inr study ->
  let mapped := apply_mappers ms model' study in
  let r := convert mappers input_file out acc engine image override w in
  match mapped.2 with
  | None =>
      res r = raised_outcome
                (save_metabolights_study_model (files w') mapped.1.2
                   (Py.join out acc)).2
      /\ files (final r)
         = (save_metabolights_study_model (files w') mapped.1.2
              (Py.join out acc)).1
  | Some e => res r = Raise e /\ files (final r) = files w'
  end
  /\ jsons (final r) = jsons w ++ [data']
  /\ sources (final r) = sources w ++ [mapped.1.1]
  /\ dests (final r) = dests w ++ [mapped.1.2].
Proof.
  intros Hnd Hms Hreach w' Hload Hnull Hvalid Hmodify Hcreate mapped r.
  destruct (world_read_stores w input_file engine image override)
    as (HJ & HS & HD & HI).
  fold w' in HJ, HS, HD, HI.
  subst r. rewrite (convert_reading _ _ _ _ _ _ _ _ Hreach). fold w'.
  cbn [res final prepend].
  rewrite <- HJ, <- HS, <- HD.
  apply (pipeline_mapped mappers ms (json_path input_file) out acc w'
           data data' model model' study Hnd); auto.
  rewrite HI. exact Hms.
Qed.

(** *** The path that is opened *)

Lemma rfind_from_range c p : forall i best,
  Py.rfind_from c p i best = best
  \/ (i <= Py.rfind_from c p i best < i + Z.of_nat (String.length p))%Z.
Proof.
  induction p as [|a rest IH]; intros i best; simpl String.length;
    cbn [Py.rfind_from].
  - left. reflexivity.
  - destruct (IH (i + 1)%Z (if Ascii.eqb a c then i else best)) as [H | H].
    + rewrite H. destruct (Ascii.eqb a c); [right; lia | left; reflexivity].
    + right. lia.
Qed.

Lemma rfind_range c p :
  Py.rfind c p = (-1)%Z
  \/ (0 <= Py.rfind c p < Z.of_nat (String.length p))%Z.
Proof. unfold Py.rfind. destruct (rfind_from_range c p 0 (-1)); auto. Qed.

Lemma substring_length s : forall n m,
  (n + m <= String.length s)%nat -> String.length (substring n m s) = m.
Proof.
  induction s as [|a s IH]; intros [|n] [|m] H; simpl in *;
    try reflexivity; try lia.
  - rewrite IH by lia. reflexivity.
  - apply IH. lia.
  - apply IH. lia.
Qed.

Lemma lower_length s : String.length (Py.lower s) = String.length s.
Proof. induction s as [|a s IH]; simpl; congruence. Qed.

Lemma lower_substring s : forall n m,
  substring n m (Py.lower s) = Py.lower (substring n m s).
Proof.
  induction s as [|a s IH]; intros [|n] [|m]; simpl; try reflexivity.
  - rewrite IH. reflexivity.
  - apply IH.
  - apply IH.
Qed.

Lemma lower_append a b : Py.lower (a ++ b) = (Py.lower a ++ Py.lower b)%string.
Proof. induction a as [|c a IH]; simpl; congruence. Qed.

Lemma append_length (a b : string) :
  String.length (a ++ b) = (String.length a + String.length b)%nat.
Proof. induction a as [|c a IH]; simpl; congruence. Qed.

Lemma substring_whole s : substring 0 (String.length s) s = s.
Proof. induction s as [|a s IH]; simpl; congruence. Qed.

Lemma substring_append_r (a b : string) :
  substring (String.length a) (String.length b) (a ++ b) = b.
Proof.
  induction a as [|c a IH]; simpl; [apply substring_whole|].
  exact IH.
Qed.

Lemma endswith_append (a b : string) : Py.endswith (a ++ b) b = true.
Proof.
  unfold Py.endswith. rewrite append_length.
  replace (String.length a + String.length b - String.length b)%nat
    with (String.length a) by lia.
  rewrite substring_append_r, String.eqb_refl.
  apply andb_true_iff. split; [apply Nat.leb_le; lia | reflexivity].
Qed.

(** The extension [os.path.splitext] gives is the end of the path. *)
Lemma splitext_ext p :
  exists n, (n <= String.length p)%nat
            /\ (Py.splitext p).2 = substring n (String.length p - n) p.
Proof.
  unfold Py.splitext.
  destruct ((Py.rfind "." p >? Py.rfind "/" p)%Z
            && Py.splitext_scan p (Py.rfind "/" p + 1)
                 (Z.to_nat (Py.rfind "." p - (Py.rfind "/" p + 1)))).
  - exists (Z.to_nat (Py.rfind "." p)). split; [|reflexivity].
    destruct (rfind_range "." p) as [H | H]; rewrite ?H; lia.
  - exists (String.length p). split; [lia|]. cbn [snd].
    rewrite Nat.sub_diag. clear. induction p as [|a p IH]; simpl; auto.
Qed.

(** A path that line 102 takes for JSON ends in [".json"], in lower
    case. *)
Lemma json_extension_endswith input_file :
  json_extension input_file = true ->
  Py.endswith (Py.lower input_file) ".json" = true.
Proof.
  unfold json_extension. intros H. apply String.eqb_eq in H.
  destruct (splitext_ext input_file) as (n & Hn & Hext).
  rewrite Hext in H.
  assert (Hlen : (String.length input_file - n = 5)%nat).
  { rewrite <- (substring_length input_file n (String.length input_file - n))
      by lia.
    rewrite <- lower_length, H. reflexivity. }
  unfold Py.endswith. rewrite lower_length.
  change (String.length ".json") with 5%nat.
  replace (String.length input_file - 5)%nat with n by lia.
  rewrite lower_substring. rewrite Hlen in H. rewrite H.
  apply andb_true_iff. split; [apply Nat.leb_le; lia | reflexivity].
Qed.

Lemma json_path_endswith input_file :
  Py.endswith (Py.lower (json_path input_file)) ".json" = true.
Proof.
  unfold json_path. destruct (json_extension input_file) eqn:H.
  - apply json_extension_endswith. exact H.
  - rewrite lower_append. apply (endswith_append _ ".json").
Qed.

(** X8.  Whatever the options, the only path a run opens and parses is
    the value of [input_json_file], and this path, in lower case, ends in
    [".json"]: either the input path, which line 102 has found to have that
    extension, or the input path with [".json"] appended. *)
Theorem opened_path_ends_in_json
    mappers input_file out acc engine image override w :
  loaded mappers w ->
  let r := convert mappers input_file out acc engine image override w in
  forall i p j x,
    calls_of (log r) !! i = Some (Open p j, x) ->
    p = (if String.eqb (Py.lower (Py.splitext input_file).2) ".json"
         then input_file else (input_file ++ ".json")%string)
    /\ Py.endswith (Py.lower p) ".json" = true.
Proof.
  intros Hloaded r i p j x Hi.
  pose proof (convert_resolved mappers input_file out acc engine image override w
                (proj1 Hloaded)) as H.
  cbv zeta in H. destruct H as (pre & op & w' & Hres & _ & _ & Hop).
  fold r in Hop.
  destruct (resolution_summary _ _ _ _ _ _ _ _ Hres) as (_ & Hopeq & _).
  assert (Hp : p = json_path input_file).
  { destruct op as [p0| |e0].
    - destruct Hop as (n & y & rest & Hseg & _ & _).
      destruct (open_lookup _ _ _ _ _ _ _ _ _ _ _ _ _ Hseg Hi) as (_ & -> & _).
      unfold way in Hopeq.
      destruct (reaches_reading w input_file engine image override);
        [congruence|].
      destruct (real_failure w input_file override); discriminate.
    - destruct Hop as (_ & Hlog & _).
      destruct (resolution_calls _ _ _ _ _ _ _ _ Hres) as (Hcalls & _).
      rewrite Hlog, Hcalls in Hi. discriminate.
    - destruct Hop as (_ & Hlog & _).
      destruct (resolution_calls _ _ _ _ _ _ _ _ Hres) as (Hcalls & _).
      rewrite Hlog, Hcalls in Hi. discriminate. }
  subst p. split; [reflexivity | apply json_path_endswith].
Qed.

(** *** The test of line 102 *)

Lemma rfind_from_last c p : forall i best k,
  (best < i)%Z ->
  (Py.rfind_from c p i best < i + Z.of_nat k)%Z ->
  String.get k p <> Some c.
Proof.
  induction p as [|a rest IH]; intros i best k Hbest Hk; cbn [Py.rfind_from] in Hk.
  - destruct k; discriminate.
  - pose proof (rfind_from_range c rest (i + 1)
                  (if Ascii.eqb a c then i else best)) as Hrange.
    destruct k as [|k]; cbn [String.get].
    + destruct (Ascii.eqb_spec a c) as [-> | Hne]; [|congruence].
      exfalso. lia.
    + apply (IH (i + 1)%Z (if Ascii.eqb a c then i else best) k).
      * destruct (Ascii.eqb a c); lia.
      * lia.
Qed.

Lemma rfind_last c p k :
  (Py.rfind c p < Z.of_nat k)%Z -> String.get k p <> Some c.
Proof.
  unfold Py.rfind. intros H. apply (rfind_from_last c p 0 (-1)); lia.
Qed.

Lemma substring_split s : forall n,
  (n <= String.length s)%nat ->
  (substring 0 n s ++ substring n (String.length s - n) s)%string = s.
Proof.
  induction s as [|a s IH]; intros [|n] H; simpl in *; try reflexivity; try lia.
  - rewrite substring_whole. reflexivity.
  - rewrite IH by lia. reflexivity.
Qed.

Lemma splitext_scan_some p : forall n f,
  Py.splitext_scan p f n = true -> (0 < n)%nat.
Proof. intros [|n] f H; [discriminate | lia]. Qed.

(** X9.  A path that line 102 takes for JSON is a stem followed by an
    extension that reads [".json"] in lower case, and the stem is a file
    name: it is not empty and does not end in ["/"].  So a file whose own
    name is [".json"], in any directory, is not taken for JSON. *)
Theorem json_input_has_a_stem input_file :
  Py.lower (Py.splitext input_file).2 = ".json" ->
  input_file = ((Py.splitext input_file).1 ++ (Py.splitext input_file).2)%string
  /\ (Py.splitext input_file).1 <> ""
  /\ Py.endswith (Py.splitext input_file).1 "/" = false.
Proof.
  unfold Py.splitext.
  set (sep := Py.rfind "/" input_file). set (dot := Py.rfind "." input_file).
  destruct ((dot >? sep)%Z
            && Py.splitext_scan input_file (sep + 1)
                 (Z.to_nat (dot - (sep + 1)))) eqn:Htest;
    cbn [fst snd]; [|discriminate].
  intros _.
  apply andb_true_iff in Htest as [_ Hscan].
  apply splitext_scan_some in Hscan.
  destruct (rfind_range "/" input_file) as [Hsep | Hsep];
    destruct (rfind_range "." input_file) as [Hdot | Hdot];
    fold sep in Hsep; fold dot in Hdot; try lia.
  all: unfold Py.slice_to, Py.slice_from.
  all: assert (Hlen : String.length (substring 0 (Z.to_nat dot) input_file)
                      = Z.to_nat dot) by (apply substring_length; lia).
  all: split; [symmetry; apply substring_split; lia|].
  all: split; [intros Hroot; rewrite Hroot in Hlen; simpl in Hlen; lia|].
  all: unfold Py.endswith; rewrite Hlen; change (String.length "/") with 1%nat.
  all: apply andb_false_iff; right; apply String.eqb_neq; intros Hlast.
  all: assert (Hget : String.get 0 (substring (Z.to_nat dot - 1) 1
                                      (substring 0 (Z.to_nat dot) input_file))
                      = Some "/"%char) by (rewrite Hlast; reflexivity).
  all: rewrite !substring_correct1 in Hget by lia.
  all: revert Hget; apply rfind_last; fold sep; lia.
Qed.

(** *** The steps before the loop on the contents of the objects *)

Lemma validate_raised w j data e :
  jsons w !! j = Some data ->
  model_validate data = inl e ->
  validate j w
  = MkResult (Raise e) w [ECall (Validate j (length (sources w))) (Some e)].
Proof. intros Hj H. unfold validate. rewrite Hj, H. reflexivity. Qed.

Lemma create_raised w acc e :
  create_metabolights_study_model acc = inl e ->
  create acc w
  = MkResult (Raise e) w [ECall (Create acc (length (dests w))) (Some e)].
Proof. intros H. unfold create. rewrite H. reflexivity. Qed.

Lemma prepend_res {A} evs (r : Result A) : res (prepend evs r) = res r.
Proof. reflexivity. Qed.

Lemma prepend_final {A} evs (r : Result A) : final (prepend evs r) = final r.
Proof. reflexivity. Qed.

(** The instances of a loaded process have attributes. *)
Lemma has_class_attrs w l : forall cl,
  Forall2 (has_class w) l cl ->
  exists ms,
    Forall2 (fun self ca => instances w !! self = Some ca) l ms
    /\ map fst ms = cl.
Proof.
  induction l as [|self l IH]; intros cl H.
  - apply Forall2_nil_inv_l in H as ->. exists []. split; [constructor | reflexivity].
  - apply Forall2_cons_inv_l in H as (cls & cl' & [a Ha] & Hrest & ->).
    destruct (IH cl' Hrest) as (ms & Hms & Hcl).
    exists ((cls, a) :: ms). split; [constructor; assumption|].
    simpl. rewrite Hcl. reflexivity.
Qed.

Lemma attrs_classes w l : forall cl ms,
  Forall2 (has_class w) l cl ->
  Forall2 (fun self ca => instances w !! self = Some ca) l ms ->
  map fst ms = cl.
Proof.
  induction l as [|self l IH]; intros cl ms H Hms.
  - apply Forall2_nil_inv_l in H as ->. apply Forall2_nil_inv_l in Hms as ->.
    reflexivity.
  - apply Forall2_cons_inv_l in H as (cls & cl' & [a Ha] & Hrest & ->).
    apply Forall2_cons_inv_l in Hms as ([cls' a'] & ms' & Ha' & Hrest' & ->).
    simpl. rewrite (IH cl' ms' Hrest Hrest'). congruence.
Qed.

(** Lines 143-157 on the contents of the objects: how the run ends and
    what it leaves, for each way the steps before the loop can end. *)
Lemma pipeline_staged mappers ms p out acc w :
  NoDup mappers ->
  Forall2 (fun self ca => instances w !! self = Some ca) mappers ms ->
  let r := pipeline mappers p out acc w in
  match prepare (files w) p acc with
  | Unread e => res r = Raise e /\ final r = w
  | Unnormalised data' e | Invalid data' e =>
      res r = Raise e /\ final r = set_jsons (jsons w ++ [data']) w
  | Unmodified data' model' e | Uncreated data' model' e =>
      res r = Raise e
      /\ final r = set_sources (sources w ++ [model'])
                     (set_jsons (jsons w ++ [data']) w)
  | Prepared data' model' study =>
      let mapped := apply_mappers ms model' study in
      match mapped.2 with
      | None =>
          res r = raised_outcome
                    (save_metabolights_study_model (files w) mapped.1.2
                       (Py.join out acc)).2
          /\ files (final r)
             = (save_metabolights_study_model (files w) mapped.1.2
                  (Py.join out acc)).1
      | Some e => res r = Raise e /\ files (final r) = files w
      end
      /\ jsons (final r) = jsons w ++ [data']
      /\ sources (final r) = sources w ++ [mapped.1.1]
      /\ dests (final r) = dests w ++ [mapped.1.2]
  end.
Proof.
  intros Hnd Hms r. unfold prepare.
  destruct (json_load (files w) p) as [e | data] eqn:Hload.
  { subst r. rewrite (pipeline_unreadable _ _ _ _ _ _ Hload). auto. }
  destruct (replace_null_string_with_none data) as [data' x] eqn:Hnull.
  set (w1 := set_jsons (jsons w ++ [data]) w).
  set (w2 := set_jsons (<[length (jsons w) := data']> (jsons w1)) w1).
  assert (Hj2 : jsons w2 = jsons w ++ [data']) by apply insert_snoc.
  assert (Hw2 : w2 = set_jsons (jsons w ++ [data']) w).
  { unfold w2, w1, set_jsons. cbn [files jsons sources dests instances].
    rewrite insert_snoc. reflexivity. }
  destruct x as [e|].
  { subst r. unfold pipeline.
    erewrite bind_returned by (apply open_run; exact Hload).
    erewrite bind_raised
      by (apply (replace_null_run w1 _ data data' (Some e));
          [apply lookup_snoc_length | exact Hnull]).
    cbn [res final prepend]. fold w2. auto. }
  destruct (model_validate data') as [e | model] eqn:Hvalid.
  { subst r. unfold pipeline.
    erewrite bind_returned by (apply open_run; exact Hload).
    erewrite (bind_returned _ _ w1 tt)
      by (apply (replace_null_run w1 _ data data' None);
          [apply lookup_snoc_length | exact Hnull]).
    fold w2.
    erewrite bind_raised
      by (eapply validate_raised;
          [rewrite Hj2; apply lookup_snoc_length | exact Hvalid]).
    cbn [res final prepend]. auto. }
  destruct (modify_mztab_model model) as [model' y] eqn:Hmodify.
  set (w3 := set_sources (sources w2 ++ [model]) w2).
  set (w4 := set_sources (<[length (sources w2) := model']> (sources w3)) w3).
  assert (Hs4 : sources w4 = sources w ++ [model']) by apply insert_snoc.
  assert (Hw4 : w4 = set_sources (sources w ++ [model'])
                       (set_jsons (jsons w ++ [data']) w)).
  { rewrite <- Hw2. unfold w4, w3, set_sources.
    cbn [files jsons sources dests instances].
    rewrite insert_snoc. reflexivity. }
  destruct y as [e|].
  { subst r. unfold pipeline.
    erewrite bind_returned by (apply open_run; exact Hload).
    erewrite (bind_returned _ _ w1 tt)
      by (apply (replace_null_run w1 _ data data' None);
          [apply lookup_snoc_length | exact Hnull]).
    fold w2.
    erewrite bind_returned
      by (eapply validate_run;
          [rewrite Hj2; apply lookup_snoc_length | exact Hvalid]).
    fold w3.
    erewrite bind_raised
      by (apply (modify_run w3 _ model model' (Some e));
          [apply lookup_snoc_length | exact Hmodify]).
    cbn [res final prepend]. fold w4. auto. }
  destruct (create_metabolights_study_model acc) as [e | study] eqn:Hcreate.
  { subst r. unfold pipeline.
    erewrite bind_returned by (apply open_run; exact Hload).
    erewrite (bind_returned _ _ w1 tt)
      by (apply (replace_null_run w1 _ data data' None);
          [apply lookup_snoc_length | exact Hnull]).
    fold w2.
    erewrite bind_returned
      by (eapply validate_run;
          [rewrite Hj2; apply lookup_snoc_length | exact Hvalid]).
    fold w3.
    erewrite (bind_returned _ _ w3 tt)
      by (apply (modify_run w3 _ model model' None);
          [apply lookup_snoc_length | exact Hmodify]).
    fold w4.
    erewrite bind_raised by (apply create_raised; exact Hcreate).
    cbn [res final prepend]. auto. }
  apply (pipeline_mapped mappers ms p out acc w data data' model model' study);
    assumption.
Qed.

(** The same for a run of [convert] that reaches line 143. *)
Lemma convert_staged mappers ms input_file out acc engine image override w :
  NoDup mappers ->
  Forall2 (fun self ca => instances w !! self = Some ca) mappers ms ->
  reaches_reading w input_file engine image override = true ->
  let w' := world_read w input_file engine image override in
  let r := convert mappers input_file out acc engine image override w in
  match prepare (files w') (json_path input_file) acc with
  | Unread e =>
      res r = Raise e
      /\ jsons (final r) = jsons w /\ sources (final r) = sources w
      /\ dests (final r) = dests w /\ instances (final r) = instances w
      /\ files (final r) = files w'
  | Unnormalised data' e | Invalid data' e =>
      res r = Raise e
      /\ jsons (final r) = jsons w ++ [data'] /\ sources (final r) = sources w
      /\ dests (final r) = dests w /\ instances (final r) = instances w
      /\ files (final r) = files w'
  | Unmodified data' model' e | Uncreated data' model' e =>
      res r = Raise e
      /\ jsons (final r) = jsons w ++ [data']
      /\ sources (final r) = sources w ++ [model']
      /\ dests (final r) = dests w /\ instances (final r) = instances w
      /\ files (final r) = files w'
  | Prepared data' model' study =>
      let mapped := apply_mappers ms model' study in
      match mapped.2 with
      | None =>
          res r = raised_outcome
                    (save_metabolights_study_model (files w') mapped.1.2
                       (Py.join out acc)).2
          /\ files (final r)
             = (save_metabolights_study_model (files w') mapped.1.2
                  (Py.join out acc)).1
      | Some e => res r = Raise e /\ files (final r) = files w'
      end
      /\ jsons (final r) = jsons w ++ [data']
      /\ sources (final r) = sources w ++ [mapped.1.1]
      /\ dests (final r) = dests w ++ [mapped.1.2]
  end.
Proof.
  intros Hnd Hms Hreach w' r.
  destruct (world_read_stores w input_file engine image override)
    as (HJ & HS & HD & HI).
  fold w' in HJ, HS, HD, HI.
  assert (Hms' : Forall2 (fun self ca => instances w' !! self = Some ca)
                   mappers ms) by (rewrite HI; exact Hms).
  pose proof (pipeline_staged mappers ms (json_path input_file) out acc w'
                Hnd Hms') as H.
  cbv zeta in H. subst r.
  rewrite (convert_reading _ _ _ _ _ _ _ _ Hreach). fold w'.
  rewrite prepend_res, prepend_final. rewrite <- HJ, <- HS, <- HD, <- HI.
  destruct (prepare (files w') (json_path input_file) acc)
    as [e | data' e | data' e | data' model' e | data' model' e
        | data' model' study].
  - destruct H as [Hr ->]. auto 10.
  - destruct H as [Hr ->]. auto 10.
  - destruct H as [Hr ->]. auto 10.
  - destruct H as [Hr ->]. auto 10.
  - destruct H as [Hr ->]. auto 10.
  - exact H.
Qed.

(** What a run that reaches line 143 reads, and what becomes of it. *)
Lemma convert_read mappers input_file out acc engine image override w :
  loaded mappers w ->
  reaches_reading w input_file engine image override = true ->
  let w' := world_read w input_file engine image override in
  let r := convert mappers input_file out acc engine image override w in
  let p := json_path input_file in
  match json_load (files w') p with
  | inl e =>
      res r = Raise e
      /\ calls_of (log r) = [(Open p (length (jsons w)), Some e)]
      /\ jsons (final r) = jsons w
  | inr data =>
      (exists rest, calls_of (log r) = (Open p (length (jsons w)), None) :: rest)
      /\ jsons (final r)
         = jsons w ++ [(replace_null_string_with_none data).1]
  end.
Proof.
  intros [Hcl Hnd] Hreach w' r p.
  destruct (has_class_attrs _ _ _ Hcl) as (ms & Hms & _).
  pose proof (convert_staged mappers ms input_file out acc engine image override
                w Hnd Hms Hreach) as H.
  cbv zeta in H. fold w' r p in H. unfold prepare in H.
  destruct (world_read_stores w input_file engine image override)
    as (HJ & _). fold w' in HJ.
  destruct (json_load (files w') p) as [e | data] eqn:Hload.
  { destruct H as (Hr & Hj & _). split; [exact Hr|]. split; [|exact Hj].
    unfold r. rewrite (convert_reading _ _ _ _ _ _ _ _ Hreach). fold w' p.
    rewrite (pipeline_unreadable _ _ _ _ _ _ Hload).
    cbn [log prepend]. rewrite calls_of_app, preamble_calls, HJ. reflexivity. }
  split.
  { unfold r. rewrite (convert_reading _ _ _ _ _ _ _ _ Hreach). fold w' p.
    unfold pipeline.
    erewrite bind_returned by (apply open_run; exact Hload).
    cbn [log prepend]. rewrite calls_of_app, preamble_calls, HJ.
    cbn [app calls_of omap]. eauto. }
  destruct (replace_null_string_with_none data) as [data' [e|]]; cbn [fst].
  { destruct H as (_ & Hj & _). exact Hj. }
  destruct (model_validate data') as [e | model].
  { destruct H as (_ & Hj & _). exact Hj. }
  destruct (modify_mztab_model model) as [model' [e|]].
  { destruct H as (_ & Hj & _). exact Hj. }
  destruct (create_metabolights_study_model acc) as [e | study].
  { destruct H as (_ & Hj & _). exact Hj. }
  destruct H as (_ & Hj & _). exact Hj.
Qed.

(** A run that does not reach line 143 calls no collaborator and makes no
    object. *)
Lemma convert_unread mappers input_file out acc engine image override w :
  reaches_reading w input_file engine image override = false ->
  let r := convert mappers input_file out acc engine image override w in
  calls_of (log r) = []
  /\ jsons (final r) = jsons w /\ sources (final r) = sources w
  /\ dests (final r) = dests w /\ instances (final r) = instances w.
Proof.
  intros Hreach r. subst r.
  destruct (world_read_stores w input_file engine image override)
    as (HJ & HS & HD & HI).
  rewrite convert_run. unfold way. rewrite Hreach.
  destruct (real_failure w input_file override); cbn [log final];
    rewrite preamble_calls; auto.
Qed.

(** *** The claims on the loop, the steps and the file that is read *)

(** C1.  In every run of [convert], the [update] calls that are made are
    made one after the other in the order of the list [mappers], all on
    the one pair of the source model [s] and the destination model [d] of
    the run, no instance twice; a run in which no call raises makes the
    call of every entry of the list, so each exactly once, and in it the
    contact mapper comes before the publication mapper, that one before
    the controlled-vocabulary mapper, and so on down to the small-molecule
    summary mapper.  The calls are made, not only logged: when the steps
    before the loop have returned, leaving the source model [model'] and
    the destination model [study], the models [s] and [d] of the final
    world are what the [update] methods of the ten classes, applied in
    this order and each to what the one before it has left, make of
    [model'] and [study], and the exception of an [update] leaves
    [convert]; and after a run that returns, every instance of [mappers]
    has the attributes that one call of its [update] has made of those it
    had. *)
Theorem mappers_applied_in_declared_order
    mappers input_file out acc engine image override w :
  loaded mappers w ->
  let r := convert mappers input_file out acc engine image override w in
  let s := length (sources w) in
  let d := length (dests w) in
  let declared := update_calls mappers mapper_classes s d in
  (exists n, update_calls_of (log r) = take n declared)
  /\ NoDup (map self_of (update_calls_of (log r)))
  /\ (res r = Return tt -> update_calls_of (log r) = declared)
  /\ (exists m0 m1 m2 m3 m4 m5 m6 m7 m8 m9,
        mappers = [m0; m1; m2; m3; m4; m5; m6; m7; m8; m9]
        /\ declared
           = [ Update MetadataBaseMapper m0 s d;
               Update MetadataContactMapper m1 s d;
               Update MetadataPublicationMapper m2 s d;
               Update MetadataCvMapper m3 s d;
               Update MetadataSampleMapper m4 s d;
               Update MetadataSampleProcessingMapper m5 s d;
               Update MetadataSoftwareMapper m6 s d;
               Update MetadataDatabaseMapper m7 s d;
               Update MetadataAssayMapper m8 s d;
               Update SmallMoleculeSummaryMapper m9 s d ])
  /\ (forall ms data data' model model' study,
        Forall2 (fun self ca => instances w !! self = Some ca) mappers ms ->
        reaches_reading w input_file engine image override = true ->
        json_load (files (world_read w input_file engine image override))
                  (json_path input_file) = inr data ->
        replace_null_string_with_none data = (data', None) ->
        model_validate data' = inr model ->
        modify_mztab_model model = (model', None) ->
        create_metabolights_study_model acc = inr study ->
        map fst ms = mapper_classes
        /\ sources (final r) !! s = Some (apply_mappers ms model' study).1.1
        /\ dests (final r) !! d = Some (apply_mappers ms model' study).1.2
        /\ (forall e, (apply_mappers ms model' study).2 = Some e ->
                      res r = Raise e))
  /\ (res r = Return tt ->
      forall self cls attrs,
        In self mappers ->
        instances w !! self = Some (cls, attrs) ->
        exists src dst,
          instances (final r) !! self
          = Some (cls, (update cls attrs src dst).1.1.1)).
Proof.
  intros Hloaded r s d declared.
  destruct (convert_updates mappers input_file out acc engine image override w
              (proj1 Hloaded)) as [[n Hn] Hall].
  fold r s d declared in Hn, Hall.
  split; [eauto|]. split; [|split; [exact Hall|split; [|split]]].
  - rewrite Hn, <- firstn_map.
    unfold declared. rewrite update_calls_self
      by (eapply Forall2_length; apply Hloaded).
    destruct Hloaded as [_ Hnd].
    rewrite <- (take_drop n mappers) in Hnd.
    apply NoDup_app in Hnd as [Hnd _]. exact Hnd.
  - destruct (loaded_ten _ _ Hloaded)
      as (m0 & m1 & m2 & m3 & m4 & m5 & m6 & m7 & m8 & m9 & ->).
    exists m0, m1, m2, m3, m4, m5, m6, m7, m8, m9. split; reflexivity.
  - intros ms data data' model model' study Hms Hreach Hload Hnull Hvalid
      Hmodify Hcreate.
    split; [exact (attrs_classes _ _ _ _ (proj1 Hloaded) Hms)|].
    pose proof (convert_staged mappers ms input_file out acc engine image
                  override w (proj2 Hloaded) Hms Hreach) as H.
    cbv zeta in H. fold r in H. unfold prepare in H.
    rewrite Hload, Hnull, Hvalid, Hmodify, Hcreate in H.
    destruct H as (Hend & _ & HS & HD).
    unfold s, d. rewrite HS, HD.
    split; [apply lookup_snoc_length|]. split; [apply lookup_snoc_length|].
    intros e He. rewrite He in Hend. apply Hend.
  - intros Hr self cls attrs Hin Ha.
    destruct (convert_instances mappers input_file out acc engine image override
                w Hloaded) as (_ & _ & _ & _ & Hattrs).
    fold r in Hattrs. destruct (Hattrs self cls attrs Ha) as [Hcalled _].
    apply Hcalled. unfold updated. rewrite (Hall Hr). unfold declared.
    rewrite update_calls_self by (eapply Forall2_length; apply Hloaded).
    exact Hin.
Qed.

(** The order of the collaborator calls of a run. *)
Lemma steps_in_order
    mappers input_file out acc engine image override w :
  loaded mappers w ->
  let r := convert mappers input_file out acc engine image override w in
  let cs := calls_of (log r) in
  let j := length (jsons w) in
  let s := length (sources w) in
  let d := length (dests w) in
  exists p,
    (exists n,
       initial_segment (canon_calls mappers j s d p acc (Py.join out acc)) n cs)
    /\ (forall i j' s' x,
          cs !! i = Some (Validate j' s', x) ->
          j' = j
          /\ take i cs = map returned [Open p j; ReplaceNull j])
    /\ (forall i cls self s' d' x,
          cs !! i = Some (Update cls self s' d', x) ->
          s' = s /\ d' = d
          /\ take 5 cs
             = map returned [Open p j; ReplaceNull j; Validate j s; Modify s;
                             Create acc d])
    /\ (forall i d' dir x,
          cs !! i = Some (Save d' dir, x) ->
          d' = d
          /\ take i cs
             = map returned ([Open p j; ReplaceNull j; Validate j s; Modify s;
                              Create acc d]
                             ++ update_calls mappers mapper_classes s d)
          /\ length cs = S i).
Proof.
  intros Hloaded r cs j s d.
  pose proof (convert_calls mappers input_file out acc engine image override w
                (proj1 Hloaded)) as H.
  cbv zeta in H. destruct H as (p & n & Hseg & _).
  fold r in Hseg. fold cs j s d in Hseg.
  exists p. split; [eauto|].
  set (canon := canon_calls mappers j s d p acc (Py.join out acc)) in *.
  split; [|split].
  - intros i j' s' x Hi.
    destruct (initial_segment_lookup _ _ _ _ _ _ Hseg Hi) as [Hc Ht].
    rewrite Ht. clear Ht.
    destruct (canon_lookup _ _ _ _ _ _ _ _ _ Hc) as [[Hlt H5] | [[_ H5] | [_ H5]]].
    + unfold first_calls in H5.
      destruct i as [|[|[|[|[|i]]]]]; simpl in H5; try discriminate.
      injection H5 as <- <-. split; reflexivity.
    + exfalso.
      pose proof (update_calls_are_updates mappers mapper_classes s d) as Hall.
      rewrite Forall_lookup in Hall. specialize (Hall _ _ H5). discriminate.
    + discriminate.
  - intros i cls self s' d' x Hi.
    destruct (initial_segment_lookup _ _ _ _ _ _ Hseg Hi) as [Hc Ht].
    destruct (canon_lookup_update _ _ _ _ _ _ _ _ _ Hc eq_refl) as [Hle Hu].
    destruct (update_calls_lookup _ _ _ _ _ _ Hu)
      as (cls' & self' & [= ? ? ? ?] & _).
    split; [auto|]. split; [auto|].
    replace 5%nat with (5 `min` i)%nat at 1 by lia.
    rewrite <- take_take, Ht, <- firstn_map, take_take.
    replace (5 `min` i)%nat with 5%nat by lia. reflexivity.
  - intros i d' dir x Hi.
    destruct (initial_segment_lookup _ _ _ _ _ _ Hseg Hi) as [Hc Ht].
    pose proof (lookup_lt_Some _ _ _ Hi) as Hlt.
    pose proof (initial_segment_length _ _ _ Hseg) as Hle.
    unfold canon in Hle. rewrite canon_length in Hle.
    destruct (canon_lookup _ _ _ _ _ _ _ _ _ Hc) as [[Hlt5 H5] | [[_ H5] | [-> H5]]].
    + exfalso. unfold first_calls in H5.
      destruct i as [|[|[|[|[|i]]]]]; simpl in H5; discriminate.
    + exfalso.
      pose proof (update_calls_are_updates mappers mapper_classes s d) as Hall.
      rewrite Forall_lookup in Hall. specialize (Hall _ _ H5). discriminate.
    + injection H5 as -> ->. split; [reflexivity|]. split; [|lia].
      rewrite Ht. unfold canon. rewrite canon_split, app_assoc.
      rewrite take_app_length'; [reflexivity|].
      rewrite length_app. reflexivity.
Qed.

(** C4.  The collaborator calls of every run are an initial segment of
    the sequence: read the JSON file, replace the null strings in the
    parsed structure, validate it into the source model, modify the
    source model, create the destination model for the accession number,
    update with each mapper, save.  So the structure that is validated
    has been normalised, every mapper is called after the five steps
    before the loop have returned, on the source model that was modified
    and the destination model that was created, and saving comes after
    all the mappers have returned and is the last call.  Each step is
    handed what the step before it has left: in a run that reaches line
    143, what is validated is the document as
    [replace_null_string_with_none] leaves it, and the mappers are applied
    to the source model as [modify_mztab_model] leaves it and to the
    destination model created for the accession number; what is saved is
    the destination model as the last mapper leaves it.  When a step
    before the loop raises, its exception leaves [convert], the objects
    made so far stay, no later object is made and no instance is
    touched. *)
Theorem processing_steps_in_fixed_order
    mappers input_file out acc engine image override w :
  loaded mappers w ->
  let r := convert mappers input_file out acc engine image override w in
  let cs := calls_of (log r) in
  let j := length (jsons w) in
  let s := length (sources w) in
  let d := length (dests w) in
  (exists p,
    (exists n,
       initial_segment (canon_calls mappers j s d p acc (Py.join out acc)) n cs)
    /\ (forall i j' s' x,
          cs !! i = Some (Validate j' s', x) ->
          j' = j
          /\ take i cs = map returned [Open p j; ReplaceNull j])
    /\ (forall i cls self s' d' x,
          cs !! i = Some (Update cls self s' d', x) ->
          s' = s /\ d' = d
          /\ take 5 cs
             = map returned [Open p j; ReplaceNull j; Validate j s; Modify s;
                             Create acc d])
    /\ (forall i d' dir x,
          cs !! i = Some (Save d' dir, x) ->
          d' = d
          /\ take i cs
             = map returned ([Open p j; ReplaceNull j; Validate j s; Modify s;
                              Create acc d]
                             ++ update_calls mappers mapper_classes s d)
          /\ length cs = S i))
  /\ (forall ms,
        Forall2 (fun self ca => instances w !! self = Some ca) mappers ms ->
        reaches_reading w input_file engine image override = true ->
        let w' := world_read w input_file engine image override in
        match prepare (files w') (json_path input_file) acc with
        | Unread e =>
            res r = Raise e
            /\ jsons (final r) = jsons w /\ sources (final r) = sources w
            /\ dests (final r) = dests w /\ instances (final r) = instances w
            /\ files (final r) = files w'
        | Unnormalised data' e | Invalid data' e =>
            res r = Raise e
            /\ jsons (final r) = jsons w ++ [data']
            /\ sources (final r) = sources w
            /\ dests (final r) = dests w /\ instances (final r) = instances w
            /\ files (final r) = files w'
        | Unmodified data' model' e | Uncreated data' model' e =>
            res r = Raise e
            /\ jsons (final r) = jsons w ++ [data']
            /\ sources (final r) = sources w ++ [model']
            /\ dests (final r) = dests w /\ instances (final r) = instances w
            /\ files (final r) = files w'
        | Prepared data' model' study =>
            let mapped := apply_mappers ms model' study in
            match mapped.2 with
            | None =>
                res r = raised_outcome
                          (save_metabolights_study_model (files w') mapped.1.2
                             (Py.join out acc)).2
                /\ files (final r)
                   = (save_metabolights_study_model (files w') mapped.1.2
                        (Py.join out acc)).1
            | Some e => res r = Raise e /\ files (final r) = files w'
            end
            /\ jsons (final r) = jsons w ++ [data']
            /\ sources (final r) = sources w ++ [mapped.1.1]
            /\ dests (final r) = dests w ++ [mapped.1.2]
        end).
Proof.
  intros Hloaded r cs j s d. split.
  - exact (steps_in_order mappers input_file out acc engine image override w
             Hloaded).
  - intros ms Hms Hreach.
    exact (convert_staged mappers ms input_file out acc engine image override w
             (proj2 Hloaded) Hms Hreach).
Qed.

(** The path that is opened for an input that is not JSON. *)
Lemma sibling_opened
    mappers input_file out acc engine image override w :
  loaded mappers w ->
  Py.lower (Py.splitext input_file).2 <> ".json" ->
  let r := convert mappers input_file out acc engine image override w in
  let cs := calls_of (log r) in
  (forall i p j x,
     cs !! i = Some (Open p j, x) -> p = (input_file ++ ".json")%string)
  /\ (path_exists (files w) (input_file ++ ".json")%string = true ->
      Py.truthy override = false ->
      launches_of (log r) = []
      /\ exists x rest,
           cs = (Open (input_file ++ ".json")%string (length (jsons w)), x) :: rest).
Proof.
  intros Hloaded Hext r cs.
  pose proof (convert_resolved mappers input_file out acc engine image override w
                (proj1 Hloaded)) as H.
  cbv zeta in H. destruct H as (pre & op & w' & Hres & Hlaunch & _ & Hop).
  fold r in Hlaunch, Hop. fold cs in Hop.
  apply json_extension_false in Hext.
  destruct Hres as [Hjson | Hjson Hov Hex | e0 Hjson Hwhy Hreal
                    | abs_path r0 f Hjson Hwhy Hreal Hrun]; try congruence.
  - destruct Hop as (n & x & rest & Hseg & Hhead & _). split.
    + intros i p j y Hi. eapply open_lookup; eauto.
    + intros _ _. split; [|eauto].
      rewrite Hlaunch, launches_of_app, header_launches. reflexivity.
  - split.
    + destruct Hop as (_ & Hlog & _). intros i p j y Hi.
      unfold cs in Hi. rewrite Hlog, header_calls in Hi. discriminate.
    + intros Hex Hov. destruct Hwhy; congruence.
  - split.
    + destruct (tool_succeeded r0).
      * destruct Hop as (n & x & rest & Hseg & Hhead & _).
        intros i p j y Hi. eapply open_lookup; eauto.
      * destruct Hop as (_ & Hlog & _). intros i p j y Hi.
        unfold cs in Hi. rewrite Hlog, !calls_of_app, header_calls in Hi.
        simpl in Hi. rewrite tool_report_calls in Hi. discriminate.
    + intros Hex Hov. destruct Hwhy; congruence.
Qed.

Lemma reading_existing w input_file engine image override :
  json_extension input_file = false ->
  Py.truthy override = false ->
  path_exists (files w) (input_file ++ ".json")%string = true ->
  reaches_reading w input_file engine image override = true
  /\ world_read w input_file engine image override = w
  /\ json_path input_file = (input_file ++ ".json")%string.
Proof.
  intros Hjson Hov Hex.
  unfold reaches_reading, world_read, json_path, tool_needed.
  rewrite Hjson, Hov, Hex. auto.
Qed.

Lemma reading_converted w input_file engine image override abs_path t f :
  json_extension input_file = false ->
  Py.truthy override = true
  \/ path_exists (files w) (input_file ++ ".json")%string = false ->
  realpath (files w) input_file = inr abs_path ->
  subprocess_run (files w) (tool_command abs_path engine image) 120
  = (Completed t, f) ->
  reaches_reading w input_file engine image override = true
  /\ world_read w input_file engine image override = set_files f w
  /\ json_path input_file = (input_file ++ ".json")%string.
Proof.
  intros Hjson Hwhy Hreal Hrun.
  assert (Hneed : tool_needed w input_file override = true).
  { unfold tool_needed. rewrite Hjson.
    destruct Hwhy as [-> | ->]; [reflexivity | apply orb_true_r]. }
  unfold reaches_reading, world_read, json_path, tool_outcome.
  rewrite Hneed, Hjson, Hreal, Hrun. auto.
Qed.

(** C10.  When the extension of the input file, in lower case, is not
    [".json"], the only file that is opened and parsed as the model is the
    one at the input path with [".json"] appended.  When that file exists
    and the override option is false, the container is not launched and
    the file is read from the file system as the run found it.  Otherwise,
    when the container has run and succeeded, the file is read from the
    file system as the container left it.  In both cases the attempt to
    read is the first collaborator call of the run; when it fails, its
    exception leaves [convert]; when it succeeds, the document that was
    read is the JSON document of the run, which
    [replace_null_string_with_none] then normalises.  When line 143 is not
    reached, nothing is read. *)
Theorem other_input_is_read_from_its_json_sibling
    mappers input_file out acc engine image override w :
  loaded mappers w ->
  Py.lower (Py.splitext input_file).2 <> ".json" ->
  let r := convert mappers input_file out acc engine image override w in
  let cs := calls_of (log r) in
  let sibling := (input_file ++ ".json")%string in
  let j := length (jsons w) in
  (forall i p j' x, cs !! i = Some (Open p j', x) -> p = sibling)
  /\ (path_exists (files w) sibling = true ->
      Py.truthy override = false ->
      launches_of (log r) = []
      /\ match json_load (files w) sibling with
         | inr data =>
             (exists rest, cs = (Open sibling j, None) :: rest)
             /\ jsons (final r)
                = jsons w ++ [(replace_null_string_with_none data).1]
         | inl e =>
             cs = [(Open sibling j, Some e)]
             /\ res r = Raise e
             /\ jsons (final r) = jsons w
         end)
  /\ (forall abs_path t f,
        Py.truthy override = true \/ path_exists (files w) sibling = false ->
        realpath (files w) input_file = inr abs_path ->
        subprocess_run (files w)
          (container_command engine image (Py.dirname abs_path)
             (Py.basename abs_path)) 120
        = (Completed t, f) ->
        launches_of (log r) = [Completed t]
        /\ match json_load f sibling with
           | inr data =>
               (exists rest, cs = (Open sibling j, None) :: rest)
               /\ jsons (final r)
                  = jsons w ++ [(replace_null_string_with_none data).1]
           | inl e =>
               cs = [(Open sibling j, Some e)]
               /\ res r = Raise e
               /\ jsons (final r) = jsons w
           end)
  /\ (reaches_reading w input_file engine image override = false ->
      cs = [] /\ jsons (final r) = jsons w).
Proof.
  intros Hloaded Hext r cs sibling j.
  destruct (sibling_opened mappers input_file out acc engine image override w
              Hloaded Hext) as [Honly Hquiet].
  fold r in Honly, Hquiet. fold cs sibling in Honly, Hquiet.
  apply json_extension_false in Hext.
  split; [exact Honly|]. split; [|split].
  - intros Hex Hov. split; [apply (Hquiet Hex Hov)|].
    destruct (reading_existing w input_file engine image override Hext Hov Hex)
      as (Hreach & Hw & Hp).
    pose proof (convert_read mappers input_file out acc engine image override w
                  Hloaded Hreach) as H.
    cbv zeta in H. rewrite Hw, Hp in H. fold r sibling j in H. fold cs in H.
    destruct (json_load (files w) sibling) as [e | data].
    + destruct H as (Hr & Hcs & Hj). auto.
    + exact H.
  - intros abs_path t f Hwhy Hreal Hrun. unfold sibling in Hwhy.
    destruct (reading_converted w input_file engine image override abs_path t f
                Hext Hwhy Hreal Hrun) as (Hreach & Hw & Hp).
    split.
    { pose proof (convert_resolved mappers input_file out acc engine image
                    override w (proj1 Hloaded)) as H.
      cbv zeta in H. destruct H as (pre & op & w' & Hres & Hlaunch & _).
      fold r in Hlaunch. rewrite Hlaunch.
      destruct (resolution_summary _ _ _ _ _ _ _ _ Hres) as (_ & _ & -> & _).
      assert (Hneed : tool_needed w input_file override = true).
      { unfold tool_needed. rewrite Hext.
        destruct Hwhy as [-> | ->]; [reflexivity | apply orb_true_r]. }
      unfold preamble. rewrite Hext, Hneed, Hreal.
      unfold tool_command at 1 2. rewrite Hrun. cbn [fst].
      rewrite !launches_of_app, header_launches, tool_report_launches.
      reflexivity. }
    pose proof (convert_read mappers input_file out acc engine image override w
                  Hloaded Hreach) as H.
    cbv zeta in H. rewrite Hw, Hp in H. fold r sibling j in H. fold cs in H.
    change (files (set_files f w)) with f in H.
    destruct (json_load f sibling) as [e | data].
    + destruct H as (Hr & Hcs & Hj). auto.
    + exact H.
  - intros Hreach.
    destruct (convert_unread mappers input_file out acc engine image override w
                Hreach) as (Hcs & Hj & _).
    auto.
Qed.

End Facts.

(** ** The driver at work in the small world *)

(** [os.path] on some paths. *)

Example splitext_mztab :
  Py.splitext "test/data/singaporean-plasma-site1.mzTab"
  = ("test/data/singaporean-plasma-site1", ".mzTab").
Proof. reflexivity. Qed.

Example splitext_json_upper : Py.splitext "a.b/run.JSON" = ("a.b/run", ".JSON").
Proof. reflexivity. Qed.

Example splitext_hidden : Py.splitext "dir/.json" = ("dir/.json", "").
Proof. reflexivity. Qed.

Example splitext_dotted_dir : Py.splitext "a.d/file" = ("a.d/file", "").
Proof. reflexivity. Qed.

Example lower_json : Py.lower ".JsOn" = ".json".
Proof. reflexivity. Qed.

Example dirname_basename :
  (Py.dirname "/home/u/x.mzTab", Py.basename "/home/u/x.mzTab",
   Py.dirname "/x", Py.dirname "x", Py.join "output" "MTBLS1")
  = ("/home/u", "x.mzTab", "/", "", "output/MTBLS1").
Proof. reflexivity. Qed.

Ltac loaded_by_evaluation :=
  split;
  [ repeat (constructor; [eexists; reflexivity|]); constructor
  | apply (bool_decide_unpack _); vm_compute; exact I ].

Lemma mappers_applied_in_declared_order_witness :
  let w := final (import_converter (Toy.world Toy.plain ["x.json"])) in
  let r := convert (seq 0 10) "x.json" "output" "MTBLS1" "docker"
             "jmztab-m:1.0.6" (Py.VBool false) w in
  loaded (seq 0 10) w
  /\ update_calls_of (log r) = update_calls (seq 0 10) mapper_classes 0 0
  /\ dests (final r) !! 0%nat
     = Some ["MTBLS1"; "base"; "contact"; "publication"; "cv"; "sample";
             "sample_processing"; "software"; "database"; "assay"; "summary"]
  /\ instances (final r) !! 9%nat = Some (SmallMoleculeSummaryMapper, 1%nat).
Proof.
  intros w r.
  assert (H : loaded (seq 0 10) w) by loaded_by_evaluation.
  split; [exact H|].
  destruct (mappers_applied_in_declared_order (seq 0 10) "x.json" "output"
              "MTBLS1" "docker" "jmztab-m:1.0.6" (Py.VBool false) w H)
    as (_ & _ & Hall & _ & Hfold & Hattrs).
  assert (Hr : res r = Return tt) by (vm_compute; reflexivity).
  split; [apply Hall; exact Hr|].
  split.
  - assert (Hms : Forall2 (fun self ca => instances w !! self = Some ca)
                    (seq 0 10)
                    (map (fun cls => (cls, 0%nat)) mapper_classes))
      by (repeat (constructor; [reflexivity|]); constructor).
    destruct (Hfold _ ["null"; "x.json"] ["x.json"] ["x.json"]
                ["x.json"; "normalized"] ["MTBLS1"] Hms
                eq_refl eq_refl eq_refl eq_refl eq_refl eq_refl)
      as (_ & _ & Hd & _).
    exact Hd.
  - destruct (Hattrs Hr 9%nat SmallMoleculeSummaryMapper 0%nat)
      as (src & dst & Ha);
      [do 9 right; left; reflexivity | reflexivity | exact Ha].
Defined.

Lemma failing_mapper_stops_the_run_witness :
  let w := final (import_converter (Toy.world Toy.failing_contact ["x.json"])) in
  let r := convert (seq 0 10) "x.json" "output" "MTBLS1" "docker"
             "jmztab-m:1.0.6" (Py.VBool false) w in
  loaded (seq 0 10) w
  /\ calls_of (log r) !! 6%nat
     = Some (Update MetadataContactMapper 1 0 0, Some "KeyError")
  /\ res r = @Raise (Toy.collaborators Toy.failing_contact) unit "KeyError"
  /\ length (calls_of (log r)) = 7%nat
  /\ (forall i' c x, calls_of (log r) !! i' = Some (c, x) -> is_save c = false).
Proof.
  intros w r.
  assert (H : loaded (seq 0 10) w) by loaded_by_evaluation.
  assert (Hi : calls_of (log r) !! 6%nat
               = Some (Update MetadataContactMapper 1 0 0, Some "KeyError"))
    by (vm_compute; reflexivity).
  split; [exact H|]. split; [exact Hi|].
  destruct (failing_mapper_stops_the_run (seq 0 10) "x.json" "output"
              "MTBLS1" "docker" "jmztab-m:1.0.6" (Py.VBool false) w H
              6%nat MetadataContactMapper 1%nat 0%nat 0%nat "KeyError" Hi)
    as (Hr & Hlen & _ & Hsave).
  auto.
Defined.

Lemma processing_steps_in_fixed_order_witness :
  let w := final (import_converter (Toy.world Toy.plain ["x.json"])) in
  let r := convert (seq 0 10) "x.json" "output" "MTBLS1" "docker"
             "jmztab-m:1.0.6" (Py.VBool false) w in
  loaded (seq 0 10) w
  /\ (exists p,
        take 5 (calls_of (log r))
        = map returned [Open p 0; ReplaceNull 0; Validate 0 0; Modify 0;
                        Create "MTBLS1" 0]
        /\ take 15 (calls_of (log r))
           = map returned ([Open p 0; ReplaceNull 0; Validate 0 0; Modify 0;
                            Create "MTBLS1" 0]
                           ++ update_calls (seq 0 10) mapper_classes 0 0)
        /\ length (calls_of (log r)) = 16%nat)
  /\ jsons (final r) = [["x.json"]]
  /\ sources (final r) = [["x.json"; "normalized"]]
  /\ dests (final r)
     = [["MTBLS1"; "base"; "contact"; "publication"; "cv"; "sample";
         "sample_processing"; "software"; "database"; "assay"; "summary"]].
Proof.
  intros w r.
  assert (H : loaded (seq 0 10) w) by loaded_by_evaluation.
  split; [exact H|].
  destruct (processing_steps_in_fixed_order (seq 0 10) "x.json" "output"
              "MTBLS1" "docker" "jmztab-m:1.0.6" (Py.VBool false) w H)
    as [(p & _ & _ & Hupdate & Hsave) Hcontent].
  split.
  - exists p.
    destruct (Hupdate 5%nat MetadataBaseMapper 0%nat 0%nat 0%nat None)
      as (_ & _ & Hfive); [vm_compute; reflexivity|].
    destruct (Hsave 15%nat 0%nat "output/MTBLS1" None)
      as (_ & Hall & Hlen); [vm_compute; reflexivity|].
    auto.
  - assert (Hms : Forall2 (fun self ca => instances w !! self = Some ca)
                    (seq 0 10)
                    (map (fun cls => (cls, 0%nat)) mapper_classes))
      by (repeat (constructor; [reflexivity|]); constructor).
    destruct (Hcontent _ Hms eq_refl) as (_ & Hj & Hs & Hd).
    split; [exact Hj|]. split; [exact Hs | exact Hd].
Defined.


Lemma other_input_is_read_from_its_json_sibling_witness :
  let w1 := final (import_converter
                     (Toy.world Toy.plain ["x.mzTab"; "x.mzTab.json"])) in
  let r1 := convert (seq 0 10) "x.mzTab" "output" "MTBLS1" "docker"
              "jmztab-m:1.0.6" (Py.VBool false) w1 in
  let w2 := final (import_converter (Toy.world Toy.plain ["x.mzTab"])) in
  let r2 := convert (seq 0 10) "x.mzTab" "output" "MTBLS1" "docker"
              "jmztab-m:1.0.6" (Py.VBool false) w2 in
  loaded (seq 0 10) w1
  /\ loaded (seq 0 10) w2
  /\ Py.lower (Py.splitext "x.mzTab").2 <> ".json"
  /\ launches_of (log r1) = []
  /\ (exists rest, calls_of (log r1) = (Open "x.mzTab.json" 0, None) :: rest)
  /\ jsons (final r1) = [["x.mzTab.json"]]
  /\ launches_of (log r2)
     = [Completed {| task_stdout := "ok"; task_stderr := "" |}]
  /\ (exists rest, calls_of (log r2) = (Open "x.mzTab.json" 0, None) :: rest)
  /\ jsons (final r2) = [["x.mzTab.json"]].
Proof.
  intros w1 r1 w2 r2.
  assert (H1 : loaded (seq 0 10) w1) by loaded_by_evaluation.
  assert (H2 : loaded (seq 0 10) w2) by loaded_by_evaluation.
  assert (Hext : Py.lower (Py.splitext "x.mzTab").2 <> ".json")
    by (vm_compute; discriminate).
  split; [exact H1|]. split; [exact H2|]. split; [exact Hext|].
  destruct (other_input_is_read_from_its_json_sibling (seq 0 10) "x.mzTab"
              "output" "MTBLS1" "docker" "jmztab-m:1.0.6" (Py.VBool false) w1
              H1 Hext) as (_ & Hexisting & _).
  destruct (Hexisting eq_refl eq_refl) as (Hquiet & Hopen1 & Hdoc1).
  destruct (other_input_is_read_from_its_json_sibling (seq 0 10) "x.mzTab"
              "output" "MTBLS1" "docker" "jmztab-m:1.0.6" (Py.VBool false) w2
              H2 Hext) as (_ & _ & Hconverted & _).
  destruct (Hconverted "/data/x.mzTab"
              {| task_stdout := "ok"; task_stderr := "" |}
              ["x.mzTab.json"; "x.mzTab"] (or_intror eq_refl)
              eq_refl eq_refl) as (Hlaunch & Hopen2 & Hdoc2).
  split; [exact Hquiet|]. split; [exact Hopen1|]. split; [exact Hdoc1|].
  split; [exact Hlaunch|]. split; [exact Hopen2 | exact Hdoc2].
Defined.

Lemma timed_out_preconversion_ends_the_run_witness :
  let w := final (import_converter (Toy.world Toy.timing_out ["x.mzTab"])) in
  let r := convert (seq 0 10) "x.mzTab" "output" "MTBLS1" "docker"
             "jmztab-m:1.0.6" (Py.VBool false) w in
  loaded (seq 0 10) w
  /\ launches_of (log r) !! 0%nat
     = Some (TimeoutExpired "partial output" "engine not responding")
  /\ res r = SysExit 1
  /\ launches_of (log r)
     = [TimeoutExpired "partial output" "engine not responding"]
  /\ calls_of (log r) = [].
Proof.
  intros w r.
  assert (H : loaded (seq 0 10) w) by loaded_by_evaluation.
  assert (Hi : launches_of (log r) !! 0%nat
               = Some (TimeoutExpired "partial output" "engine not responding"))
    by (vm_compute; reflexivity).
  split; [exact H|]. split; [exact Hi|].
  destruct (timed_out_preconversion_ends_the_run (seq 0 10) "x.mzTab" "output"
              "MTBLS1" "docker" "jmztab-m:1.0.6" (Py.VBool false) w H
              0%nat "partial output" "engine not responding" Hi)
    as (Hr & _ & _ & _ & Hlaunch & Hcalls & _).
  auto.
Defined.

Lemma tool_failure_is_fatal_and_reported_witness :
  let w := final (import_converter (Toy.world Toy.exiting ["x.mzTab"])) in
  let r := convert (seq 0 10) "x.mzTab" "output" "MTBLS1" "docker"
             "jmztab-m:1.0.6" (Py.VBool false) w in
  loaded (seq 0 10) w
  /\ launches_of (log r) !! 0%nat
     = Some (CalledProcessError 127 "" "sh: 1: docker: not found")
  /\ res r = SysExit 1
  /\ calls_of (log r) = []
  /\ printed (log r)
     = [disclaimer; launching;
        "The conversion of the mzTab file to mzTab json format failed.";
        "sh: 1: docker: not found"].
Proof.
  intros w r.
  assert (H : loaded (seq 0 10) w) by loaded_by_evaluation.
  assert (Hi : launches_of (log r) !! 0%nat
               = Some (CalledProcessError 127 "" "sh: 1: docker: not found"))
    by (vm_compute; reflexivity).
  split; [exact H|]. split; [exact Hi|].
  destruct (tool_failure_is_fatal_and_reported (seq 0 10) "x.mzTab" "output"
              "MTBLS1" "docker" "jmztab-m:1.0.6" (Py.VBool false) w H
              0%nat _ Hi eq_refl)
    as (Hr & _ & Hcalls & _ & Hprinted).
  auto.
Defined.

(** C7 as the specification has it fails on a time-out: the run ends in
    [sys.exit(1)] and neither the captured standard error nor the captured
    standard output of the tool is among the lines printed. *)
Lemma timeout_report_lacks_the_captured_output :
  let r := Toy.run_once Toy.timing_out ["x.mzTab"] "x.mzTab" (Py.VBool false) in
  launches_of (log r)
  = [TimeoutExpired "partial output" "engine not responding"]
  /\ res r = SysExit 1
  /\ printed (log r)
     = [disclaimer; launching;
        "The conversion of the mzTab file to mzTab json format timed out."]
  /\ reports_captured_output
       (TimeoutExpired "partial output" "engine not responding") (log r)
     = false.
Proof. vm_compute. auto. Qed.

(** C3 as the specification has it fails: the list display has a tenth
    entry, [MetadataBaseMapper], which is none of the nine facets and comes
    first. *)
Lemma mapper_list_is_not_the_nine_facets :
  length mapper_classes <> 9%nat
  /\ mapper_classes <> facet_mappers
  /\ head mapper_classes = Some MetadataBaseMapper
  /\ ~ In MetadataBaseMapper facet_mappers.
Proof.
  split; [discriminate|]. split; [discriminate|]. split; [reflexivity|].
  simpl. intuition discriminate.
Qed.

(** With mappers that do keep state, the second call of [convert] in a
    process is handed it: the rows it writes show the count the first call
    has left in each instance. *)
Example retained_state_is_seen_by_the_next_run :
  let r1 := Toy.run_once Toy.counting_calls ["x.json"] "x.json" (Py.VBool false) in
  let r2 := Toy.run_twice Toy.counting_calls ["x.json"] "x.json" (Py.VBool false) in
  dests (final r1) !! 0%nat
  = Some ["MTBLS1"; "base#0"; "contact#0"; "publication#0"; "cv#0"; "sample#0";
          "sample_processing#0"; "software#0"; "database#0"; "assay#0";
          "summary#0"]
  /\ dests (final r2) !! 1%nat
     = Some ["MTBLS1"; "base#1"; "contact#1"; "publication#1"; "cv#1"; "sample#1";
             "sample_processing#1"; "software#1"; "database#1"; "assay#1";
             "summary#1"]
  /\ length (instances (final r2)) = 10%nat.
Proof. vm_compute. auto. Qed.

(** ** More of [convert] at work in the small world *)

Lemma container_is_launched_exactly_when_needed_witness :
  let w := final (import_converter (Toy.world Toy.plain ["a b/x.mzTab"])) in
  let r := convert (seq 0 10) "a b/x.mzTab" "output" "MTBLS1" "podman"
             "jmztab-m:1.0.6" (Py.VBool false) w in
  loaded (seq 0 10) w
  /\ commands_of (log r)
     = [(["sh"; "-c";
          "podman run --rm -v /data/a b:/home/data:rw --workdir=/home/data jmztab-m:1.0.6 jmztab-m -c /home/data/x.mzTab --toJson -o /home/data/x.mzTab_validation.txt"],
         120)].
Proof.
  intros w r.
  assert (H : loaded (seq 0 10) w) by loaded_by_evaluation.
  split; [exact H|].
  pose proof (container_is_launched_exactly_when_needed (seq 0 10) "a b/x.mzTab"
                "output" "MTBLS1" "podman" "jmztab-m:1.0.6" (Py.VBool false) w H)
    as Hlaunch.
  cbv zeta in Hlaunch. fold r in Hlaunch. rewrite Hlaunch.
  vm_compute. reflexivity.
Defined.

Lemma lines_printed_by_a_run_witness :
  let w := final (import_converter
                    (Toy.world Toy.plain ["test/data/singapore.mzTab"])) in
  let r := convert (seq 0 10) "test/data/singapore.mzTab" "output" "MTBLS1"
             "docker" "jmztab-m:1.0.6" (Py.VBool false) w in
  loaded (seq 0 10) w
  /\ printed (log r)
     = [disclaimer;
        "Using default input file: test/data/singaporean-plasma-site1.mzTab";
        "Please use the --input-file option to specify a custom input file.";
        launching;
        "ok"].
Proof.
  intros w r.
  assert (H : loaded (seq 0 10) w) by loaded_by_evaluation.
  split; [exact H|].
  pose proof (lines_printed_by_a_run (seq 0 10) "test/data/singapore.mzTab"
                "output" "MTBLS1" "docker" "jmztab-m:1.0.6" (Py.VBool false) w H)
    as Hlines.
  cbv zeta in Hlines. fold r in Hlines. rewrite Hlines.
  vm_compute. reflexivity.
Defined.

Lemma unreadable_model_file_ends_the_run_witness :
  let w := final (import_converter (Toy.world Toy.plain [])) in
  let r := convert (seq 0 10) "missing.json" "output" "MTBLS1" "docker"
             "jmztab-m:1.0.6" (Py.VBool false) w in
  reaches_reading w "missing.json" "docker" "jmztab-m:1.0.6" (Py.VBool false) = true
  /\ json_load (files (world_read w "missing.json" "docker" "jmztab-m:1.0.6"
                         (Py.VBool false)))
               (json_path "missing.json")
     = inl ("FileNotFoundError" : @Exc (Toy.collaborators Toy.plain))
  /\ res r = @Raise (Toy.collaborators Toy.plain) unit "FileNotFoundError"
  /\ final r = w.
Proof.
  intros w r.
  assert (Hreach : reaches_reading w "missing.json" "docker" "jmztab-m:1.0.6"
                     (Py.VBool false) = true) by reflexivity.
  assert (Hload : json_load (files (world_read w "missing.json" "docker"
                                      "jmztab-m:1.0.6" (Py.VBool false)))
                            (json_path "missing.json")
                  = inl ("FileNotFoundError" : @Exc (Toy.collaborators Toy.plain)))
    by reflexivity.
  split; [exact Hreach|]. split; [exact Hload|].
  destruct (unreadable_model_file_ends_the_run (seq 0 10) "missing.json" "output"
              "MTBLS1" "docker" "jmztab-m:1.0.6" (Py.VBool false) w _
              Hreach Hload) as (Hr & _ & Hw & _).
  split; [exact Hr | exact Hw].
Defined.

Lemma study_is_saved_under_the_joined_path_witness :
  let w := final (import_converter (Toy.world Toy.plain ["x.json"])) in
  let r := convert (seq 0 10) "x.json" "output" "/MTBLS1" "docker"
             "jmztab-m:1.0.6" (Py.VBool false) w in
  loaded (seq 0 10) w
  /\ calls_of (log r) !! 15%nat = Some (Save 0 "/MTBLS1", None)
  /\ Py.join "output" "/MTBLS1" = "/MTBLS1".
Proof.
  intros w r.
  assert (H : loaded (seq 0 10) w) by loaded_by_evaluation.
  assert (Hi : calls_of (log r) !! 15%nat = Some (Save 0 "/MTBLS1", None))
    by (vm_compute; reflexivity).
  split; [exact H|]. split; [exact Hi|].
  destruct (study_is_saved_under_the_joined_path (seq 0 10) "x.json" "output"
              "/MTBLS1" "docker" "jmztab-m:1.0.6" (Py.VBool false) w H
              15%nat 0%nat "/MTBLS1" None Hi) as (Hdir & _ & _).
  symmetry. exact Hdir.
Defined.

Lemma run_returns_exactly_when_the_study_is_saved_witness :
  let w := final (import_converter (Toy.world Toy.plain ["x.json"])) in
  let r := convert (seq 0 10) "x.json" "output" "MTBLS1" "docker"
             "jmztab-m:1.0.6" (Py.VBool false) w in
  loaded (seq 0 10) w
  /\ res r = Return tt
  /\ length (calls_of (log r)) = 16%nat.
Proof.
  intros w r.
  assert (H : loaded (seq 0 10) w) by loaded_by_evaluation.
  split; [exact H|].
  destruct (run_returns_exactly_when_the_study_is_saved (seq 0 10) "x.json"
              "output" "MTBLS1" "docker" "jmztab-m:1.0.6" (Py.VBool false) w H)
    as ([_ Hsaved] & Hall & _).
  assert (Hr : res r = Return tt).
  { apply Hsaved. exists 15%nat, 0%nat, "output/MTBLS1".
    vm_compute. reflexivity. }
  split; [exact Hr | apply Hall; exact Hr].
Defined.

Lemma mapper_loop_folds_the_updates_witness :
  let w := Toy.stocked Toy.failing_contact 0 [] in
  let ms : list (mapper_class * @Attrs (Toy.collaborators Toy.failing_contact)) :=
    map (fun cls => (cls, 0%nat)) mapper_classes in
  let r := for_each (seq 0 10) (fun mapper => mapper_update mapper 0 0) w in
  NoDup (seq 0 10)
  /\ Forall2 (fun self ca => instances w !! self = Some ca) (seq 0 10) ms
  /\ res r = @Raise (Toy.collaborators Toy.failing_contact) unit "KeyError"
  /\ dests (final r) = [["MTBLS1"; "base"; "contact"]].
Proof.
  intros w ms r.
  assert (Hnd : NoDup (seq 0 10))
    by (apply (bool_decide_unpack _); vm_compute; exact I).
  assert (Hms : Forall2 (fun self ca => instances w !! self = Some ca)
                  (seq 0 10) ms)
    by (repeat (constructor; [reflexivity|]); constructor).
  split; [exact Hnd|]. split; [exact Hms|].
  destruct (mapper_loop_folds_the_updates
              (C := Toy.collaborators Toy.failing_contact)
              (seq 0 10) ms w 0%nat 0%nat
              ["sample-1"; "normalized"] ["MTBLS1"] Hnd Hms eq_refl eq_refl)
    as (Hr & _ & _ & _ & Hd).
  split; [exact Hr | exact Hd].
Defined.

Lemma run_ends_as_the_fold_of_the_mappers_decides_witness :
  let w := final (import_converter (Toy.world Toy.plain ["x.mzTab"])) in
  let ms : list (mapper_class * @Attrs (Toy.collaborators Toy.plain)) :=
    map (fun cls => (cls, 0%nat)) mapper_classes in
  let r := convert (seq 0 10) "x.mzTab" "output" "MTBLS1" "docker"
             "jmztab-m:1.0.6" (Py.VBool false) w in
  NoDup (seq 0 10)
  /\ Forall2 (fun self ca => instances w !! self = Some ca) (seq 0 10) ms
  /\ reaches_reading w "x.mzTab" "docker" "jmztab-m:1.0.6" (Py.VBool false) = true
  /\ res r = Return tt
  /\ files (final r) = ["output/MTBLS1"; "x.mzTab.json"; "x.mzTab"]
  /\ jsons (final r) = [["x.mzTab.json"]]
  /\ sources (final r) = [["x.mzTab.json"; "normalized"]]
  /\ dests (final r)
     = [["MTBLS1"; "base"; "contact"; "publication"; "cv"; "sample";
         "sample_processing"; "software"; "database"; "assay"; "summary"]].
Proof.
  intros w ms r.
  assert (Hnd : NoDup (seq 0 10))
    by (apply (bool_decide_unpack _); vm_compute; exact I).
  assert (Hms : Forall2 (fun self ca => instances w !! self = Some ca)
                  (seq 0 10) ms)
    by (repeat (constructor; [reflexivity|]); constructor).
  assert (Hreach : reaches_reading w "x.mzTab" "docker" "jmztab-m:1.0.6"
                     (Py.VBool false) = true) by reflexivity.
  split; [exact Hnd|]. split; [exact Hms|]. split; [exact Hreach|].
  destruct (run_ends_as_the_fold_of_the_mappers_decides
              (C := Toy.collaborators Toy.plain) (seq 0 10) ms "x.mzTab"
              "output" "MTBLS1" "docker" "jmztab-m:1.0.6" (Py.VBool false) w
              ["null"; "x.mzTab.json"] ["x.mzTab.json"] ["x.mzTab.json"]
              ["x.mzTab.json"; "normalized"] ["MTBLS1"]
              Hnd Hms Hreach eq_refl eq_refl eq_refl eq_refl eq_refl)
    as ([Hr Hf] & Hj & Hs & Hd).
  auto 10.
Defined.

Lemma opened_path_ends_in_json_witness :
  let w := final (import_converter (Toy.world Toy.plain ["run.JSON"])) in
  let r := convert (seq 0 10) "run.JSON" "output" "MTBLS1" "docker"
             "jmztab-m:1.0.6" (Py.VBool false) w in
  loaded (seq 0 10) w
  /\ calls_of (log r) !! 0%nat = Some (Open "run.JSON" 0, None)
  /\ Py.endswith (Py.lower "run.JSON") ".json" = true.
Proof.
  intros w r.
  assert (H : loaded (seq 0 10) w) by loaded_by_evaluation.
  assert (Hi : calls_of (log r) !! 0%nat = Some (Open "run.JSON" 0, None))
    by (vm_compute; reflexivity).
  split; [exact H|]. split; [exact Hi|].
  destruct (opened_path_ends_in_json (seq 0 10) "run.JSON" "output" "MTBLS1"
              "docker" "jmztab-m:1.0.6" (Py.VBool false) w H
              0%nat "run.JSON" 0%nat None Hi) as [_ Hend].
  exact Hend.
Defined.

Lemma json_input_has_a_stem_witness :
  Py.lower (Py.splitext "data/run.JSON").2 = ".json"
  /\ (Py.splitext "data/run.JSON").1 <> ""
  /\ Py.endswith (Py.splitext "data/run.JSON").1 "/" = false.
Proof.
  assert (H : Py.lower (Py.splitext "data/run.JSON").2 = ".json") by reflexivity.
  split; [exact H|].
  destruct (json_input_has_a_stem "data/run.JSON" H) as (_ & Hstem & Hname).
  split; [exact Hstem | exact Hname].
Defined.

(** A file whose own name is [".json"] is not taken for JSON: the
    container is run on it. *)
Example hidden_json_is_converted :
  let r := Toy.run_once Toy.plain ["dir/.json"] "dir/.json" (Py.VBool false) in
  length (commands_of (log r)) = 1%nat
  /\ (exists x rest, calls_of (log r) = (Open "dir/.json.json" 0, x) :: rest).
Proof. vm_compute. eauto. Qed.

Lemma realpath_failure_leaves_the_run_witness :
  let input_file := String "x" (String Ascii.zero ".mzTab") in
  let w := final (import_converter (Toy.world Toy.plain [input_file])) in
  let r := convert (seq 0 10) input_file "output" "MTBLS1" "docker"
             "jmztab-m:1.0.6" (Py.VBool false) w in
  Py.lower (Py.splitext input_file).2 <> ".json"
  /\ path_exists (files w) (input_file ++ ".json")%string = false
  /\ realpath (files w) input_file
     = inl ("ValueError: embedded null byte" : @Exc (Toy.collaborators Toy.plain))
  /\ res r = @Raise (Toy.collaborators Toy.plain) unit
               "ValueError: embedded null byte"
  /\ printed (log r) = [disclaimer]
  /\ commands_of (log r) = []
  /\ final r = w.
Proof.
  intros input_file w r.
  assert (Hext : Py.lower (Py.splitext input_file).2 <> ".json")
    by (vm_compute; discriminate).
  assert (Hex : path_exists (files w) (input_file ++ ".json")%string = false)
    by reflexivity.
  assert (Hreal : realpath (files w) input_file
                  = inl ("ValueError: embedded null byte"
                         : @Exc (Toy.collaborators Toy.plain)))
    by reflexivity.
  split; [exact Hext|]. split; [exact Hex|]. split; [exact Hreal|].
  destruct (realpath_failure_leaves_the_run (seq 0 10) input_file "output"
              "MTBLS1" "docker" "jmztab-m:1.0.6" (Py.VBool false) w _
              Hext (or_intror Hex) Hreal)
    as (Hr & _ & Hlog & Hcommands & _ & Hw).
  fold r in Hr, Hlog, Hcommands, Hw.
  split; [exact Hr|]. split; [rewrite Hlog; reflexivity|].
  split; [exact Hcommands | exact Hw].
Defined.
